(** * C# project analyser: a shallow embedding of [analyze_cs_projects.py]
      and [nuget.py], and the properties of its reference table.

    The script walks a folder, reads every [.csproj] file and its sibling
    [packages.config], asks the NuGet registry about the references that are
    packages, and renders two HTML tables.  Everything the script takes from
    its surroundings (the file tree, the XML documents, the HTTP answers, the
    [os.path] helpers, the case mappings of [str], the temporary file and
    the browser) is gathered in a record [Env]; the Python objects that
    are shared and mutated ([self.all_references], the usage lists of the
    matrix) are threaded through explicitly. *)

From Stdlib Require Import Ascii String ZArith Sorting.Sorted Permutation.
From stdpp Require Import base option list gmap strings.

Local Open Scope string_scope.
Local Open Scope list_scope.

(** ** Python strings *)

Module PyStr.

(** [s.split(sep)] for a one-character separator: the pieces between the
    occurrences of [sep]; the result is never empty. *)
Fixpoint split (sep : ascii) (s : string) : list string :=
  match s with
  | EmptyString => [EmptyString]
  | String c rest =>
      if Ascii.eqb c sep then EmptyString :: split sep rest
      else match split sep rest with
           | [] => [String c EmptyString]
           | tok :: toks => String c tok :: toks
           end
  end.

(** [sep.join(l)] *)
Fixpoint join (sep : string) (l : list string) : string :=
  match l with
  | [] => ""
  | [x] => x
  | x :: rest => x +:+ sep +:+ join sep rest
  end.

(** Case on the ASCII letters.  The strings of this development are byte
    strings (UTF-8): a byte below 128 is an ASCII character, the others are
    the pieces of the characters beyond ASCII. *)
Definition lower_ascii (c : ascii) : ascii :=
  let n := nat_of_ascii c in
  if ((65 <=? n)%nat && (n <=? 90)%nat)%bool then ascii_of_nat (n + 32) else c.

Definition upper_ascii (c : ascii) : ascii :=
  let n := nat_of_ascii c in
  if ((97 <=? n)%nat && (n <=? 122)%nat)%bool then ascii_of_nat (n - 32) else c.

Fixpoint map_chars (f : ascii -> ascii) (s : string) : string :=
  match s with
  | EmptyString => EmptyString
  | String c rest => String (f c) (map_chars f rest)
  end.

(** A string with its ASCII letters lower-cased and the rest kept.  This is
    not [s.lower()], which knows the letters beyond ASCII and is left to the
    surroundings; the two agree on ASCII strings. *)
Definition ascii_lower : string -> string := map_chars lower_ascii.

Definition is_ascii (c : ascii) : bool := (nat_of_ascii c <? 128)%nat.

Definition flush (f : string -> string) (run : string) : string :=
  match run with
  | EmptyString => EmptyString
  | _ => f run
  end.

(** [s.upper()].  Python maps the string character by character: an ASCII
    character by [upper_ascii]; what becomes of a run of characters beyond
    ASCII is given by [f].  [run] is the run read so far. *)
Fixpoint upper_from (f : string -> string) (run s : string) : string :=
  match s with
  | EmptyString => flush f run
  | String c rest =>
      if is_ascii c
      then String.append (flush f run)
                         (String (upper_ascii c) (upper_from f EmptyString rest))
      else upper_from f (String.append run (String c EmptyString)) rest
  end.

(** [s[n:]] *)
Fixpoint drop (n : nat) (s : string) : string :=
  match n, s with
  | O, _ => s
  | S n', EmptyString => EmptyString
  | S n', String _ rest => drop n' rest
  end.

(** [c in s] *)
Fixpoint contains (c : ascii) (s : string) : bool :=
  match s with
  | EmptyString => false
  | String d rest => Ascii.eqb d c || contains c rest
  end.

End PyStr.

(** ** Exceptions and the two monads of the embedding *)

Inductive exn : Type :=
| IndexError | KeyError | TypeError | AttributeError | StopIteration
| ParseError | FileNotFoundError | RequestError
| OSError | UnicodeEncodeError | BrowserError.

Inductive result (A : Type) : Type :=
| Ok (a : A)
| Raise (e : exn).
Arguments Ok {A} a.
Arguments Raise {A} e.

Definition rbind {A B} (r : result A) (k : A -> result B) : result B :=
  match r with
  | Ok a => k a
  | Raise e => Raise e
  end.

#[global] Instance result_ret : MRet result := fun A a => Ok a.
#[global] Instance result_bind : MBind result := fun A B k r => rbind r k.

(** A list comprehension whose body may raise: left to right, the first
    exception ends it. *)
Fixpoint rmap {A B} (f : A -> result B) (l : list A) : result (list B) :=
  match l with
  | [] => Ok []
  | x :: rest => y ← f x; ys ← rmap f rest; Ok (y :: ys)
  end.

(** A comprehension with an [if] clause that may raise. *)
Fixpoint rfilter {A} (p : A -> result bool) (l : list A) : result (list A) :=
  match l with
  | [] => Ok []
  | x :: rest =>
      b ← p x; ys ← rfilter p rest; Ok (if (b : bool) then x :: ys else ys)
  end.

(** ** JSON values as [response.json()] decodes them

    A number is kept as an integer: the script never looks inside one. *)

#[warnings="-register-all"] Inductive json : Type :=
| JNull
| JBool (b : bool)
| JNum (z : Z)
| JStr (s : string)
| JArr (items : list json)
| JObj (fields : list (string * json)).

Module Json.

Fixpoint assoc {V} (k : string) (kvs : list (string * V)) : option V :=
  match kvs with
  | [] => None
  | (k', v) :: rest => if String.eqb k' k then Some v else assoc k rest
  end.

(** [j[key]] for a string key: only a dict can be indexed by a string. *)
Definition getitem (j : json) (key : string) : result json :=
  match j with
  | JObj kvs =>
      match assoc key kvs with
      | Some v => Ok v
      | None => Raise KeyError
      end
  | _ => Raise TypeError
  end.

Fixpoint chars (s : string) : list json :=
  match s with
  | EmptyString => []
  | String c rest => JStr (String c EmptyString) :: chars rest
  end.

(** [for x in j]: a list gives its items, a dict its keys, a string its
    characters; the other values are not iterable. *)
Definition iter (j : json) : result (list json) :=
  match j with
  | JArr l => Ok l
  | JObj kvs => Ok (map (fun kv => JStr (fst kv)) kvs)
  | JStr s => Ok (chars s)
  | _ => Raise TypeError
  end.

(** [j == s] for a Python string [s] *)
Definition eq_str (j : json) (s : string) : bool :=
  match j with
  | JStr t => String.eqb t s
  | _ => false
  end.

(** [", ".join(l)]: every item has to be a string. *)
Definition as_str (j : json) : result string :=
  match j with
  | JStr s => Ok s
  | _ => Raise TypeError
  end.

Definition join (sep : string) (l : list json) : result string :=
  strs ← rmap as_str l; Ok (PyStr.join sep strs).

End Json.

(** ** XML documents as [xml.etree.ElementTree] gives them *)

#[warnings="-register-all"] Inductive Element : Type :=
| Elt (tag : string) (attrib : list (string * string)) (text : option string)
      (children : list Element).

Module ET.

Definition tag (e : Element) : string := let 'Elt t _ _ _ := e in t.
Definition attrib (e : Element) := let 'Elt _ a _ _ := e in a.
Definition text (e : Element) : option string := let 'Elt _ _ t _ := e in t.
Definition children (e : Element) : list Element := let 'Elt _ _ _ c := e in c.

(** [e.get(key)] *)
Definition get (e : Element) (key : string) : option string :=
  Json.assoc key (attrib e).

(** [e.findall("t1/t2/...")]: the path is given as the list of its tags
    (a tag carries its namespace in braces, which the path syntax does not
    split).  The matches come in document order. *)
Fixpoint findall (path : list string) (e : Element) : list Element :=
  match path with
  | [] => [e]
  | t :: path' =>
      flat_map (findall path')
               (filter (fun c => String.eqb (tag c) t = true) (children e))
  end.

End ET.

(** What [ElementTree.parse] finds in a file. *)
Inductive document : Type :=
| Malformed
| Xml (root : Element).

(** ** Documents of the report

    A document is kept as the tree of tags that [yattag] serialises. *)

#[warnings="-register-all"] Inductive html : Type :=
| Tag (name : string) (body : list html)
| Text (s : string)
| Asis (s : string).

(** ** The surroundings of a run *)

Record Env : Type := {
  (** [os.walk(folder)]: the directories with their file names *)
  os_walk : string -> list (string * list string);
  (** [os.path.join], [os.path.splitext], [os.path.basename], [os.path.dirname] *)
  path_join : string -> string -> string;
  path_splitext : string -> string * string;
  path_basename : string -> string;
  path_dirname : string -> string;
  (** the files: [None] when there is no such file *)
  fs : string -> option document;
  (** [requests.get(url).json()]: [None] when the request or the decoding
      raises *)
  http_get_json : string -> option json;
  (** [str(j)] of a decoded value that is not a string *)
  py_str : json -> string;
  (** [s.lower()] *)
  str_lower : string -> string;
  (** [s.upper()] of a run of characters beyond ASCII (see
      [PyStr.upper_from]) *)
  upper_non_ascii : string -> string;
  (** [tempfile.NamedTemporaryFile(mode='wt', delete=False, suffix=".html")]
      and [f.write(html)]: the name of the file written, or the exception of
      the creation or of the write *)
  save_tmp : list html -> result string;
  (** [webbrowser.open(url)] *)
  webbrowser_open : string -> result bool
}.

(** [s.upper()] *)
Definition str_upper (env : Env) (s : string) : string :=
  PyStr.upper_from (upper_non_ascii env) EmptyString s.

(** ** The data model of [analyze_cs_projects.py] *)

Record NuGetPackage : Type := {
  Id : option string;
  pkg_Version : option string;
  TargetFramework : option string
}.

(** A [Reference] object.  [ref_id] is the identity of the object: the class
    defines neither [__eq__] nor [__hash__], so a dict keyed by references
    compares them by identity. *)
Record Reference : Type := {
  ref_id : nat;
  FullName : string;
  Name : string;
  Version : string;
  IsNuGetPackage : bool;
  LatestVersion : option string
}.

Record ProjectInfo : Type := {
  pi_Name : string;
  File : string;
  TargetFrameworkVersion : option string;
  References : list Reference;
  ng_packages : option (list NuGetPackage)
}.

(** The mutable part of a run: the dict [self.all_references], the next
    object identity, and the URLs requested so far (oldest first). *)
Record state : Type := {
  all_references : gmap string Reference;
  next_id : nat;
  requests : list string
}.

Definition M (A : Type) : Type := state -> result A * state.

Definition ret {A} (a : A) : M A := fun st => (Ok a, st).
Definition raise {A} (e : exn) : M A := fun st => (Raise e, st).
Definition bind {A B} (c : M A) (k : A -> M B) : M B :=
  fun st =>
    match c st with
    | (Ok a, st') => k a st'
    | (Raise e, st') => (Raise e, st')
    end.
Definition lift {A} (r : result A) : M A := fun st => (r, st).

(** [try: body  except: handler]: what [body] changed before it raised
    stays changed. *)
Definition try_except {A} (body handler : M A) : M A :=
  fun st =>
    match body st with
    | (Ok a, st') => (Ok a, st')
    | (Raise _, st') => handler st'
    end.

#[global] Instance M_ret : MRet M := fun A a => ret a.
#[global] Instance M_bind : MBind M := fun A B k c => bind c k.

Fixpoint mapM {A B} (f : A -> M B) (l : list A) : M (list B) :=
  match l with
  | [] => ret []
  | x :: rest => y ← f x; ys ← mapM f rest; ret (y :: ys)
  end.

Definition get_all_references : M (gmap string Reference) :=
  fun st => (Ok (all_references st), st).

Definition set_all_references (m : gmap string Reference) : M unit :=
  fun st => (Ok tt, {| all_references := m; next_id := next_id st;
                       requests := requests st |}).

Definition new_object : M nat :=
  fun st => (Ok (next_id st),
             {| all_references := all_references st; next_id := S (next_id st);
                requests := requests st |}).

(** ** [nuget.py] *)

Section Nuget.
Variable env : Env.

Definition http_get (url : string) : M json :=
  fun st =>
    (match http_get_json env url with
     | Some j => Ok j
     | None => Raise RequestError
     end,
     {| all_references := all_references st; next_id := next_id st;
        requests := requests st ++ [url] |}).

(** [NugetServiceIndex()]: the object is its [api_index]. *)
Definition NugetServiceIndex_init : M json :=
  http_get "https://api.nuget.org/v3/index.json".

Definition get_service_id (api_index : json) (service_name : string)
  : result json :=
  resources ← Json.getitem api_index "resources";
  xs ← Json.iter resources;
  found ← rfilter (fun x => t ← Json.getitem x "@type";
                            Ok (Json.eq_str t service_name)) xs;
  match found with
  | [] => Raise StopIteration
  | service :: _ => Json.getitem service "@id"
  end.

(** the value of [{uri}] in the f-string *)
Definition format_value (j : json) : string :=
  match j with
  | JStr s => s
  | _ => py_str env j
  end.

Definition registration_url (uri : json) (package_id : string) : string :=
  format_value uri +:+ str_lower env package_id +:+ "/index.json".

(** [NugetPackageMetadata(service_index, package_id)]: the object is its
    [registration_info]. *)
Definition NugetPackageMetadata_init (service_index : json)
           (package_id : string) : M json :=
  uri ← lift (get_service_id service_index "RegistrationsBaseUrl");
  http_get (registration_url uri package_id).

Definition get_latest_version (registration_info : json)
  : result (list json) :=
  items ← Json.getitem registration_info "items";
  xs ← Json.iter items;
  rmap (fun x => Json.getitem x "upper") xs.

End Nuget.

(** ** [analyze_cs_projects.py] *)

(** [ProjectInfo.__get_project_name] *)
Definition get_project_name (env : Env) (file : string) : string :=
  fst (path_splitext env (path_basename env file)).

Definition ProjectInfo_init (env : Env) (file : string)
           (target_framework_version : option string)
           (references : list Reference)
           (ng_packages : option (list NuGetPackage)) : ProjectInfo :=
  {| pi_Name := get_project_name env file;
     File := file;
     TargetFrameworkVersion := target_framework_version;
     References := references;
     ng_packages := ng_packages |}.

(** Lines 35-40 of [Reference.__init__]: the bare name and the version token
    of a declared reference. *)
Definition name_and_version (reference_name : string) : result (string * string) :=
  let tokens := PyStr.split "," reference_name in
  let name := hd "" tokens in
  match tokens with
  | _ :: token1 :: _ =>
      match PyStr.split "=" token1 with
      | _ :: v :: _ => Ok (name, v)
      | _ => Raise IndexError
      end
  | _ => Ok (name, "")
  end.

(** The objects of a list are all truthy, so [any] of a list of packages is
    its non-emptiness. *)
Definition any_object {A} (l : list A) : bool := existsb (fun _ => true) l.

Definition has_id (name : string) (p : NuGetPackage) : bool :=
  match Id p with
  | Some i => String.eqb i name
  | None => false
  end.

Section Analyzer.
Variable env : Env.

(** [Reference(nuget_service_index, reference_name, nuget_packages)] *)
Definition Reference_init (nuget_service_index : json)
           (reference_name : string)
           (nuget_packages : option (list NuGetPackage)) : M Reference :=
  self ← new_object;
  '(name, version) ← lift (name_and_version reference_name);
  match nuget_packages with
  | None =>
      ret {| ref_id := self; FullName := reference_name; Name := name;
             Version := version; IsNuGetPackage := false;
             LatestVersion := None |}
  | Some packages =>
      if any_object (filter (fun p => has_id name p = true) packages) then
        metadata ← NugetPackageMetadata_init env nuget_service_index name;
        latest ← lift (versions ← get_latest_version metadata;
                       Json.join ", " versions);
        ret {| ref_id := self; FullName := reference_name; Name := name;
               Version := version; IsNuGetPackage := true;
               LatestVersion := Some latest |}
      else
        ret {| ref_id := self; FullName := reference_name; Name := name;
               Version := version; IsNuGetPackage := false;
               LatestVersion := None |}
  end.

(** [ElementTree.parse(file).getroot()] *)
Definition parse_root (file : string) : M Element :=
  match fs env file with
  | None => raise FileNotFoundError
  | Some Malformed => raise ParseError
  | Some (Xml root) => ret root
  end.

Definition NuGetPackage_of (package : Element) : NuGetPackage :=
  {| Id := ET.get package "id";
     pkg_Version := ET.get package "version";
     TargetFramework := ET.get package "targetFramework" |}.

(** [__read_project_nuget_packages]: [os.path.isfile] is the presence of
    the file. *)
Definition read_project_nuget_packages (project_file : string)
  : M (option (list NuGetPackage)) :=
  let ng_file := path_dirname env project_file +:+ "\packages.config" in
  match fs env ng_file with
  | Some _ =>
      root ← parse_root ng_file;
      ret (Some (map NuGetPackage_of (ET.findall ["package"] root)))
  | None => ret None
  end.

Definition ns : string := "{http://schemas.microsoft.com/developer/msbuild/2003}".

(** The loop of lines 173-176.  A reference element without an [Include]
    attribute gives the name [None], which is in no dict and on which
    [Reference.__init__] raises at its [split]. *)
Fixpoint collect_references (nuget_service_index : json)
         (ng_packages : option (list NuGetPackage))
         (references_names : list (option string))
         (references : list Reference) : M (list Reference) :=
  match references_names with
  | [] => ret references
  | None :: _ => _ ← new_object; raise AttributeError
  | Some ref_name :: rest =>
      known ← get_all_references;
      reference ←
        match known !! ref_name with
        | Some reference => ret reference
        | None =>
            reference ← Reference_init nuget_service_index ref_name ng_packages;
            table ← get_all_references;
            set_all_references (<[ref_name := reference]> table);;
            ret reference
        end;
      collect_references nuget_service_index ng_packages rest
                         (references ++ [reference])
  end.

(** [__read_project_info] *)
Definition read_project_info (folder : string) (nuget_service_index : json)
           (file : string) : M ProjectInfo :=
  ng_packages ← read_project_nuget_packages file;
  root ← parse_root file;
  let version :=
    (* [findall(...)[0].text], [None] when there is no such element *)
    match ET.findall [ns +:+ "PropertyGroup"; ns +:+ "TargetFrameworkVersion"] root with
    | e :: _ => ET.text e
    | [] => None
    end in
  references ←
    try_except
      (let references_names :=
         map (fun reference => ET.get reference "Include")
             (ET.findall [ns +:+ "ItemGroup"; ns +:+ "Reference"] root) in
       collect_references nuget_service_index ng_packages references_names [])
      (ret []);
  let file_relative := PyStr.drop (String.length folder) file in
  ret (ProjectInfo_init env file_relative version references ng_packages).

(** [__get_files_in_folder] *)
Definition get_files_in_folder (folder extension : string) : list string :=
  let files :=
    map (fun '(dirpath, filenames) => map (path_join env dirpath) filenames)
        (filter (fun '(_, filenames) => (0 < length filenames)%nat)
                (os_walk env folder)) in
  let files_flat := concat files in
  let extension := str_upper env extension in
  filter (fun filename =>
            String.eqb (str_upper env (snd (path_splitext env filename))) extension = true)
         files_flat.

End Analyzer.

(** ** [ReferencesMatrix] *)

(** The identity test behind [reference in self.uses]. *)
Definition same_object (a b : Reference) : bool := Nat.eqb (ref_id a) (ref_id b).

(** The dict [uses]: references to usage lists, in insertion order. *)
Module Uses.

Definition t : Type := list (Reference * list bool).

Fixpoint lookup (uses : t) (r : Reference) : option (list bool) :=
  match uses with
  | [] => None
  | (k, v) :: rest => if same_object k r then Some v else lookup rest r
  end.

Definition contains (uses : t) (r : Reference) : bool :=
  match lookup uses r with
  | Some _ => true
  | None => false
  end.

(** [uses[r] = v] for a key that is not in the dict yet *)
Definition add (uses : t) (r : Reference) (v : list bool) : t :=
  uses ++ [(r, v)].

(** the list stored under [r] mutated in place by [f] *)
Fixpoint update (f : list bool -> list bool) (r : Reference) (uses : t) : t :=
  match uses with
  | [] => []
  | (k, v) :: rest =>
      if same_object k r then (k, f v) :: rest else (k, v) :: update f r rest
  end.

Definition keys (uses : t) : list Reference := map fst uses.

End Uses.

Record ReferencesMatrix : Type := {
  uses : Uses.t;
  rm_projects_info : list ProjectInfo
}.

(** Lines 74-76; [project_id] is below [nr_projects] there, so the assignment
    into the list never raises. *)
Definition mark_use (nr_projects project_id : nat) (uses : Uses.t)
           (reference : Reference) : Uses.t :=
  let uses :=
    if Uses.contains uses reference then uses
    else Uses.add uses reference (replicate nr_projects false) in
  Uses.update (fun v => <[project_id := true]> v) reference uses.

(** The loop of lines 71-76; [References] is always a list, so the test of
    line 72 holds. *)
Fixpoint mark_projects (nr_projects project_id : nat)
         (projects_info : list ProjectInfo) (uses : Uses.t) : Uses.t :=
  match projects_info with
  | [] => uses
  | project_info :: rest =>
      mark_projects nr_projects (S project_id) rest
        (fold_left (mark_use nr_projects project_id) (References project_info) uses)
  end.

Definition ReferencesMatrix_init (projects_info : list ProjectInfo)
  : ReferencesMatrix :=
  {| uses := mark_projects (length projects_info) 0 projects_info [];
     rm_projects_info := projects_info |}.

(** ** [HtmlFormatter] *)

(** [line(tag, text)] *)
Definition line (tag_name text : string) : html := Tag tag_name [Text text].

(** [sorted(references, key=lambda ref: ref.Name)]: the stable sort, written
    as an insertion sort that puts an item before the items of equal key
    that followed it. *)
Fixpoint insert_by_name (r : Reference) (l : list Reference) : list Reference :=
  match l with
  | [] => [r]
  | x :: rest =>
      if String.leb (Name r) (Name x) then r :: l else x :: insert_by_name r rest
  end.

Definition sorted_by_name (l : list Reference) : list Reference :=
  foldr insert_by_name [] l.

Definition get_framework_table (projects_info : list ProjectInfo) : list html :=
  [Tag "table"
     (Tag "tr" [line "th" "Project"; line "th" "TargetFrameworkVersion"]
      :: map (fun project =>
                Tag "tr" [line "td" (pi_Name project);
                          line "td" (match TargetFrameworkVersion project with
                                     | Some v => v
                                     | None => ""
                                     end)])
             projects_info)].

(** The cell of line 131: [uses[reference][projectid]] *)
Definition use_cell (uses : Uses.t) (reference : Reference) (projectid : nat)
  : result html :=
  v ← match Uses.lookup uses reference with
      | Some v => Ok v
      | None => Raise KeyError
      end;
  b ← match v !! projectid with
      | Some b => Ok b
      | None => Raise IndexError
      end;
  Ok (line "td" (if (b : bool) then "*" else "")).

Definition reference_cells (reference : Reference) : list html :=
  [line "td" (Name reference);
   line "td" (Version reference);
   line "td" (if IsNuGetPackage reference then "Y" else "N");
   line "td" (match LatestVersion reference with
              | Some v => v
              | None => ""
              end)].

Definition reference_row (projects_info : list ProjectInfo) (uses : Uses.t)
           (reference : Reference) : result html :=
  cells ← rmap (use_cell uses reference) (seq 0 (length projects_info));
  Ok (Tag "tr" (reference_cells reference ++ cells)).

Definition references_header (projects_info : list ProjectInfo) : html :=
  Tag "tr" ([line "th" "Reference"; line "th" "Version";
             line "th" "IsNuGetPackage"; line "th" "LatestVersion"]
            ++ map (fun project => line "th" (pi_Name project)) projects_info).

Definition get_references_table (projects_info : list ProjectInfo)
           (reference_matrix : ReferencesMatrix) : result (list html) :=
  let references := Uses.keys (uses reference_matrix) in
  rows ← rmap (reference_row projects_info (uses reference_matrix))
              (sorted_by_name references);
  Ok [Tag "table" (references_header projects_info :: rows)].

Definition get_output (projects_info : list ProjectInfo)
           (reference_matrix : ReferencesMatrix) : result (list html) :=
  let framework_table := get_framework_table projects_info in
  references_table ← get_references_table projects_info reference_matrix;
  Ok [Asis "<!DOCTYPE html>";
      Tag "html"
        [Tag "head"
           [Tag "style"
              [Text "table, th, td {border: 1px solid black; border-collapse: collapse; }"]];
         Tag "body"
           [Tag "div" (line "h1" ".NET Framework versions" :: framework_table);
            Tag "div" (line "h1" "References" :: references_table)]]].

(** ** [ProjectsAnalyzer] *)

(** What a run showed: the document, the temporary file it was written to
    and the address handed to the browser. *)
Record shown : Type := {
  shown_html : list html;
  shown_file : string;
  shown_url : string
}.

Record ProjectsAnalyzer : Type := {
  pa_folder : string;
  nuget_service_index : json;
  pa_projects_info : list ProjectInfo;
  reference_matrix : ReferencesMatrix
}.

Section Run.
Variable env : Env.

Definition ProjectsAnalyzer_init (folder : string) : M ProjectsAnalyzer :=
  let files := get_files_in_folder env folder ".csproj" in
  set_all_references ∅;;
  index ← NugetServiceIndex_init env;
  projects_info ← mapM (read_project_info env folder index) files;
  ret {| pa_folder := folder;
         nuget_service_index := index;
         pa_projects_info := projects_info;
         reference_matrix := ReferencesMatrix_init projects_info |}.

(** [save_tmp_html] *)
Definition save_tmp_html (html : list html) : result string := save_tmp env html.

(** [open_html]: what [webbrowser.open] returns is not looked at. *)
Definition open_html (filename : string) : result unit :=
  _ ← webbrowser_open env ("file://" +:+ filename); Ok tt.

(** [generate_and_show_report]; the value is what it did. *)
Definition generate_and_show_report (analyzer : ProjectsAnalyzer) : result shown :=
  html ← get_output (pa_projects_info analyzer) (reference_matrix analyzer);
  filename ← save_tmp_html html;
  _ ← open_html filename;
  Ok {| shown_html := html; shown_file := filename;
        shown_url := "file://" +:+ filename |}.

Definition initial_state : state :=
  {| all_references := ∅; next_id := 0; requests := [] |}.

(** [ProjectsAnalyzer(folder).generate_and_show_report()] *)
Definition main (folder : string) : result shown * state :=
  match ProjectsAnalyzer_init folder initial_state with
  | (Ok analyzer, st) => (generate_and_show_report analyzer, st)
  | (Raise e, st) => (Raise e, st)
  end.

End Run.

(** ** Auxiliary notions used in the statements *)

(** The state after one object has been allocated. *)
Definition bump (st : state) : state :=
  {| all_references := all_references st; next_id := S (next_id st);
     requests := requests st |}.

(** The record of a reference that is not a registry package. *)
Definition plain_reference (self : nat) (reference_name name version : string)
  : Reference :=
  {| ref_id := self; FullName := reference_name; Name := name;
     Version := version; IsNuGetPackage := false; LatestVersion := None |}.

(** Every reference string with a second comma-separated token has an ['=']
    in that token. *)
Definition second_token_ok (reference_name : string) : bool :=
  match PyStr.split "," reference_name with
  | _ :: token1 :: _ => PyStr.contains "=" token1
  | _ => true
  end.

(** Project [p] declares the reference object [r]. *)
Definition declares (r : Reference) (p : ProjectInfo) : bool :=
  existsb (same_object r) (References p).

(** The two fields that carry the registry status of a record. *)
Definition registry_status (r : Reference) : bool * option string :=
  (IsNuGetPackage r, LatestVersion r).

(** The records whose bare name is [name]. *)
Definition records_named (name : string) (table : gmap string Reference)
  : list Reference :=
  filter (fun r => Name r = name) (map snd (map_to_list table)).

(** How often [url] was requested. *)
Definition times_requested (url : string) (st : state) : nat :=
  length (filter (fun u => u = url) (requests st)).

(** The records of a table that are flagged as registry packages. *)
Definition packages_of (table : gmap string Reference) : gmap string Reference :=
  filter (fun kv => IsNuGetPackage (snd kv) = true) table.

(** ** A small world for the examples

    Two projects under [C:\src], each with a manifest that lists [Foo]; a
    folder with a project file that is not XML; a folder without project
    files.  The path helpers agree with [ntpath] on the paths that occur,
    and the names are ASCII, on which [str.lower] is [PyStr.ascii_lower]. *)

Module Demo.

Fixpoint rpartition (sep : ascii) (s : string) : option (string * string) :=
  match s with
  | EmptyString => None
  | String c rest =>
      match rpartition sep rest with
      | Some (a, b) => Some (String c a, b)
      | None => if Ascii.eqb c sep then Some (EmptyString, rest) else None
      end
  end.

Definition basename (s : string) : string :=
  match rpartition "\" s with
  | Some (_, b) => b
  | None => s
  end.

Definition dirname (s : string) : string :=
  match rpartition "\" s with
  | Some (a, _) => a
  | None => ""
  end.

Definition splitext (s : string) : string * string :=
  match rpartition "." s with
  | Some (a, b) => (a, String "." b)
  | None => (s, "")
  end.

Definition join (a b : string) : string := a +:+ "\" +:+ b.

Definition project (references : list string) : Element :=
  Elt (ns +:+ "Project") [] None
      [Elt (ns +:+ "PropertyGroup") [] None
           [Elt (ns +:+ "TargetFrameworkVersion") [] (Some "v4.7.2") []];
       Elt (ns +:+ "ItemGroup") [] None
           (map (fun r => Elt (ns +:+ "Reference") [("Include", r)] None [])
                references)].

Definition manifest (ids : list string) : Element :=
  Elt "packages" [] None
      (map (fun i => Elt "package"
                         [("id", i); ("version", "1.0.0");
                          ("targetFramework", "net472")] None [])
           ids).

Definition walk (folder : string) : list (string * list string) :=
  if String.eqb folder "C:\src" then
    [("C:\src", []);
     ("C:\src\app", ["App.csproj"; "packages.config"]);
     ("C:\src\lib", ["Lib.csproj"; "packages.config"])]
  else if String.eqb folder "C:\broken" then [("C:\broken", ["Bad.csproj"])]
  else if String.eqb folder "C:\empty" then [("C:\empty", ["notes.txt"])]
  else [].

Definition files (path : string) : option document :=
  if String.eqb path "C:\src\app\App.csproj" then
    Some (Xml (project ["Foo"; "System"]))
  else if String.eqb path "C:\src\app\packages.config" then
    Some (Xml (manifest ["Foo"]))
  else if String.eqb path "C:\src\lib\Lib.csproj" then
    Some (Xml (project ["Foo, Version=1.0.0.0, Culture=neutral"; "System"]))
  else if String.eqb path "C:\src\lib\packages.config" then
    Some (Xml (manifest ["Foo"]))
  else if String.eqb path "C:\broken\Bad.csproj" then Some Malformed
  else if String.eqb path "C:\empty\notes.txt" then Some Malformed
  else None.

Definition registrations : string :=
  "https://api.nuget.org/v3/registration5-semver1/".

Definition index_json : json :=
  JObj [("version", JStr "3.0.0");
        ("resources",
         JArr [JObj [("@id", JStr "https://api.nuget.org/v3-flatcontainer/");
                     ("@type", JStr "PackageBaseAddress/3.0.0")];
               JObj [("@id", JStr registrations);
                     ("@type", JStr "RegistrationsBaseUrl")]])].

Definition foo_json : json :=
  JObj [("count", JNum 1);
        ("items", JArr [JObj [("lower", JStr "0.1.0"); ("upper", JStr "2.0.0")]])].

Definition http (url : string) : option json :=
  if String.eqb url "https://api.nuget.org/v3/index.json" then Some index_json
  else if String.eqb url (registrations +:+ "foo/index.json") then Some foo_json
  else None.

Definition str (j : json) : string :=
  match j with
  | JNull => "None"
  | JBool true => "True"
  | JBool false => "False"
  | JStr s => s
  | _ => "?"
  end.

Definition tmp_name : string := "C:\Temp\tmpk3x9q2vd.html".

Definition world : Env :=
  {| os_walk := walk; path_join := join; path_splitext := splitext;
     path_basename := basename; path_dirname := dirname;
     fs := files; http_get_json := http; py_str := str;
     str_lower := PyStr.ascii_lower; upper_non_ascii := fun run => run;
     save_tmp := fun _ => Ok tmp_name; webbrowser_open := fun _ => Ok true |}.

(** The same files with the registry out of reach. *)
Definition offline : Env :=
  {| os_walk := walk; path_join := join; path_splitext := splitext;
     path_basename := basename; path_dirname := dirname;
     fs := files; http_get_json := fun _ => None; py_str := str;
     str_lower := PyStr.ascii_lower; upper_non_ascii := fun run => run;
     save_tmp := fun _ => Ok tmp_name; webbrowser_open := fun _ => Ok true |}.

(** The same files with no place for a temporary file. *)
Definition unwritable : Env :=
  {| os_walk := walk; path_join := join; path_splitext := splitext;
     path_basename := basename; path_dirname := dirname;
     fs := files; http_get_json := http; py_str := str;
     str_lower := PyStr.ascii_lower; upper_non_ascii := fun run => run;
     save_tmp := fun _ => Raise OSError; webbrowser_open := fun _ => Ok true |}.

End Demo.

(** ** Definitions of the statements *)

(** C3, as the specification states it: a record built without manifest
    differs in its registry status from a record whose name is in no entry of
    a manifest. *)
Definition three_state_distinction (env : Env) (index : json)
           (reference_name : string) (packages : list NuGetPackage)
           (st : state) : Prop :=
  forall r1 st1 r2 st2,
    Reference_init env index reference_name None st = (Ok r1, st1) ->
    Reference_init env index reference_name (Some packages) st = (Ok r2, st2) ->
    registry_status r1 <> registry_status r2.

(** The order of the rows: by bare name. *)
Definition name_le (a b : Reference) : Prop :=
  String.leb (Name a) (Name b) = true.

(** The table of a run is well formed: a record sits under its own declared
    string, its identity was handed out before, and no two entries share an
    identity. *)
Record table_ok (st : state) : Prop := {
  ok_name : forall s r, all_references st !! s = Some r -> FullName r = s;
  ok_fresh : forall s r, all_references st !! s = Some r ->
                         (ref_id r < next_id st)%nat;
  ok_id : forall s1 s2 r1 r2,
      all_references st !! s1 = Some r1 -> all_references st !! s2 = Some r2 ->
      ref_id r1 = ref_id r2 -> s1 = s2
}.

(** The number of records flagged as registry packages. *)
Definition nr_packages (st : state) : nat :=
  size (packages_of (all_references st)).

(** The state after [self.all_references[ref_name] = r]. *)
Definition with_reference (ref_name : string) (r : Reference) (st : state)
  : state :=
  {| all_references := <[ref_name := r]> (all_references st);
     next_id := next_id st; requests := requests st |}.

(** The reference list of the project is empty. *)
Definition no_references (p : ProjectInfo) : bool :=
  match References p with
  | [] => true
  | _ :: _ => false
  end.

(** One for an exception, zero for a value. *)
Definition raised {A} (res : result A) : nat :=
  match res with
  | Ok _ => 0
  | Raise _ => 1
  end.

(** C1, as the specification states it: after a run no two records of the
    table have the same bare name ... *)
Definition one_record_per_bare_name (env : Env) (folder : string) : Prop :=
  forall analyzer st,
    ProjectsAnalyzer_init env folder initial_state = (Ok analyzer, st) ->
    forall name, (length (records_named name (all_references st)) <= 1)%nat.

(** ... and no URL other than the service index is requested twice. *)
Definition one_query_per_name (env : Env) (folder : string) : Prop :=
  forall analyzer st,
    ProjectsAnalyzer_init env folder initial_state = (Ok analyzer, st) ->
    forall url, url <> "https://api.nuget.org/v3/index.json" ->
                (times_requested url st <= 1)%nat.

(** C2, as the specification states it: reading a project file returns a
    project, whatever the file holds. *)
Definition no_exception_escapes (env : Env) (folder : string) (index : json)
           (file : string) (st : state) : Prop :=
  exists info st', read_project_info env folder index file st = (Ok info, st').

(** The rows of a table after its header row. *)
Definition body_rows (table : list html) : list html :=
  match table with
  | [Tag _ (_ :: rows)] => rows
  | _ => []
  end.

(** The text of the first cell of a row. *)
Definition first_cell (row : html) : option string :=
  match row with
  | Tag _ (Tag _ [Text text] :: _) => Some text
  | _ => None
  end.

(** The rows of a table that begin with the bare name [name]. *)
Definition rows_named (name : string) (table : list html) : list html :=
  filter (fun row => first_cell row = Some name) (body_rows table).

(** C6, as the specification states it: the reference table of a run has
    exactly one row for the bare name of every reference of a project. *)
Definition one_row_per_bare_name (env : Env) (folder : string) : Prop :=
  forall analyzer st table,
    ProjectsAnalyzer_init env folder initial_state = (Ok analyzer, st) ->
    get_references_table (pa_projects_info analyzer) (reference_matrix analyzer)
    = Ok table ->
    forall p r, p ∈ pa_projects_info analyzer -> r ∈ References p ->
                length (rows_named (Name r) table) = 1%nat.

(** The report of a run without projects. *)
Definition empty_report : list html :=
  Eval cbv in
    match get_output [] (ReferencesMatrix_init []) with
    | Ok report => report
    | Raise _ => []
    end.

(** C8, as the specification states it: a folder without project files
    always gives a report. *)
Definition empty_folder_reports (env : Env) (folder : string) : Prop :=
  get_files_in_folder env folder ".csproj" = [] ->
  exists report, fst (main env folder) = Ok report.

(** ** Definitions of the further statements *)

(** The test of the comprehension of line 10 on a resource that has a
    type. *)
Definition has_type (service_name : string) (x : json) : bool :=
  match Json.getitem x "@type" with
  | Ok t => Json.eq_str t service_name
  | Raise _ => false
  end.

Definition typed (x : json) : Prop := exists t, Json.getitem x "@type" = Ok t.

(** Every file of the walk, as a path. *)
Definition walked_files (env : Env) (folder : string) : list string :=
  flat_map (fun entry => map (path_join env (fst entry)) (snd entry))
           (os_walk env folder).

Definition has_extension (env : Env) (extension filename : string) : bool :=
  String.eqb (str_upper env (snd (path_splitext env filename)))
             (str_upper env extension).

(** The row of a reference in the table of the report. *)
Definition reference_row_of (projects_info : list ProjectInfo) (r : Reference)
  : html :=
  Tag "tr" (reference_cells r
            ++ map (fun p => line "td" (if declares r p then "*" else ""))
                   projects_info).

(** The packages of the manifest beside a project file. *)
Definition manifest_packages (env : Env) (file : string)
  : option (list NuGetPackage) :=
  match fs env (path_dirname env file +:+ "\packages.config") with
  | Some (Xml root) => Some (map NuGetPackage_of (ET.findall ["package"] root))
  | _ => None
  end.

(** The version that a project document declares. *)
Definition declared_version (root : Element) : option string :=
  match ET.findall [ns +:+ "PropertyGroup"; ns +:+ "TargetFrameworkVersion"] root with
  | e :: _ => ET.text e
  | [] => None
  end.

(** The [Include] values of the reference elements of a project document. *)
Definition declared_names (root : Element) : list (option string) :=
  map (fun reference => ET.get reference "Include")
      (ET.findall [ns +:+ "ItemGroup"; ns +:+ "Reference"] root).

(** The record [r] under the identity [i]. *)
Definition with_id (i : nat) (r : Reference) : Reference :=
  {| ref_id := i; FullName := FullName r; Name := Name r;
     Version := Version r; IsNuGetPackage := IsNuGetPackage r;
     LatestVersion := LatestVersion r |}.

(** Constructing the reference [s] with the manifest [pk] returns, and gives
    the record [r0], its identity apart. *)
Definition constructs (env : Env) (index : json)
           (pk : option (list NuGetPackage)) (s : string) (r0 : Reference)
  : Prop :=
  fst (Reference_init env index s pk initial_state) = Ok r0.

(** A reference element that can be turned into a record with the manifest
    [pk]. *)
Definition constructible (env : Env) (index : json)
           (pk : option (list NuGetPackage)) (ref_name : option string)
  : Prop :=
  exists s r0, ref_name = Some s /\ constructs env index pk s r0.

(** The record [r] was built for the string [s] from the manifest beside
    [file], a project file that declares [s]. *)
Definition built_from (env : Env) (index : json) (file s : string)
           (r : Reference) : Prop :=
  exists root r0,
    fs env file = Some (Xml root) /\ In (Some s) (declared_names root) /\
    constructs env index (manifest_packages env file) s r0 /\
    r = with_id (ref_id r) r0.

(** A project file that is a document, with a manifest that is one too if it
    is there. *)
Definition well_formed_project (env : Env) (file : string) : Prop :=
  (exists root, fs env file = Some (Xml root)) /\
  fs env (path_dirname env file +:+ "\packages.config") <> Some Malformed.

(** The exceptions of the two parsers. *)
Definition parser_exn (e : exn) : Prop := e = ParseError \/ e = FileNotFoundError.

(** The state in which the first project file is read. *)
Definition started (st0 : state) : state :=
  {| all_references := ∅; next_id := next_id st0;
     requests := requests st0 ++ ["https://api.nuget.org/v3/index.json"] |}.

(** The row of a project file in the framework table. *)
Definition framework_row (env : Env) (folder file : string) : html :=
  Tag "tr"
      [line "td" (get_project_name env (PyStr.drop (String.length folder) file));
       line "td" (match fs env file with
                  | Some (Xml root) => default "" (declared_version root)
                  | _ => ""
                  end)].

(** What a project of the run says about the file it was read from. *)
Definition describes (env : Env) (folder file : string) (p : ProjectInfo)
  : Prop :=
  exists root,
    fs env file = Some (Xml root) /\
    File p = PyStr.drop (String.length folder) file /\
    pi_Name p = get_project_name env (File p) /\
    TargetFrameworkVersion p = declared_version root /\
    ng_packages p = manifest_packages env file /\
    (References p = [] \/
     map (fun r => Some (FullName r)) (References p) = declared_names root).

(** A name that cannot be turned into a record in state [st]: a reference
    element without [Include], or a new string whose second token has no
    ['=']. *)
Definition unusable (st : state) (ref_name : option string) : Prop :=
  match ref_name with
  | None => True
  | Some s => second_token_ok s = false /\ all_references st !! s = None
  end.

(** A name with its record in the table of [st]. *)
Definition known_as (st : state) (ref_name : option string) (r : Reference)
  : Prop :=
  exists s, ref_name = Some s /\ all_references st !! s = Some r.

(** [u] is the registration URL of the bare name of one of the [names], a
    name that is the identifier of an entry of the manifest [pk]. *)
Definition package_request (env : Env) (index : json)
           (pk : option (list NuGetPackage)) (names : list (option string))
           (u : string) : Prop :=
  exists packages uri s name version,
    pk = Some packages /\ In (Some s) names /\
    name_and_version s = Ok (name, version) /\
    existsb (has_id name) packages = true /\
    get_service_id index "RegistrationsBaseUrl" = Ok uri /\
    u = registration_url env uri name.

(** [u] is a request for a package that the project file declares and its
    manifest lists. *)
Definition file_request (env : Env) (index : json) (file u : string) : Prop :=
  exists root,
    fs env file = Some (Xml root) /\
    package_request env index (manifest_packages env file)
                    (declared_names root) u.

Definition named (name : string) (r : Reference) : bool :=
  String.eqb (Name r) name.

(** The first occurrence of each object of a list, in the order of the
    list. *)
Fixpoint first_occurrences (l : list Reference) : list Reference :=
  match l with
  | [] => []
  | r :: rest =>
      r :: List.filter (fun x => negb (same_object r x)) (first_occurrences rest)
  end.

(** The keys after the references [l] have been met, from the keys [acc]. *)
Definition met (acc l : list Reference) : list Reference :=
  fold_left (fun acc r =>
               if existsb (fun k => same_object k r) acc then acc
               else acc ++ [r])
            l acc.

(** A world with one project whose second reference has a second token
    without ['='] and whose third reference element has no [Include]. *)
Module Odd.

Definition project : Element :=
  Elt (ns +:+ "Project") [] None
      [Elt (ns +:+ "ItemGroup") [] None
           [Elt (ns +:+ "Reference") [("Include", "System")] None [];
            Elt (ns +:+ "Reference") [("Include", "Foo, bar")] None [];
            Elt (ns +:+ "Reference") [] None []]].

Definition files (path : string) : option document :=
  if String.eqb path "C:\odd\Odd.csproj" then Some (Xml project) else None.

Definition world : Env :=
  {| os_walk := fun _ => [("C:\odd", ["Odd.csproj"])];
     path_join := Demo.join; path_splitext := Demo.splitext;
     path_basename := Demo.basename; path_dirname := Demo.dirname;
     fs := files; http_get_json := Demo.http; py_str := Demo.str;
     str_lower := PyStr.ascii_lower; upper_non_ascii := fun run => run;
     save_tmp := fun _ => Ok Demo.tmp_name;
     webbrowser_open := fun _ => Ok true |}.

End Odd.

(** * Properties *)

(** ** Splitting *)

Lemma append_nil_l (s : string) : "" +:+ s = s.
Proof. reflexivity. Qed.

Lemma append_cons (c : ascii) (a b : string) :
  String c a +:+ b = String c (a +:+ b).
Proof. reflexivity. Qed.

Lemma append_nil_r (s : string) : s +:+ "" = s.
Proof. induction s; rewrite ?append_cons; [reflexivity | congruence]. Qed.

Lemma append_assoc (a b c : string) : (a +:+ b) +:+ c = a +:+ b +:+ c.
Proof. induction a; rewrite ?append_cons, ?append_nil_l; congruence. Qed.

Lemma contains_app c (a b : string) :
  PyStr.contains c (a +:+ b) = PyStr.contains c a || PyStr.contains c b.
Proof.
  induction a; rewrite ?append_cons, ?append_nil_l; simpl; [reflexivity|].
  rewrite IHa. apply orb_assoc.
Qed.

Section Split.
Variable sep : ascii.

Lemma split_not_nil (s : string) : PyStr.split sep s <> [].
Proof.
  destruct s as [|c s]; simpl; [discriminate|].
  destruct (Ascii.eqb c sep); [discriminate|].
  destruct (PyStr.split sep s); discriminate.
Qed.

Lemma split_no_sep (a : string) :
  PyStr.contains sep a = false -> PyStr.split sep a = [a].
Proof.
  induction a as [|c a IH]; simpl; [reflexivity|].
  intros H. apply orb_false_elim in H as [Hc Ha].
  rewrite Hc, (IH Ha). reflexivity.
Qed.

Lemma split_app_sep (a b : string) :
  PyStr.contains sep a = false ->
  PyStr.split sep (a +:+ String sep b) = a :: PyStr.split sep b.
Proof.
  induction a as [|c a IH]; rewrite ?append_cons, ?append_nil_l; simpl.
  - intros _. rewrite Ascii.eqb_refl. reflexivity.
  - intros H. apply orb_false_elim in H as [Hc Ha].
    rewrite Hc, (IH Ha). reflexivity.
Qed.

Lemma split_with_sep (s : string) :
  PyStr.contains sep s = true ->
  exists a b rest, PyStr.split sep s = a :: b :: rest.
Proof.
  induction s as [|c s IH]; simpl; [discriminate|].
  destruct (Ascii.eqb c sep) eqn:Hc; simpl.
  - intros _. destruct (PyStr.split sep s) as [|b rest] eqn:E.
    + now apply split_not_nil in E.
    + eauto.
  - intros H. destruct (IH H) as (a & b & rest & ->). eauto.
Qed.
End Split.

Lemma name_and_version_bare (name : string) :
  PyStr.contains "," name = false -> name_and_version name = Ok (name, "").
Proof.
  intros H. unfold name_and_version. rewrite (split_no_sep _ _ H). reflexivity.
Qed.


Lemma name_and_version_qualified (name key value tail : string) :
  PyStr.contains "," name = false ->
  PyStr.contains "," key = false -> PyStr.contains "=" key = false ->
  PyStr.contains "," value = false -> PyStr.contains "=" value = false ->
  tail = "" \/ (exists t, tail = String "," t) ->
  name_and_version (name +:+ "," +:+ key +:+ "=" +:+ value +:+ tail)
  = Ok (name, value).
Proof.
  intros Hn Hk Hk' Hv Hv' Ht. unfold name_and_version.
  change ("," +:+ ?x) with (String "," x).
  rewrite (split_app_sep _ _ _ Hn).
  assert (Htok : exists more,
             PyStr.split "," (key +:+ "=" +:+ value +:+ tail)
             = (key +:+ "=" +:+ value) :: more).
  { destruct Ht as [-> | [t ->]].
    - exists []. rewrite append_nil_r.
      apply split_no_sep. rewrite !contains_app, Hk, Hv. reflexivity.
    - exists (PyStr.split "," t).
      rewrite <- (append_assoc key), <- (append_assoc (key +:+ "=")).
      rewrite split_app_sep; [now rewrite append_assoc|].
      rewrite !contains_app, Hk, Hv. reflexivity. }
  destruct Htok as [more ->]. simpl hd.
  change ("=" +:+ value) with (String "=" value).
  rewrite (split_app_sep _ _ _ Hk'), (split_no_sep _ _ Hv'). reflexivity.
Qed.

(** ** Constructing a reference *)

Ltac unfold_M :=
  unfold mbind, mret, M_bind, M_ret, result_bind, result_ret,
    bind, ret, raise, lift, rbind in *.

Lemma any_object_filter {A} (P : A -> bool) (l : list A) :
  any_object (filter (fun p => P p = true) l) = existsb P l.
Proof.
  induction l as [|x l IH]; [reflexivity|].
  rewrite filter_cons. simpl. destruct (decide (P x = true)) as [H|H].
  - rewrite H. reflexivity.
  - apply not_true_is_false in H. rewrite H. exact IH.
Qed.

Section ReferenceInit.
Variables (env : Env) (index : json).

Lemma Reference_init_no_manifest (reference_name : string) (st : state) :
  Reference_init env index reference_name None st
  = (match name_and_version reference_name with
     | Ok (name, version) =>
         Ok (plain_reference (next_id st) reference_name name version)
     | Raise e => Raise e
     end, bump st).
Proof.
  unfold Reference_init. unfold_M. unfold new_object.
  destruct (name_and_version reference_name) as [[name version]|e]; reflexivity.
Qed.

Lemma Reference_init_raise (reference_name : string) (e : exn) pk st :
  name_and_version reference_name = Raise e ->
  Reference_init env index reference_name pk st = (Raise e, bump st).
Proof.
  intros H. unfold Reference_init. unfold_M. unfold new_object.
  rewrite H. reflexivity.
Qed.

Lemma Reference_init_not_package reference_name name version packages st :
  name_and_version reference_name = Ok (name, version) ->
  existsb (has_id name) packages = false ->
  Reference_init env index reference_name (Some packages) st
  = (Ok (plain_reference (next_id st) reference_name name version), bump st).
Proof.
  intros H Hp. unfold Reference_init. unfold_M. unfold new_object.
  rewrite H, any_object_filter, Hp. reflexivity.
Qed.

(** What a construction leaves behind, whatever its outcome. *)
Lemma Reference_init_effect reference_name pk st :
  let out := Reference_init env index reference_name pk st in
  all_references (snd out) = all_references st /\
  next_id (snd out) = S (next_id st) /\
  exists new_requests,
    requests (snd out) = requests st ++ new_requests /\
    (length new_requests <= 1)%nat /\
    forall r, fst out = Ok r ->
              length new_requests = if IsNuGetPackage r then 1%nat else 0%nat.
Proof.
  unfold Reference_init. unfold_M. unfold new_object. simpl.
  destruct (name_and_version reference_name) as [[name version]|e]; simpl.
  2:{ repeat split. exists []. rewrite app_nil_r. repeat split; [simpl; lia|discriminate]. }
  destruct pk as [packages|]; simpl.
  2:{ repeat split. exists []. rewrite app_nil_r. repeat split; [simpl; lia|].
      now intros r [= <-]. }
  destruct (any_object _); simpl.
  2:{ repeat split. exists []. rewrite app_nil_r. repeat split; [simpl; lia|].
      now intros r [= <-]. }
  unfold NugetPackageMetadata_init, http_get. unfold_M.
  destruct (get_service_id index "RegistrationsBaseUrl") as [uri|e]; simpl.
  2:{ repeat split. exists []. rewrite app_nil_r. repeat split; [simpl; lia|discriminate]. }
  destruct (http_get_json env _) as [info|]; simpl.
  2:{ repeat split. eexists [_]. repeat split; [simpl; lia|discriminate]. }
  destruct (get_latest_version info) as [versions|e]; simpl.
  2:{ repeat split. eexists [_]. repeat split; [simpl; lia|discriminate]. }
  destruct (Json.join ", " versions) as [latest|e]; simpl.
  2:{ repeat split. eexists [_]. repeat split; [simpl; lia|discriminate]. }
  repeat split. eexists [_]. repeat split; [simpl; lia|].
  now intros r [= <-].
Qed.

(** The fields of a constructed record. *)
Lemma Reference_init_Ok reference_name pk st r st' :
  Reference_init env index reference_name pk st = (Ok r, st') ->
  exists name version,
    name_and_version reference_name = Ok (name, version) /\
    ref_id r = next_id st /\ FullName r = reference_name /\
    Name r = name /\ Version r = version /\
    ((IsNuGetPackage r = false /\ LatestVersion r = None /\
      match pk with
      | None => True
      | Some packages => existsb (has_id name) packages = false
      end) \/
     (IsNuGetPackage r = true /\ (exists latest, LatestVersion r = Some latest) /\
      exists packages, pk = Some packages /\
                       existsb (has_id name) packages = true)).
Proof.
  unfold Reference_init. unfold_M. unfold new_object. simpl.
  destruct (name_and_version reference_name) as [[name version]|e]; simpl;
    [|discriminate].
  intros H. exists name, version. split; [reflexivity|].
  destruct pk as [packages|]; simpl in H.
  2:{ injection H as <- <-. simpl. repeat split. left. repeat split. }
  rewrite any_object_filter in H.
  destruct (existsb (has_id name) packages) eqn:Hp; simpl in H.
  2:{ injection H as <- <-. simpl. repeat split. left. repeat split. }
  destruct (NugetPackageMetadata_init env index name _) as [[metadata|e] st1];
    [|discriminate].
  destruct (get_latest_version metadata) as [versions|e]; simpl in H;
    [|discriminate].
  destruct (Json.join ", " versions) as [latest|e]; simpl in H; [|discriminate].
  injection H as <- <-. simpl. repeat split. right. eauto 10.
Qed.

End ReferenceInit.

(** ** A string with ['='] splits in at least two pieces *)

Lemma name_and_version_raise_iff (reference_name : string) :
  (exists e, name_and_version reference_name = Raise e)
  <-> second_token_ok reference_name = false.
Proof.
  unfold name_and_version, second_token_ok.
  destruct (PyStr.split "," reference_name) as [|t0 [|t1 rest]].
  - split; [intros [e [=]] | discriminate].
  - split; [intros [e [=]] | discriminate].
  - destruct (PyStr.contains "=" t1) eqn:Hc.
    + destruct (split_with_sep _ _ Hc) as (a & b & more & ->).
      split; [intros [e [=]] | discriminate].
    + rewrite (split_no_sep _ _ Hc). split; eauto.
Qed.

Lemma name_and_version_raise (reference_name : string) (e : exn) :
  name_and_version reference_name = Raise e -> e = IndexError.
Proof.
  unfold name_and_version.
  destruct (PyStr.split "," reference_name) as [|t0 [|t1 rest]]; try discriminate.
  destruct (PyStr.split "=" t1) as [|a [|b more]]; congruence.
Qed.

(** C4: the reference value of the specification parses to the bare name
    [Newtonsoft.Json] and the version [12.0.0.0]; in general, for a bare name
    without comma, a reference that is the bare name alone gives that name and
    the empty version, and a reference [name,key=value] (possibly followed by
    further comma-separated qualifiers) gives [name] and [value], whatever the
    manifest, whenever the construction returns; without manifest it always
    returns. *)
Theorem Reference_name_and_version
        (env : Env) (index : json) (st : state)
        (name key value tail : string)
        (Hname : PyStr.contains "," name = false)
        (Hkey : PyStr.contains "," key = false)
        (Hkey' : PyStr.contains "=" key = false)
        (Hvalue : PyStr.contains "," value = false)
        (Hvalue' : PyStr.contains "=" value = false)
        (Htail : tail = "" \/ exists t, tail = String "," t) :
  let example := "Newtonsoft.Json, Version=12.0.0.0, Culture=neutral" in
  let qualified := name +:+ "," +:+ key +:+ "=" +:+ value +:+ tail in
  fst (Reference_init env index example None st)
  = Ok (plain_reference (next_id st) example "Newtonsoft.Json" "12.0.0.0") /\
  fst (Reference_init env index name None st)
  = Ok (plain_reference (next_id st) name name "") /\
  fst (Reference_init env index qualified None st)
  = Ok (plain_reference (next_id st) qualified name value) /\
  (forall packages r st',
      Reference_init env index name packages st = (Ok r, st') ->
      FullName r = name /\ Name r = name /\ Version r = "") /\
  (forall packages r st',
      Reference_init env index qualified packages st = (Ok r, st') ->
      FullName r = qualified /\ Name r = name /\ Version r = value).
Proof.
  intros example qualified.
  pose proof (name_and_version_bare name Hname) as Hb.
  pose proof (name_and_version_qualified name key value tail
                Hname Hkey Hkey' Hvalue Hvalue' Htail) as Hq.
  fold qualified in Hq.
  rewrite !Reference_init_no_manifest, Hb, Hq.
  split; [reflexivity|]. split; [reflexivity|]. split; [reflexivity|].
  split; intros packages r st' H;
    apply Reference_init_Ok in H as (n & v & Hnv & _ & HF & HN & HV & _);
    repeat split; congruence.
Qed.

Lemma Reference_name_and_version_witness :
  let st := initial_state in
  let qualified := "Foo" +:+ "," +:+ " Version" +:+ "=" +:+ "1.0.0.0"
                   +:+ ", Culture=neutral" in
  fst (Reference_init Demo.world Demo.index_json qualified None st)
  = Ok (plain_reference 0 qualified "Foo" "1.0.0.0").
Proof.
  intros st qualified.
  refine (proj1 (proj2 (proj2
    (Reference_name_and_version Demo.world Demo.index_json st
       "Foo" " Version" "1.0.0.0" ", Culture=neutral" _ _ _ _ _ _)))).
  all: try reflexivity.
  right. eexists. reflexivity.
Defined.

(** C10: constructing a reference is partial: ["Foo, bar"] raises an
    [IndexError] whatever the manifest, and so does every reference string
    whose second token has no ['=']; without a manifest the construction
    returns a record exactly when the second token, if there is one, has
    an ['=']. *)
Theorem Reference_init_partial
        (env : Env) (index : json) (st : state) (reference_name : string) :
  (forall packages,
      fst (Reference_init env index "Foo, bar" packages st) = Raise IndexError) /\
  (second_token_ok reference_name = false ->
   forall packages,
     fst (Reference_init env index reference_name packages st) = Raise IndexError) /\
  ((exists r, fst (Reference_init env index reference_name None st) = Ok r)
   <-> second_token_ok reference_name = true).
Proof.
  assert (Hgen : forall s, second_token_ok s = false ->
            forall packages,
              fst (Reference_init env index s packages st) = Raise IndexError).
  { intros s Hs packages.
    apply name_and_version_raise_iff in Hs as [e He].
    rewrite (Reference_init_raise _ _ _ _ _ _ He). simpl.
    now rewrite (name_and_version_raise _ _ He). }
  split; [|split].
  - apply Hgen. reflexivity.
  - apply Hgen.
  - rewrite Reference_init_no_manifest. simpl.
    destruct (second_token_ok reference_name) eqn:Hs.
    + destruct (name_and_version reference_name) as [[n v]|e] eqn:Hnv.
      * split; eauto.
      * assert (second_token_ok reference_name = false)
          by (apply name_and_version_raise_iff; eauto).
        congruence.
    + apply name_and_version_raise_iff in Hs as [e ->].
      split; [intros [r [=]] | discriminate].
Qed.

Lemma Reference_init_partial_witness :
  fst (Reference_init Demo.world Demo.index_json "Foo, bar, Version=1.0"
                      (Some []) initial_state) = Raise IndexError.
Proof.
  refine (proj1 (proj2 (Reference_init_partial Demo.world Demo.index_json
                          initial_state "Foo, bar, Version=1.0")) _ (Some [])).
  reflexivity.
Defined.

(** C9: a constructed record has a latest version exactly when it is flagged
    as a registry package; a record built without manifest, or whose bare
    name is the identifier of no manifest entry, has none. *)
Theorem LatestVersion_iff_IsNuGetPackage
        (env : Env) (index : json) (reference_name : string)
        (nuget_packages : option (list NuGetPackage)) (st st' : state)
        (r : Reference)
        (Hinit : Reference_init env index reference_name nuget_packages st
                 = (Ok r, st')) :
  (LatestVersion r <> None <-> IsNuGetPackage r = true) /\
  (nuget_packages = None -> LatestVersion r = None) /\
  (forall packages,
      nuget_packages = Some packages ->
      Forall (fun p => Id p <> Some (Name r)) packages ->
      LatestVersion r = None).
Proof.
  apply Reference_init_Ok in Hinit
    as (name & version & _ & _ & _ & HN & _ & Hstatus).
  destruct Hstatus as [(Hflag & Hlatest & _) | (Hflag & [latest Hlatest] & Hpk)].
  - rewrite Hflag, Hlatest. repeat split; try congruence; auto.
  - rewrite Hflag, Hlatest. repeat split; try congruence.
    + destruct Hpk as (packages & -> & _). discriminate.
    + intros packages -> Hall. destruct Hpk as (packages' & [= <-] & Hex).
      apply existsb_exists in Hex as (p & Hp & Hid).
      rewrite Forall_forall in Hall. apply list_elem_of_In in Hp.
      specialize (Hall p Hp). unfold has_id in Hid.
      destruct (Id p) as [i|]; [|discriminate].
      apply String.eqb_eq in Hid. congruence.
Qed.

Lemma LatestVersion_iff_IsNuGetPackage_witness :
  exists r st',
    Reference_init Demo.world Demo.index_json "Foo, Version=1.0.0.0"
      (Some [{| Id := Some "Foo"; pkg_Version := Some "1.0.0";
                TargetFramework := None |}]) initial_state = (Ok r, st') /\
    LatestVersion r = Some "2.0.0" /\
    (LatestVersion r <> None <-> IsNuGetPackage r = true).
Proof.
  eexists _, _. split; [vm_compute; reflexivity|]. split; [reflexivity|].
  refine (proj1 (LatestVersion_iff_IsNuGetPackage Demo.world Demo.index_json
                   "Foo, Version=1.0.0.0"
                   (Some [{| Id := Some "Foo"; pkg_Version := Some "1.0.0";
                             TargetFramework := None |}])
                   initial_state _ _ _)).
  vm_compute. reflexivity.
Defined.

Lemma three_state_distinction_fails :
  ~ three_state_distinction Demo.world Demo.index_json "System"
      [{| Id := Some "Foo"; pkg_Version := Some "1.0.0";
          TargetFramework := Some "net472" |}] initial_state.
Proof.
  intros H. eapply H; [vm_compute; reflexivity .. | reflexivity].
Qed.

(** C3, amended: a reference first seen in a project without manifest gets
    the flag [False] and no latest version, and so does a reference whose
    bare name is the identifier of no entry of the manifest: the two
    constructions give the same record, and its row shows [N] and a blank.
    A record is in one of two registry states. *)
Theorem registry_status_two_states
        (env : Env) (index : json) (reference_name name version : string)
        (packages : list NuGetPackage) (st : state)
        (Hname : name_and_version reference_name = Ok (name, version))
        (Hnone : existsb (has_id name) packages = false) :
  let r := plain_reference (next_id st) reference_name name version in
  Reference_init env index reference_name None st = (Ok r, bump st) /\
  Reference_init env index reference_name (Some packages) st = (Ok r, bump st) /\
  registry_status r = (false, None) /\
  reference_cells r
  = [line "td" name; line "td" version; line "td" "N"; line "td" ""] /\
  (forall nuget_packages r' st',
      Reference_init env index reference_name nuget_packages st = (Ok r', st') ->
      registry_status r' = (false, None) \/
      exists latest, registry_status r' = (true, Some latest)).
Proof.
  intros r. rewrite Reference_init_no_manifest, Hname.
  rewrite (Reference_init_not_package _ _ _ _ _ _ _ Hname Hnone).
  repeat split.
  intros pk r' st' H.
  apply Reference_init_Ok in H as (n & v & _ & _ & _ & _ & _ & Hstatus).
  unfold registry_status.
  destruct Hstatus as [(-> & -> & _) | (-> & [latest ->] & _)]; eauto.
Qed.

Lemma registry_status_two_states_witness :
  Reference_init Demo.world Demo.index_json "System" None initial_state
  = Reference_init Demo.world Demo.index_json "System"
      (Some [{| Id := Some "Foo"; pkg_Version := None; TargetFramework := None |}])
      initial_state.
Proof.
  destruct (registry_status_two_states Demo.world Demo.index_json
              "System" "System" ""
              [{| Id := Some "Foo"; pkg_Version := None; TargetFramework := None |}]
              initial_state eq_refl eq_refl) as (H1 & H2 & _).
  rewrite H1, H2. reflexivity.
Defined.

(** ** The registry client *)

Lemma rmap_Forall2 {A B} (f : A -> result B) (l : list A) (k : list B) :
  Forall2 (fun x y => f x = Ok y) l k -> rmap f l = Ok k.
Proof.
  induction 1 as [|x y l k Hxy _ IH]; [reflexivity|].
  simpl. unfold_M. rewrite Hxy, IH. reflexivity.
Qed.

Lemma rmap_Ok_Forall2 {A B} (f : A -> result B) (l : list A) (k : list B) :
  rmap f l = Ok k -> Forall2 (fun x y => f x = Ok y) l k.
Proof.
  revert k. induction l as [|x l IH]; intros k; simpl.
  - intros [= <-]. constructor.
  - unfold_M. destruct (f x) as [y|e] eqn:Hx; [|discriminate].
    destruct (rmap f l) as [ys|e]; [|discriminate].
    intros [= <-]. constructor; auto.
Qed.

(** C7: with the registration service resolved to [base], looking a package
    up requests exactly [base ++ identifier.lower() ++ "/index.json"] and
    nothing else, and hands back what that URL answers; the latest versions
    of an answer are the [upper] fields of its [items], page by page. *)
Theorem get_latest_versions_spec
        (env : Env) (service_index : json) (base package_id : string)
        (st : state) (info : json) (pages uppers : list json)
        (Hbase : get_service_id service_index "RegistrationsBaseUrl"
                 = Ok (JStr base))
        (Hitems : Json.getitem info "items" = Ok (JArr pages))
        (Hupper : Forall2 (fun page u => Json.getitem page "upper" = Ok u)
                          pages uppers) :
  let url := base +:+ str_lower env package_id +:+ "/index.json" in
  let out := NugetPackageMetadata_init env service_index package_id st in
  requests (snd out) = requests st ++ [url] /\
  fst out = match http_get_json env url with
            | Some answer => Ok answer
            | None => Raise RequestError
            end /\
  get_latest_version info = Ok uppers /\
  (forall u, u ∈ uppers <->
             exists page, page ∈ pages /\ Json.getitem page "upper" = Ok u).
Proof.
  intros url out. subst out.
  unfold NugetPackageMetadata_init, http_get. unfold_M. rewrite Hbase. simpl.
  repeat split.
  - unfold get_latest_version. unfold_M. rewrite Hitems. simpl.
    now apply rmap_Forall2.
  - intros Hu. clear -Hu Hupper.
    induction Hupper as [|page v pages uppers Hpv _ IH].
    + now apply elem_of_nil in Hu.
    + apply elem_of_cons in Hu as [-> | Hu].
      * exists page. split; [left|exact Hpv].
      * destruct (IH Hu) as (p & Hp & Hpu). exists p. split; [now right|exact Hpu].
  - intros (page & Hp & Hpu). clear -Hp Hpu Hupper.
    induction Hupper as [|page' v pages uppers Hpv _ IH].
    + now apply elem_of_nil in Hp.
    + apply elem_of_cons in Hp as [-> | Hp].
      * assert (v = u) by congruence. subst. left.
      * right. auto.
Qed.

Lemma get_latest_versions_spec_witness :
  let out := NugetPackageMetadata_init Demo.world Demo.index_json "Foo"
               initial_state in
  requests (snd out)
  = ["https://api.nuget.org/v3/registration5-semver1/foo/index.json"] /\
  fst out = Ok Demo.foo_json /\
  get_latest_version Demo.foo_json = Ok [JStr "2.0.0"].
Proof.
  destruct (get_latest_versions_spec Demo.world Demo.index_json
              Demo.registrations "Foo" initial_state Demo.foo_json
              [JObj [("lower", JStr "0.1.0"); ("upper", JStr "2.0.0")]]
              [JStr "2.0.0"] eq_refl eq_refl)
    as (H1 & H2 & H3 & _).
  { repeat constructor. }
  split; [exact H1 | split; [exact H2 | exact H3]].
Defined.

(** ** The usage matrix *)

Lemma same_object_eq (a b : Reference) :
  same_object a b = true <-> ref_id a = ref_id b.
Proof. apply Nat.eqb_eq. Qed.

Lemma same_object_sym (a b : Reference) : same_object a b = same_object b a.
Proof. apply Nat.eqb_sym. Qed.

Ltac same_object_cases :=
  unfold same_object in *;
  repeat match goal with
         | |- context [Nat.eqb ?a ?b] => destruct (Nat.eqb_spec a b)
         | H : context [Nat.eqb ?a ?b] |- _ => destruct (Nat.eqb_spec a b)
         end;
  try reflexivity; try congruence.

Module UsesFacts.

Lemma lookup_same (uses : Uses.t) (r r' : Reference) :
  same_object r r' = true -> Uses.lookup uses r = Uses.lookup uses r'.
Proof.
  intros H. induction uses as [|[k v] rest IH]; simpl; [reflexivity|].
  rewrite IH. same_object_cases.
Qed.

Lemma lookup_update f r (uses : Uses.t) r' :
  Uses.lookup (Uses.update f r uses) r'
  = if same_object r' r then f <$> Uses.lookup uses r'
    else Uses.lookup uses r'.
Proof.
  induction uses as [|[k v] rest IH]; simpl.
  - now destruct (same_object r' r).
  - destruct (same_object k r) eqn:Hkr; simpl; [|rewrite IH];
      same_object_cases.
Qed.

Lemma lookup_add (uses : Uses.t) r v r' :
  Uses.lookup (Uses.add uses r v) r'
  = match Uses.lookup uses r' with
    | Some x => Some x
    | None => if same_object r' r then Some v else None
    end.
Proof.
  unfold Uses.add. induction uses as [|[k w] rest IH]; simpl.
  - same_object_cases.
  - destruct (same_object k r'); [reflexivity | exact IH].
Qed.

Lemma keys_update f r (uses : Uses.t) :
  Uses.keys (Uses.update f r uses) = Uses.keys uses.
Proof.
  unfold Uses.keys. induction uses as [|[k v] rest IH]; simpl; [reflexivity|].
  destruct (same_object k r); simpl; congruence.
Qed.

Lemma lookup_None (uses : Uses.t) r :
  Uses.lookup uses r = None <->
  Forall (fun k => ref_id k <> ref_id r) (Uses.keys uses).
Proof.
  unfold Uses.keys. induction uses as [|[k v] rest IH]; simpl.
  - split; [constructor | reflexivity].
  - destruct (same_object k r) eqn:Hk.
    + split; [discriminate|]. intros H. apply Forall_cons in H as [H _].
      apply same_object_eq in Hk. contradiction.
    + rewrite IH, Forall_cons. split; [|tauto].
      intros H. split; [|exact H]. same_object_cases.
Qed.

Lemma lookup_key (uses : Uses.t) k :
  k ∈ Uses.keys uses -> is_Some (Uses.lookup uses k).
Proof.
  intros Hk. destruct (Uses.lookup uses k) eqn:E; [eauto|].
  apply lookup_None in E. rewrite Forall_forall in E.
  now specialize (E k Hk).
Qed.

End UsesFacts.

Lemma mark_use_lookup nr_projects project_id (uses : Uses.t) r r' :
  Uses.lookup (mark_use nr_projects project_id uses r) r'
  = if same_object r' r
    then Some (<[project_id := true]>
                 (default (replicate nr_projects false) (Uses.lookup uses r')))
    else Uses.lookup uses r'.
Proof.
  unfold mark_use, Uses.contains.
  destruct (same_object r' r) eqn:Hr.
  - rewrite (UsesFacts.lookup_same uses r' r Hr).
    destruct (Uses.lookup uses r) as [v|] eqn:E.
    + rewrite UsesFacts.lookup_update, Hr, (UsesFacts.lookup_same uses r' r Hr), E.
      reflexivity.
    + rewrite UsesFacts.lookup_update, Hr, UsesFacts.lookup_add.
      rewrite (UsesFacts.lookup_same uses r' r Hr), E, Hr. reflexivity.
  - destruct (Uses.lookup uses r) as [v|] eqn:E.
    + now rewrite UsesFacts.lookup_update, Hr.
    + rewrite UsesFacts.lookup_update, Hr, UsesFacts.lookup_add, Hr.
      now destruct (Uses.lookup uses r').
Qed.

Lemma mark_use_keys nr_projects project_id (uses : Uses.t) r :
  Uses.keys (mark_use nr_projects project_id uses r)
  = if Uses.contains uses r then Uses.keys uses else Uses.keys uses ++ [r].
Proof.
  unfold mark_use. rewrite UsesFacts.keys_update.
  destruct (Uses.contains uses r); [reflexivity|].
  unfold Uses.keys, Uses.add. now rewrite map_app.
Qed.

Lemma mark_refs_lookup nr_projects project_id refs (uses : Uses.t) r' :
  Uses.lookup (fold_left (mark_use nr_projects project_id) refs uses) r'
  = if existsb (same_object r') refs
    then Some (<[project_id := true]>
                 (default (replicate nr_projects false) (Uses.lookup uses r')))
    else Uses.lookup uses r'.
Proof.
  revert uses. induction refs as [|r refs IH]; intros uses; simpl;
    [reflexivity|].
  rewrite IH, mark_use_lookup.
  destruct (same_object r' r); simpl; [|reflexivity].
  rewrite list_insert_insert_eq. now destruct (existsb _ refs).
Qed.

Lemma existsb_false_map {A} (f : A -> bool) (l : list A) :
  existsb f l = false -> map f l = replicate (length l) false.
Proof.
  induction l as [|x l IH]; simpl; [reflexivity|].
  intros H. apply orb_false_elim in H as [-> H]. now rewrite IH.
Qed.

Lemma mark_projects_lookup (rest done : list ProjectInfo) (uses : Uses.t)
      (nr_projects : nat) :
  nr_projects = (length done + length rest)%nat ->
  (forall r, Uses.lookup uses r
             = if existsb (declares r) done
               then Some (map (declares r) done
                          ++ replicate (length rest) false)
               else None) ->
  forall r,
    Uses.lookup (mark_projects nr_projects (length done) rest uses) r
    = if existsb (declares r) (done ++ rest)
      then Some (map (declares r) (done ++ rest)) else None.
Proof.
  revert done uses. induction rest as [|p rest IH]; intros done uses Hn Huses r.
  - simpl. rewrite Huses, !app_nil_r. reflexivity.
  - simpl mark_projects. simpl length in Hn, Huses.
    replace (S (length done)) with (length (done ++ [p]))
      by (rewrite length_app; simpl; lia).
    replace (done ++ p :: rest) with ((done ++ [p]) ++ rest)
      by (now rewrite <- app_assoc).
    apply IH; [rewrite length_app; simpl; lia|]. clear r. intros r.
    rewrite mark_refs_lookup, Huses.
    rewrite existsb_app, map_app. simpl. rewrite orb_false_r.
    fold (declares r p).
    destruct (declares r p) eqn:Hp.
    + rewrite orb_true_r.
      destruct (existsb (declares r) done) eqn:Hd; simpl default.
      * f_equal. rewrite insert_app_r_alt by (rewrite length_map; lia).
        rewrite length_map, Nat.sub_diag, <- app_assoc. reflexivity.
      * f_equal. rewrite (existsb_false_map _ _ Hd), Hn.
        rewrite replicate_add.
        rewrite insert_app_r_alt by (rewrite length_replicate; lia).
        rewrite length_replicate, Nat.sub_diag, <- app_assoc. reflexivity.
    + rewrite orb_false_r.
      destruct (existsb (declares r) done); [|reflexivity].
      now rewrite <- app_assoc.
Qed.

Lemma mark_use_keys_inv (Q : Reference -> Prop) nr_projects project_id
      (uses : Uses.t) r :
  NoDup (map ref_id (Uses.keys uses)) -> Forall Q (Uses.keys uses) -> Q r ->
  NoDup (map ref_id (Uses.keys (mark_use nr_projects project_id uses r))) /\
  Forall Q (Uses.keys (mark_use nr_projects project_id uses r)).
Proof.
  intros Hnd HQ Hr. rewrite mark_use_keys. unfold Uses.contains.
  destruct (Uses.lookup uses r) eqn:E; [now split|].
  apply UsesFacts.lookup_None in E. split.
  - rewrite map_app. apply NoDup_app. split; [exact Hnd|]. split.
    + intros x Hx Hx'. apply list_elem_of_singleton in Hx'. subst x.
      apply list_elem_of_fmap in Hx as (k & Hk & Hin).
      rewrite Forall_forall in E. specialize (E k Hin). congruence.
    + apply NoDup_singleton.
  - apply Forall_app. split; [exact HQ|]. now constructor.
Qed.

Lemma mark_refs_keys_inv (Q : Reference -> Prop) nr_projects project_id refs
      (uses : Uses.t) :
  NoDup (map ref_id (Uses.keys uses)) -> Forall Q (Uses.keys uses) ->
  Forall Q refs ->
  let uses' := fold_left (mark_use nr_projects project_id) refs uses in
  NoDup (map ref_id (Uses.keys uses')) /\ Forall Q (Uses.keys uses').
Proof.
  revert uses. induction refs as [|r refs IH]; intros uses Hnd HQ Hrefs;
    simpl; [now split|].
  apply Forall_cons in Hrefs as [Hr Hrefs].
  destruct (mark_use_keys_inv Q nr_projects project_id uses r Hnd HQ Hr).
  now apply IH.
Qed.

Lemma mark_projects_keys_inv (Q : Reference -> Prop) nr_projects projects
      project_id (uses : Uses.t) :
  NoDup (map ref_id (Uses.keys uses)) -> Forall Q (Uses.keys uses) ->
  Forall (fun p => Forall Q (References p)) projects ->
  let uses' := mark_projects nr_projects project_id projects uses in
  NoDup (map ref_id (Uses.keys uses')) /\ Forall Q (Uses.keys uses').
Proof.
  revert project_id uses.
  induction projects as [|p projects IH]; intros project_id uses Hnd HQ Hps;
    simpl; [now split|].
  apply Forall_cons in Hps as [Hp Hps].
  destruct (mark_refs_keys_inv Q nr_projects project_id (References p) uses
              Hnd HQ Hp).
  now apply IH.
Qed.

Lemma lookup_Some_key (uses : Uses.t) r v :
  Uses.lookup uses r = Some v ->
  exists k, k ∈ Uses.keys uses /\ ref_id k = ref_id r.
Proof.
  unfold Uses.keys. induction uses as [|[k w] rest IH]; simpl; [discriminate|].
  destruct (same_object k r) eqn:Hk.
  - intros _. exists k. split; [left | now apply same_object_eq].
  - intros H. destruct (IH H) as (k' & Hin & Hid). exists k'.
    split; [now right | exact Hid].
Qed.

Lemma declares_spec (r : Reference) (p : ProjectInfo) :
  declares r p = true <->
  exists r', r' ∈ References p /\ ref_id r' = ref_id r.
Proof.
  unfold declares. rewrite existsb_exists. split.
  - intros (x & Hx & Hs). exists x. split; [now apply list_elem_of_In|].
    symmetry. now apply same_object_eq.
  - intros (x & Hx & Hs). exists x. split; [now apply list_elem_of_In|].
    now apply same_object_eq.
Qed.

Lemma matrix_lookup (projects_info : list ProjectInfo) (r : Reference) :
  Uses.lookup (uses (ReferencesMatrix_init projects_info)) r
  = if existsb (declares r) projects_info
    then Some (map (declares r) projects_info) else None.
Proof.
  unfold ReferencesMatrix_init. simpl uses.
  exact (mark_projects_lookup projects_info [] [] _ eq_refl
           (fun _ => eq_refl) r).
Qed.

Lemma matrix_keys (projects_info : list ProjectInfo) :
  let keys := Uses.keys (uses (ReferencesMatrix_init projects_info)) in
  NoDup (map ref_id keys) /\
  Forall (fun k => exists p, p ∈ projects_info /\ k ∈ References p) keys.
Proof.
  simpl. apply mark_projects_keys_inv; try constructor.
  apply Forall_forall. intros p Hp. apply Forall_forall. intros k Hk.
  exists p. now split.
Qed.

(** C5: the matrix built from a list of projects has one usage list per
    reference object declared by some project and none for any other; the
    list has one entry per project, in the order of the projects, and entry
    [i] is true exactly when project [i] declares the reference; a list
    starts as all-false when its reference is first met. *)
Theorem usage_matrix_spec (projects_info : list ProjectInfo) :
  let m := ReferencesMatrix_init projects_info in
  (forall r,
      Uses.lookup (uses m) r
      = if existsb (declares r) projects_info
        then Some (map (declares r) projects_info) else None) /\
  (forall r v,
      Uses.lookup (uses m) r = Some v ->
      length v = length projects_info /\
      forall i p, projects_info !! i = Some p ->
                  (v !! i = Some true <->
                   exists r', r' ∈ References p /\ ref_id r' = ref_id r)) /\
  NoDup (map ref_id (Uses.keys (uses m))) /\
  (forall k, k ∈ Uses.keys (uses m) ->
             exists p, p ∈ projects_info /\ k ∈ References p) /\
  (forall r project_id,
      mark_use (length projects_info) project_id [] r
      = [(r, <[project_id := true]> (replicate (length projects_info) false))]).
Proof.
  intros m. subst m.
  split; [exact (matrix_lookup projects_info)|]. split; [|split; [|split]].
  - intros r v Hv. rewrite matrix_lookup in Hv.
    destruct (existsb (declares r) projects_info); [|discriminate].
    injection Hv as <-. split; [apply length_map|].
    intros i p Hp. rewrite list_lookup_fmap, Hp. simpl.
    rewrite <- declares_spec. split; congruence.
  - exact (proj1 (matrix_keys projects_info)).
  - pose proof (proj2 (matrix_keys projects_info)) as H.
    rewrite Forall_forall in H. exact H.
  - intros r project_id. unfold mark_use. simpl.
    unfold same_object. rewrite Nat.eqb_refl. reflexivity.
Qed.

(** ** The reference table *)

Lemma insert_by_name_perm (r : Reference) (l : list Reference) :
  Permutation (insert_by_name r l) (r :: l).
Proof.
  induction l as [|x l IH]; simpl; [reflexivity|].
  destruct (String.leb (Name r) (Name x)); [reflexivity|].
  rewrite IH. apply perm_swap.
Qed.

Lemma sorted_by_name_perm (l : list Reference) :
  Permutation (sorted_by_name l) l.
Proof.
  induction l as [|x l IH]; simpl; [reflexivity|].
  rewrite insert_by_name_perm. now constructor.
Qed.

Lemma insert_by_name_sorted (r : Reference) (l : list Reference) :
  Sorted name_le l -> Sorted name_le (insert_by_name r l).
Proof.
  induction 1 as [|x l Hl IH Hhd]; simpl; [repeat constructor|].
  destruct (String.leb (Name r) (Name x)) eqn:Hrx.
  - constructor; [now constructor | now constructor].
  - constructor; [exact IH|].
    assert (Hxr : name_le x r).
    { unfold name_le. destruct (String.leb_total (Name x) (Name r)); congruence. }
    destruct Hhd as [|y l' Hxy]; simpl; [now constructor|].
    destruct (String.leb (Name r) (Name y)); now constructor.
Qed.

Lemma sorted_by_name_sorted (l : list Reference) :
  Sorted name_le (sorted_by_name l).
Proof.
  induction l as [|x l IH]; simpl; [constructor|].
  now apply insert_by_name_sorted.
Qed.

Lemma rmap_seq {A B} (f : nat -> result B) (g : A -> B) (l : list A) (k : nat) :
  (forall i x, l !! i = Some x -> f (k + i)%nat = Ok (g x)) ->
  rmap f (seq k (length l)) = Ok (map g l).
Proof.
  revert k. induction l as [|x l IH]; intros k H; simpl; [reflexivity|].
  unfold_M. rewrite <- (Nat.add_0_r k) at 1. rewrite (H 0%nat x eq_refl).
  rewrite IH; [reflexivity|].
  intros i y Hy. replace (S k + i)%nat with (k + S i)%nat by lia.
  now apply H.
Qed.

Lemma rmap_ext_in {A B} (f : A -> result B) (g : A -> B) (l : list A) :
  (forall x, x ∈ l -> f x = Ok (g x)) -> rmap f l = Ok (map g l).
Proof.
  induction l as [|x l IH]; intros H; simpl; [reflexivity|].
  unfold_M. rewrite H by left. rewrite IH; [reflexivity|].
  intros y Hy. apply H. now right.
Qed.

(** C6, as stated, fails: the two projects under [C:\src] declare [Foo] and
    [Foo, Version=1.0.0.0, Culture=neutral]; these are two records with the
    bare name [Foo], and the reference table of the run has a row for
    each. *)
Lemma two_rows_one_bare_name :
  ~ one_row_per_bare_name Demo.world "C:\src" /\
  exists analyzer table,
    fst (ProjectsAnalyzer_init Demo.world "C:\src" initial_state) = Ok analyzer /\
    get_references_table (pa_projects_info analyzer) (reference_matrix analyzer)
    = Ok table /\
    map first_cell (body_rows table) = [Some "Foo"; Some "Foo"; Some "System"].
Proof.
  destruct (ProjectsAnalyzer_init Demo.world "C:\src" initial_state)
    as [res st] eqn:E.
  assert (Hres : res = fst (ProjectsAnalyzer_init Demo.world "C:\src" initial_state))
    by now rewrite E.
  vm_compute in Hres.
  match type of Hres with
  | res = Ok ?a => set (analyzer := a) in Hres
  end.
  subst res.
  destruct (get_references_table (pa_projects_info analyzer)
                                 (reference_matrix analyzer))
    as [table|e] eqn:Htable; [|vm_compute in Htable; discriminate].
  assert (Hrows : map first_cell (body_rows table)
                  = [Some "Foo"; Some "Foo"; Some "System"]).
  { vm_compute in Htable. injection Htable as <-. reflexivity. }
  split.
  - intros H.
    assert (Hp : exists p ps r rs,
               pa_projects_info analyzer = p :: ps /\
               References p = r :: rs /\ Name r = "Foo").
    { vm_compute. do 4 eexists. split; [reflexivity|]. split; reflexivity. }
    destruct Hp as (p & ps & r & rs & Hp & Hr & Hname).
    specialize (H analyzer st table E Htable p r).
    rewrite Hp, Hr, Hname in H.
    specialize (H ltac:(left) ltac:(left)).
    unfold rows_named in H.
    assert (Hlen : length (filter (fun o => o = Some "Foo")
                                  (map first_cell (body_rows table))) = 1%nat).
    { rewrite <- H. clear.
      induction (body_rows table) as [|row rows IH]; [reflexivity|].
      simpl. rewrite !filter_cons.
      destruct (decide (first_cell row = Some "Foo")); simpl; now rewrite IH. }
    rewrite Hrows in Hlen. vm_compute in Hlen. discriminate.
  - exists analyzer, table. simpl. auto.
Qed.

(** C6, amended: the reference table is a header row followed by one row per
    reference object declared by some project, not one per bare name: two
    objects with one bare name have a row each.  The rows are in ascending
    order of the bare name; a row holds the bare name, the version token,
    [Y] or [N] for the package flag, the latest version or a blank, and then
    for each project, in their order, [*] when the project declares the
    reference and a blank otherwise. *)
Theorem references_table_spec (projects_info : list ProjectInfo) :
  exists rows : list Reference,
    get_references_table projects_info (ReferencesMatrix_init projects_info)
    = Ok [Tag "table"
            (Tag "tr" ([line "th" "Reference"; line "th" "Version";
                        line "th" "IsNuGetPackage"; line "th" "LatestVersion"]
                       ++ map (fun p => line "th" (pi_Name p)) projects_info)
             :: map (fun r =>
                       Tag "tr"
                         ([line "td" (Name r);
                           line "td" (Version r);
                           line "td" (if IsNuGetPackage r then "Y" else "N");
                           line "td" (default "" (LatestVersion r))]
                          ++ map (fun p => line "td" (if declares r p
                                                      then "*" else ""))
                                 projects_info))
                    rows)] /\
    Sorted name_le rows /\
    NoDup (map ref_id rows) /\
    (forall k, k ∈ rows -> exists p, p ∈ projects_info /\ k ∈ References p) /\
    (forall p r, p ∈ projects_info -> r ∈ References p ->
                 exists k, k ∈ rows /\ ref_id k = ref_id r).
Proof.
  pose proof (matrix_lookup projects_info) as Hlookup.
  destruct (matrix_keys projects_info) as [Hnd Hkeys].
  rewrite Forall_forall in Hkeys.
  set (m := ReferencesMatrix_init projects_info) in *.
  exists (sorted_by_name (Uses.keys (uses m))).
  pose proof (sorted_by_name_perm (Uses.keys (uses m))) as Hperm.
  split; [|split; [|split; [|split]]].
  - unfold get_references_table. unfold_M.
    erewrite rmap_ext_in; [reflexivity|].
    intros k Hk. rewrite Hperm in Hk.
    unfold reference_row. unfold_M.
    destruct (UsesFacts.lookup_key _ _ Hk) as [v Hv].
    pose proof Hv as Hv'. rewrite Hlookup in Hv'.
    destruct (existsb (declares k) projects_info); [|discriminate].
    injection Hv' as <-.
    erewrite (rmap_seq _ (fun p => line "td" (if declares k p then "*" else ""))).
    + unfold reference_cells. destruct (LatestVersion k); reflexivity.
    + intros i p Hp. unfold use_cell. unfold_M. rewrite Hv. simpl.
      rewrite list_lookup_fmap, Hp. reflexivity.
  - apply sorted_by_name_sorted.
  - now rewrite Hperm.
  - intros k Hk. apply Hkeys. now rewrite <- Hperm.
  - intros p r Hp Hr.
    assert (Hd : existsb (declares r) projects_info = true).
    { apply existsb_exists. exists p. split; [now apply list_elem_of_In|].
      apply declares_spec. eauto. }
    specialize (Hlookup r). rewrite Hd in Hlookup.
    apply lookup_Some_key in Hlookup as (k & Hk & Hid).
    exists k. split; [now rewrite Hperm | exact Hid].
Qed.


(** ** The table of references during a run *)

Section Table.
Variables (env : Env) (index : json).

Lemma Reference_init_state reference_name pk st res st1 :
  Reference_init env index reference_name pk st = (res, st1) ->
  all_references st1 = all_references st /\
  next_id st1 = S (next_id st) /\
  exists new_requests,
    requests st1 = requests st ++ new_requests /\
    (length new_requests <= 1)%nat /\
    forall r, res = Ok r ->
              length new_requests = if IsNuGetPackage r then 1%nat else 0%nat.
Proof.
  intros H.
  pose proof (Reference_init_effect env index reference_name pk st) as E.
  rewrite H in E. exact E.
Qed.

Lemma collect_references_cons pk ref_name rest refs st :
  collect_references env index pk (Some ref_name :: rest) refs st
  = match all_references st !! ref_name with
    | Some r => collect_references env index pk rest (refs ++ [r]) st
    | None =>
        match Reference_init env index ref_name pk st with
        | (Ok r, st1) =>
            collect_references env index pk rest (refs ++ [r])
                               (with_reference ref_name r st1)
        | (Raise e, st1) => (Raise e, st1)
        end
    end.
Proof.
  simpl. unfold_M. unfold get_all_references, set_all_references. simpl.
  destruct (all_references st !! ref_name); [reflexivity|].
  destruct (Reference_init env index ref_name pk st) as [[r|e] st1];
    reflexivity.
Qed.

Lemma table_ok_bump st st1 :
  table_ok st -> all_references st1 = all_references st ->
  next_id st1 = S (next_id st) -> table_ok st1.
Proof.
  intros [Hn Hf Hi] Ht Hid. split; rewrite ?Ht, ?Hid.
  - exact Hn.
  - intros s r H. specialize (Hf s r H). lia.
  - exact Hi.
Qed.

Lemma table_ok_insert st st1 ref_name r :
  table_ok st -> all_references st !! ref_name = None ->
  all_references st1 = all_references st ->
  next_id st1 = S (next_id st) ->
  FullName r = ref_name -> ref_id r = next_id st ->
  table_ok (with_reference ref_name r st1).
Proof.
  intros [Hn Hf Hi] Hnone Ht Hid HF Hr. split; simpl; rewrite ?Ht, ?Hid.
  - intros s r'. rewrite lookup_insert. case_decide.
    + intros [= <-]. congruence.
    + apply Hn.
  - intros s r'. rewrite lookup_insert. case_decide.
    + intros [= <-]. lia.
    + intros H'. specialize (Hf s r' H'). lia.
  - intros s1 s2 r1 r2. rewrite !lookup_insert. repeat case_decide.
    + congruence.
    + intros [= <-] H2 E. specialize (Hf s2 r2 H2). lia.
    + intros H1 [= <-] E. specialize (Hf s1 r1 H1). lia.
    + apply Hi.
Qed.

Lemma nr_packages_insert st st1 ref_name r :
  all_references st !! ref_name = None ->
  all_references st1 = all_references st ->
  nr_packages (with_reference ref_name r st1)
  = (nr_packages st + if IsNuGetPackage r then 1 else 0)%nat.
Proof.
  intros Hnone Ht. unfold nr_packages, packages_of, with_reference. simpl.
  rewrite Ht. destruct (IsNuGetPackage r) eqn:Hflag.
  - rewrite map_filter_insert_True by exact Hflag.
    rewrite map_size_insert_None; [lia|].
    apply map_lookup_filter_None. left. exact Hnone.
  - rewrite map_filter_insert_not'; [lia | simpl; congruence |].
    intros y Hy. congruence.
Qed.

Lemma collect_references_spec pk names :
  forall refs st res st',
    table_ok st ->
    (forall r, r ∈ refs -> all_references st !! FullName r = Some r) ->
    collect_references env index pk names refs st = (res, st') ->
    table_ok st' /\
    all_references st ⊆ all_references st' /\
    (length (requests st') + nr_packages st
     <= length (requests st) + nr_packages st' + raised res)%nat /\
    (forall out, res = Ok out ->
                 forall r, r ∈ out -> all_references st' !! FullName r = Some r).
Proof.
  induction names as [|[ref_name|] names IH]; intros refs st res st' Hok Hrefs.
  - simpl. unfold_M. simpl. intros [= <- <-].
    split; [exact Hok|]. split; [reflexivity|]. split; [simpl; lia|].
    now intros out [= <-].
  - rewrite collect_references_cons.
    destruct (all_references st !! ref_name) as [r|] eqn:Hlook.
    + apply IH; [exact Hok|].
      intros r' Hr'. apply elem_of_app in Hr' as [Hr'|Hr']; [now apply Hrefs|].
      apply list_elem_of_singleton in Hr'. subst r'.
      now rewrite (ok_name st Hok _ _ Hlook).
    + destruct (Reference_init env index ref_name pk st) as [[r|e] st1] eqn:Hinit.
      * pose proof (Reference_init_state _ _ _ _ _ Hinit)
          as (Ht & Hid & new & Hreq & Hlen & Hflag).
        specialize (Hflag r eq_refl).
        apply Reference_init_Ok in Hinit
          as (n & v & _ & Hrid & HF & _).
        intros Hrec.
        apply IH in Hrec as (Hok' & Hsub & Hcount & Hout).
        -- split; [exact Hok'|]. split; [|split; [|exact Hout]].
           ++ etrans; [|exact Hsub]. simpl. rewrite Ht.
              now apply insert_subseteq.
           ++ rewrite (nr_packages_insert st st1 ref_name r Hlook Ht) in Hcount.
              simpl in Hcount. rewrite Hreq, length_app in Hcount. lia.
        -- eapply table_ok_insert; eauto.
        -- intros r' Hr'. simpl. rewrite Ht.
           apply elem_of_app in Hr' as [Hr'|Hr'].
           ++ eapply lookup_weaken; [now apply Hrefs|].
              now apply insert_subseteq.
           ++ apply list_elem_of_singleton in Hr'. subst r'.
              rewrite HF. apply lookup_insert_eq.
      * pose proof (Reference_init_state _ _ _ _ _ Hinit)
          as (Ht & Hid & new & Hreq & Hlen & _).
        intros [= <- <-]. split; [eapply table_ok_bump; eauto|].
        split; [now rewrite Ht|]. split; [|discriminate].
        unfold nr_packages. rewrite Ht, Hreq, length_app. simpl. lia.
  - simpl. unfold_M. unfold new_object. simpl. intros [= <- <-].
    split; [now apply (table_ok_bump st)|]. split; [reflexivity|].
    split; [unfold nr_packages; simpl; lia | discriminate].
Qed.

End Table.

Section Projects.
Variables (env : Env) (folder : string) (index : json).

Lemma parse_root_state file st res st' :
  parse_root env file st = (res, st') -> st' = st.
Proof.
  unfold parse_root. unfold_M.
  destruct (fs env file) as [[|root]|]; now intros [= _ <-].
Qed.

Lemma read_project_nuget_packages_state file st res st' :
  read_project_nuget_packages env file st = (res, st') -> st' = st.
Proof.
  unfold read_project_nuget_packages, parse_root. unfold_M.
  destruct (fs env _) as [[|root]|]; simpl; now intros [= _ <-].
Qed.

Lemma read_project_info_spec file st res st' :
  table_ok st ->
  read_project_info env folder index file st = (res, st') ->
  table_ok st' /\
  all_references st ⊆ all_references st' /\
  match res with
  | Ok info =>
      (forall r, r ∈ References info ->
                 all_references st' !! FullName r = Some r) /\
      (length (requests st') + nr_packages st
       <= length (requests st) + nr_packages st'
          + if no_references info then 1 else 0)%nat
  | Raise _ => st' = st
  end.
Proof.
  intros Hok. unfold read_project_info.
  unfold mbind at 1. unfold M_bind, bind.
  destruct (read_project_nuget_packages env file st) as [[pk|e] st0] eqn:Hpk;
    apply read_project_nuget_packages_state in Hpk; subst st0.
  2:{ intros [= <- <-]. now split. }
  unfold mbind at 1. unfold M_bind, bind.
  destruct (parse_root env file st) as [[root|e] st0] eqn:Hroot;
    apply parse_root_state in Hroot; subst st0.
  2:{ intros [= <- <-]. now split. }
  unfold mbind, M_bind, bind, try_except.
  destruct (collect_references env index pk _ [] st) as [[out|e] st1] eqn:Hc;
    apply collect_references_spec in Hc as (Hok1 & Hsub & Hcount & Hout);
    try exact Hok; try (intros r Hr; now apply elem_of_nil in Hr).
  - unfold_M. intros [= <- <-]. split; [exact Hok1|]. split; [exact Hsub|].
    simpl. split; [now apply Hout|]. simpl in Hcount. lia.
  - unfold_M. intros [= <- <-]. split; [exact Hok1|]. split; [exact Hsub|].
    simpl. split; [intros r Hr; now apply elem_of_nil in Hr|].
    simpl in Hcount. unfold no_references. simpl. lia.
Qed.

Lemma read_projects_spec files :
  forall st res st',
    table_ok st ->
    mapM (read_project_info env folder index) files st = (res, st') ->
    table_ok st' /\
    all_references st ⊆ all_references st' /\
    forall projects,
      res = Ok projects ->
      length projects = length files /\
      (forall p r, p ∈ projects -> r ∈ References p ->
                   all_references st' !! FullName r = Some r) /\
      (length (requests st') + nr_packages st
       <= length (requests st) + nr_packages st'
          + length (List.filter no_references projects))%nat.
Proof.
  induction files as [|file files IH]; intros st res st' Hok; simpl.
  - unfold_M. intros [= <- <-]. split; [exact Hok|]. split; [reflexivity|].
    intros projects [= <-]. split; [reflexivity|].
    split; [intros p r Hp; now apply elem_of_nil in Hp | simpl; lia].
  - unfold mbind at 1. unfold M_bind, bind.
    destruct (read_project_info env folder index file st)
      as [[info|e] st1] eqn:Hinfo;
      apply read_project_info_spec in Hinfo as (Hok1 & Hsub1 & Hinfo);
      try exact Hok.
    2:{ intros [= <- <-]. subst st1. split; [exact Hok|].
        split; [reflexivity | discriminate]. }
    destruct Hinfo as [Hrefs Hcount].
    unfold mbind, M_bind, bind.
    destruct (mapM (read_project_info env folder index) files st1)
      as [[rest|e] st2] eqn:Hrest;
      apply IH in Hrest as (Hok2 & Hsub2 & Hrest); try exact Hok1.
    2:{ intros [= <- <-]. split; [exact Hok2|].
        split; [etrans; [exact Hsub1 | exact Hsub2] | discriminate]. }
    unfold_M. intros [= <- <-]. split; [exact Hok2|].
    split; [etrans; [exact Hsub1 | exact Hsub2]|].
    intros projects [= <-].
    destruct (Hrest rest eq_refl) as (Hlen & Hall & Hcount2).
    split; [simpl; congruence|]. split.
    + intros p r Hp Hr. apply elem_of_cons in Hp as [-> | Hp].
      * eapply lookup_weaken; [now apply Hrefs | exact Hsub2].
      * now apply (Hall p).
    + simpl. destruct (no_references info); simpl; lia.
Qed.

End Projects.

(** The matrix of a run is built from the projects of the run, once they
    have all been read. *)
Lemma matrix_built_from_projects (env : Env) (folder : string)
      (analyzer : ProjectsAnalyzer) (st0 st : state) :
  ProjectsAnalyzer_init env folder st0 = (Ok analyzer, st) ->
  reference_matrix analyzer = ReferencesMatrix_init (pa_projects_info analyzer).
Proof.
  unfold ProjectsAnalyzer_init.
  unfold mbind, M_bind, bind, set_all_references, NugetServiceIndex_init,
    http_get. simpl.
  destruct (http_get_json env _) as [index|]; [|discriminate].
  match goal with
  | |- context [mapM ?f ?files ?s] =>
      destruct (mapM f files s) as [[projects|e] st1]
  end; [|discriminate].
  unfold_M. now intros [= <- _].
Qed.

Lemma one_record_per_bare_name_fails :
  ~ one_record_per_bare_name Demo.world "C:\src" /\
  ~ one_query_per_name Demo.world "C:\src".
Proof.
  destruct (ProjectsAnalyzer_init Demo.world "C:\src" initial_state)
    as [res st] eqn:E.
  assert (Hres : exists analyzer, res = Ok analyzer).
  { replace res with (fst (ProjectsAnalyzer_init Demo.world "C:\src" initial_state))
      by now rewrite E.
    vm_compute. eauto. }
  destruct Hres as [analyzer ->].
  assert (Hst : st = snd (ProjectsAnalyzer_init Demo.world "C:\src" initial_state))
    by now rewrite E.
  split; intros H.
  - specialize (H analyzer st E "Foo"). rewrite Hst in H.
    vm_compute in H. lia.
  - specialize (H analyzer st E (Demo.registrations +:+ "foo/index.json")).
    rewrite Hst in H. vm_compute in H.
    assert (2 <= 1)%nat by (apply H; discriminate). lia.
Qed.

(** ** Reading one project file *)

Lemma malformed_document_aborts :
  ~ no_exception_escapes Demo.world "C:\broken" Demo.index_json
      "C:\broken\Bad.csproj" initial_state /\
  fst (main Demo.world "C:\broken") = Raise ParseError.
Proof.
  split; [|reflexivity].
  intros (info & st' & H).
  apply (f_equal fst) in H. vm_compute in H. discriminate.
Qed.

(** C2, amended: when the project file is a well-formed document, and so is
    its manifest if there is one, reading the project returns a project and
    raises nothing: without framework-version element the version is absent,
    without reference elements the reference list is empty, and when
    collecting the references raises the list is empty as well. *)
Theorem read_project_info_total
        (env : Env) (folder : string) (index : json) (file : string)
        (root : Element) (st : state)
        (Hfile : fs env file = Some (Xml root))
        (Hmanifest : fs env (path_dirname env file +:+ "\packages.config")
                     <> Some Malformed) :
  exists info st',
    read_project_info env folder index file st = (Ok info, st') /\
    (ET.findall [ns +:+ "PropertyGroup"; ns +:+ "TargetFrameworkVersion"] root = []
     -> TargetFrameworkVersion info = None) /\
    (ET.findall [ns +:+ "ItemGroup"; ns +:+ "Reference"] root = []
     -> References info = []) /\
    (forall e st1,
        collect_references env index (ng_packages info)
          (map (fun reference => ET.get reference "Include")
               (ET.findall [ns +:+ "ItemGroup"; ns +:+ "Reference"] root))
          [] st = (Raise e, st1) ->
        References info = [] /\ st' = st1).
Proof.
  unfold read_project_info, read_project_nuget_packages, parse_root.
  unfold_M. unfold try_except.
  destruct (fs env (path_dirname env file +:+ "\packages.config"))
    as [[|mroot]|]; [congruence | |]; simpl; rewrite Hfile; simpl.
  all: match goal with
       | |- context [collect_references ?e ?i ?pk ?names [] ?s] =>
           destruct (collect_references e i pk names [] s)
             as [[out|err] st1] eqn:Hc
       end.
  all: eexists _, _; split; [reflexivity|]; simpl.
  all: split; [now intros -> |].
  all: split; [intros Hnone; rewrite Hnone in Hc; simpl in Hc;
               unfold_M; now injection Hc as <- <- || reflexivity |].
  all: intros e st2 H; rewrite Hc in H; try discriminate H;
    injection H as _ <-; now split.
Qed.

Lemma read_project_info_total_witness :
  exists info st',
    read_project_info Demo.world "C:\src" Demo.index_json
      "C:\src\lib\Lib.csproj" initial_state = (Ok info, st') /\
    TargetFrameworkVersion info = Some "v4.7.2".
Proof.
  assert (Hm : Demo.files "C:\src\lib\packages.config" <> Some Malformed)
    by discriminate.
  destruct (read_project_info_total Demo.world "C:\src" Demo.index_json
              "C:\src\lib\Lib.csproj"
              (Demo.project ["Foo, Version=1.0.0.0, Culture=neutral"; "System"])
              initial_state eq_refl Hm)
    as (info & st' & H & _).
  exists info, st'. split; [exact H|].
  apply (f_equal fst) in H. vm_compute in H. now injection H as <-.
Defined.

(** ** A folder without project files *)

Lemma get_files_in_folder_none (env : Env) (folder : string) :
  Forall (fun entry =>
            Forall (fun name =>
                      str_upper env (snd (path_splitext env
                                            (path_join env (fst entry) name)))
                      <> ".CSPROJ")
                   (snd entry))
         (os_walk env folder) ->
  get_files_in_folder env folder ".csproj" = [].
Proof.
  unfold get_files_in_folder.
  change (str_upper env ".csproj") with ".CSPROJ".
  induction (os_walk env folder) as [|[dirpath filenames] walk IH];
    intros H; [reflexivity|].
  apply Forall_cons in H as [Hdir Hwalk]. simpl in Hdir.
  rewrite filter_cons. case_decide; simpl.
  - rewrite filter_app, (IH Hwalk), app_nil_r.
    clear -Hdir. induction Hdir as [|name names Hname _ IHn]; [reflexivity|].
    simpl. rewrite filter_cons. case_decide as Heq; [|exact IHn].
    apply String.eqb_eq in Heq. contradiction.
  - exact (IH Hwalk).
Qed.

Lemma empty_folder_offline_raises :
  ~ empty_folder_reports Demo.offline "C:\empty" /\
  ~ empty_folder_reports Demo.unwritable "C:\empty".
Proof.
  split; intros H; destruct (H eq_refl) as [report Hr];
    vm_compute in Hr; discriminate.
Qed.

(** C8, amended: for a folder in which no file has the project extension,
    if the registry answers the request for its service index (the one
    request of such a run), the report can be written to its temporary file
    and the browser can be started on it, the run raises nothing; the
    document it writes and shows holds the two tables with their header rows
    and no other row. *)
Theorem empty_folder_report
        (env : Env) (folder : string) (index : json) (filename : string)
        (opened : bool)
        (Hnone : Forall (fun entry =>
                           Forall (fun name =>
                                     str_upper env
                                       (snd (path_splitext env
                                               (path_join env (fst entry) name)))
                                     <> ".CSPROJ")
                                  (snd entry))
                        (os_walk env folder))
        (Hindex : http_get_json env "https://api.nuget.org/v3/index.json"
                  = Some index)
        (Hsave : save_tmp env empty_report = Ok filename)
        (Hopen : webbrowser_open env ("file://" +:+ filename) = Ok opened) :
  empty_report
  = [Asis "<!DOCTYPE html>";
     Tag "html"
       [Tag "head"
          [Tag "style"
             [Text "table, th, td {border: 1px solid black; border-collapse: collapse; }"]];
        Tag "body"
          [Tag "div"
             [line "h1" ".NET Framework versions";
              Tag "table"
                [Tag "tr" [line "th" "Project";
                           line "th" "TargetFrameworkVersion"]]];
           Tag "div"
             [line "h1" "References";
              Tag "table"
                [Tag "tr" [line "th" "Reference"; line "th" "Version";
                           line "th" "IsNuGetPackage";
                           line "th" "LatestVersion"]]]]]] /\
  fst (main env folder)
  = Ok {| shown_html := empty_report; shown_file := filename;
          shown_url := "file://" +:+ filename |} /\
  requests (snd (main env folder)) = ["https://api.nuget.org/v3/index.json"].
Proof.
  split; [reflexivity|].
  unfold main, ProjectsAnalyzer_init.
  rewrite (get_files_in_folder_none env folder Hnone).
  unfold NugetServiceIndex_init, http_get, set_all_references. unfold_M.
  simpl. rewrite Hindex. simpl.
  unfold generate_and_show_report, save_tmp_html, open_html. unfold_M. simpl.
  match goal with
  | |- context [save_tmp env ?d] => change d with empty_report
  end.
  rewrite Hsave, Hopen. split; reflexivity.
Qed.

Lemma empty_folder_report_witness :
  fst (main Demo.world "C:\empty")
  = Ok {| shown_html := empty_report; shown_file := Demo.tmp_name;
          shown_url := "file://" +:+ Demo.tmp_name |}.
Proof.
  refine (proj1 (proj2 (empty_folder_report Demo.world "C:\empty"
                          Demo.index_json Demo.tmp_name true _
                          eq_refl eq_refl eq_refl))).
  repeat constructor; discriminate.
Defined.

(** * Further properties *)

(** ** Resolving a service of the registry *)

Lemma rfilter_Ok {A} (p : A -> result bool) (q : A -> bool) (l : list A) :
  Forall (fun x => p x = Ok (q x)) l -> rfilter p l = Ok (List.filter q l).
Proof.
  induction 1 as [|x l Hx _ IH]; [reflexivity|].
  simpl. unfold_M. rewrite Hx, IH. simpl. now destruct (q x).
Qed.

Lemma rfilter_Raise {A} (p : A -> result bool) (before after : list A)
      (bad : A) (e : exn) :
  Forall (fun x => exists b, p x = Ok b) before -> p bad = Raise e ->
  rfilter p (before ++ bad :: after) = Raise e.
Proof.
  intros Hb Hbad. induction Hb as [|x l [b Hx] _ IH]; simpl; unfold_M.
  - now rewrite Hbad.
  - rewrite Hx. simpl in IH. unfold_M. now rewrite IH.
Qed.

Lemma filter_first_match {A} (q : A -> bool) (before after : list A) (x : A) :
  Forall (fun y => q y = false) before -> q x = true ->
  List.filter q (before ++ x :: after) = x :: List.filter q after.
Proof.
  intros Hb Hx. induction Hb as [|y l Hy _ IH]; simpl.
  - now rewrite Hx.
  - now rewrite Hy.
Qed.

Lemma typed_test (service_name : string) (x : json) :
  typed x ->
  (t ← Json.getitem x "@type"; Ok (Json.eq_str t service_name))
  = Ok (has_type service_name x).
Proof. intros [t Ht]. unfold has_type. unfold_M. now rewrite Ht. Qed.

(** X1: when every resource of the index has a type, the service is the
    first resource of the wanted type, and its [@id] is handed back (or the
    exception of its lookup); later resources of the same type are ignored. *)
Theorem get_service_id_first_match
        (api_index : json) (service_name : string)
        (before after : list json) (service : json)
        (Hresources : Json.getitem api_index "resources"
                      = Ok (JArr (before ++ service :: after)))
        (Hbefore : Forall (fun x => typed x /\ has_type service_name x = false)
                          before)
        (Hservice : has_type service_name service = true)
        (Hafter : Forall typed after) :
  get_service_id api_index service_name = Json.getitem service "@id".
Proof.
  unfold get_service_id. unfold_M. rewrite Hresources. simpl.
  assert (Htyped : typed service).
  { unfold has_type in Hservice. unfold typed.
    destruct (Json.getitem service "@type"); [eauto | discriminate]. }
  rewrite (rfilter_Ok _ (has_type service_name)).
  - rewrite filter_first_match; [reflexivity | | exact Hservice].
    eapply Forall_impl; [exact Hbefore|]. now intros x [_ H].
  - apply Forall_app. split.
    + eapply Forall_impl; [exact Hbefore|]. intros x [H _].
      now apply typed_test.
    + constructor; [now apply typed_test|].
      eapply Forall_impl; [exact Hafter|]. intros x H. now apply typed_test.
Qed.

Lemma get_service_id_first_match_witness :
  get_service_id Demo.index_json "RegistrationsBaseUrl"
  = Ok (JStr Demo.registrations).
Proof.
  refine (get_service_id_first_match Demo.index_json "RegistrationsBaseUrl"
            [JObj [("@id", JStr "https://api.nuget.org/v3-flatcontainer/");
                   ("@type", JStr "PackageBaseAddress/3.0.0")]]
            []
            (JObj [("@id", JStr Demo.registrations);
                   ("@type", JStr "RegistrationsBaseUrl")])
            eq_refl _ eq_refl _).
  - repeat constructor. eexists. reflexivity.
  - constructor.
Defined.

(** X2: when every resource has a type and none has the wanted one, the
    lookup raises [StopIteration]; this is the only way it raises that
    exception on such an index. *)
Theorem get_service_id_no_match
        (api_index : json) (service_name : string) (resources : list json)
        (Hresources : Json.getitem api_index "resources" = Ok (JArr resources))
        (Htyped : Forall typed resources) :
  get_service_id api_index service_name = Raise StopIteration
  <-> Forall (fun x => has_type service_name x = false) resources.
Proof.
  unfold get_service_id. unfold_M. rewrite Hresources. simpl.
  rewrite (rfilter_Ok _ (has_type service_name)).
  2:{ eapply Forall_impl; [exact Htyped|]. intros x H. now apply typed_test. }
  clear Hresources. induction Htyped as [|x l Hx Hl IH]; simpl.
  - split; [constructor | reflexivity].
  - destruct (has_type service_name x) eqn:Hq.
    + split.
      * unfold has_type in Hq. destruct x; try discriminate.
        unfold Json.getitem.
        destruct (Json.assoc "@id" fields); discriminate.
      * intros H. apply Forall_cons in H as [H _]. congruence.
    + rewrite IH. rewrite Forall_cons. tauto.
Qed.

Lemma get_service_id_no_match_witness :
  get_service_id Demo.index_json "SearchQueryService" = Raise StopIteration.
Proof.
  apply (get_service_id_no_match Demo.index_json "SearchQueryService"
           [JObj [("@id", JStr "https://api.nuget.org/v3-flatcontainer/");
                  ("@type", JStr "PackageBaseAddress/3.0.0")];
            JObj [("@id", JStr Demo.registrations);
                  ("@type", JStr "RegistrationsBaseUrl")]] eq_refl).
  - repeat constructor; eexists; reflexivity.
  - repeat constructor.
Defined.

(** X3: the comprehension of line 10 looks at every resource before the
    first match is taken: a resource without a type makes the lookup raise
    the exception of its [@type] lookup, even when an earlier resource is of
    the wanted type. *)
Theorem get_service_id_untyped_resource
        (api_index : json) (service_name : string)
        (before after : list json) (bad : json) (e : exn)
        (Hresources : Json.getitem api_index "resources"
                      = Ok (JArr (before ++ bad :: after)))
        (Hbefore : Forall typed before)
        (Hbad : Json.getitem bad "@type" = Raise e) :
  get_service_id api_index service_name = Raise e.
Proof.
  unfold get_service_id. unfold_M. rewrite Hresources. simpl.
  rewrite (rfilter_Raise _ before after bad e); [reflexivity | |].
  - eapply Forall_impl; [exact Hbefore|]. intros x [t Ht].
    rewrite Ht. eauto.
  - now rewrite Hbad.
Qed.

Lemma get_service_id_untyped_resource_witness :
  get_service_id
    (JObj [("resources",
            JArr [JObj [("@id", JStr Demo.registrations);
                        ("@type", JStr "RegistrationsBaseUrl")];
                  JObj [("@id", JStr "https://example.org/")]])])
    "RegistrationsBaseUrl" = Raise KeyError.
Proof.
  apply (get_service_id_untyped_resource
           (JObj [("resources",
                   JArr [JObj [("@id", JStr Demo.registrations);
                               ("@type", JStr "RegistrationsBaseUrl")];
                         JObj [("@id", JStr "https://example.org/")]])])
           "RegistrationsBaseUrl"
           [JObj [("@id", JStr Demo.registrations);
                  ("@type", JStr "RegistrationsBaseUrl")]]
           [] (JObj [("@id", JStr "https://example.org/")]) KeyError eq_refl).
  - repeat constructor. eexists. reflexivity.
  - reflexivity.
Defined.

(** ** The record of a registry package *)

Lemma rmap_as_str (l : list string) : rmap Json.as_str (map JStr l) = Ok l.
Proof.
  induction l as [|x l IH]; [reflexivity|]. simpl. unfold_M. simpl.
  now rewrite IH.
Qed.

(** X4: a reference whose bare name is the identifier of a manifest entry,
    with the registry answering, is flagged as a package after exactly one
    request, to the registration URL of its lowercased bare name; its latest
    version is the [upper] labels of the pages joined by a comma and a
    space, which is the empty string, not an absent value, when there is no
    page. *)
Theorem Reference_init_package
        (env : Env) (index : json) (reference_name name version base : string)
        (packages : list NuGetPackage) (st : state)
        (info : json) (pages : list json) (uppers : list string)
        (Hname : name_and_version reference_name = Ok (name, version))
        (Hlisted : existsb (has_id name) packages = true)
        (Hbase : get_service_id index "RegistrationsBaseUrl" = Ok (JStr base))
        (Hanswer : http_get_json env (base +:+ str_lower env name +:+ "/index.json")
                   = Some info)
        (Hitems : Json.getitem info "items" = Ok (JArr pages))
        (Hupper : Forall2 (fun page u => Json.getitem page "upper" = Ok (JStr u))
                          pages uppers) :
  Reference_init env index reference_name (Some packages) st
  = (Ok {| ref_id := next_id st; FullName := reference_name; Name := name;
           Version := version; IsNuGetPackage := true;
           LatestVersion := Some (PyStr.join ", " uppers) |},
     {| all_references := all_references st; next_id := S (next_id st);
        requests := requests st
                    ++ [base +:+ str_lower env name +:+ "/index.json"] |}) /\
  (pages = [] -> PyStr.join ", " uppers = "").
Proof.
  split.
  - unfold Reference_init. unfold_M. unfold new_object. simpl.
    rewrite Hname. simpl. rewrite any_object_filter, Hlisted.
    unfold NugetPackageMetadata_init, http_get, registration_url. unfold_M.
    rewrite Hbase. simpl. rewrite Hanswer. simpl.
    unfold get_latest_version. unfold_M. rewrite Hitems. simpl.
    rewrite (rmap_Forall2 _ pages (map JStr uppers)).
    + unfold Json.join. unfold_M. rewrite rmap_as_str. reflexivity.
    + clear -Hupper. induction Hupper; simpl; constructor; auto.
  - intros ->. inversion Hupper. reflexivity.
Qed.

Lemma Reference_init_package_witness :
  fst (Reference_init Demo.world Demo.index_json "Foo, Version=1.0.0.0"
         (Some [{| Id := Some "Foo"; pkg_Version := Some "1.0.0";
                   TargetFramework := None |}]) initial_state)
  = Ok {| ref_id := 0; FullName := "Foo, Version=1.0.0.0"; Name := "Foo";
          Version := "1.0.0.0"; IsNuGetPackage := true;
          LatestVersion := Some "2.0.0" |}.
Proof.
  rewrite (proj1 (Reference_init_package Demo.world Demo.index_json
                    "Foo, Version=1.0.0.0" "Foo" "1.0.0.0" Demo.registrations
                    [{| Id := Some "Foo"; pkg_Version := Some "1.0.0";
                        TargetFramework := None |}] initial_state
                    Demo.foo_json
                    [JObj [("lower", JStr "0.1.0"); ("upper", JStr "2.0.0")]]
                    ["2.0.0"] eq_refl eq_refl eq_refl eq_refl eq_refl
                    ltac:(repeat constructor))).
  reflexivity.
Defined.

(** X5: when the lookup of a package fails, the construction raises and no
    record exists: without a registration service in the index nothing is
    requested; an unanswered request raises [RequestError] after the one
    request; an answer whose versions cannot be read or joined raises the
    exception of that step. *)
Theorem Reference_init_lookup_fails
        (env : Env) (index : json) (reference_name name version : string)
        (packages : list NuGetPackage) (st : state)
        (Hname : name_and_version reference_name = Ok (name, version))
        (Hlisted : existsb (has_id name) packages = true) :
  let run := Reference_init env index reference_name (Some packages) st in
  let asked uri :=
    {| all_references := all_references st; next_id := S (next_id st);
       requests := requests st ++ [registration_url env uri name] |} in
  (forall e, get_service_id index "RegistrationsBaseUrl" = Raise e ->
             run = (Raise e, bump st)) /\
  (forall uri, get_service_id index "RegistrationsBaseUrl" = Ok uri ->
               http_get_json env (registration_url env uri name) = None ->
               run = (Raise RequestError, asked uri)) /\
  (forall uri info e,
      get_service_id index "RegistrationsBaseUrl" = Ok uri ->
      http_get_json env (registration_url env uri name) = Some info ->
      (versions ← get_latest_version info; Json.join ", " versions) = Raise e ->
      run = (Raise e, asked uri)).
Proof.
  intros run asked. subst run asked.
  unfold Reference_init. unfold_M. unfold new_object. simpl.
  rewrite Hname. simpl. rewrite any_object_filter, Hlisted.
  unfold NugetPackageMetadata_init, http_get. unfold_M.
  split; [|split].
  - intros e ->. reflexivity.
  - intros uri -> Hnone. simpl. rewrite Hnone. reflexivity.
  - intros uri info e -> Hinfo Hfail. simpl. rewrite Hinfo. simpl.
    destruct (get_latest_version info) as [versions|e'].
    + simpl in Hfail. rewrite Hfail. reflexivity.
    + simpl in Hfail. injection Hfail as ->. reflexivity.
Qed.

Lemma Reference_init_lookup_fails_witness :
  fst (Reference_init Demo.offline Demo.index_json "Foo"
         (Some [{| Id := Some "Foo"; pkg_Version := None;
                   TargetFramework := None |}]) initial_state)
  = Raise RequestError.
Proof.
  destruct (Reference_init_lookup_fails Demo.offline Demo.index_json
              "Foo" "Foo" ""
              [{| Id := Some "Foo"; pkg_Version := None;
                  TargetFramework := None |}] initial_state eq_refl eq_refl)
    as (_ & H & _).
  rewrite (H (JStr Demo.registrations) eq_refl eq_refl). reflexivity.
Defined.

(** ** The shape of a record *)

Section SplitShape.
Variable sep : ascii.

Lemma split_join (s : string) :
  PyStr.join (String sep "") (PyStr.split sep s) = s.
Proof.
  induction s as [|c s IH]; [reflexivity|]. simpl.
  destruct (Ascii.eqb_spec c sep) as [->|Hc].
  - destruct (PyStr.split sep s) as [|t ts] eqn:E.
    + now apply split_not_nil in E.
    + change (PyStr.join (String sep "") ("" :: t :: ts))
        with ("" +:+ String sep "" +:+ PyStr.join (String sep "") (t :: ts)).
      now rewrite IH.
  - destruct (PyStr.split sep s) as [|t ts] eqn:E.
    + now apply split_not_nil in E.
    + destruct ts as [|t' ts].
      * simpl in *. congruence.
      * change (PyStr.join (String sep "") (String c t :: t' :: ts))
          with (String c (t +:+ String sep "" +:+
                          PyStr.join (String sep "") (t' :: ts))).
        f_equal. exact IH.
Qed.

Lemma split_pieces (c : ascii) (s : string) :
  (c = sep \/ PyStr.contains c s = false) ->
  Forall (fun t => PyStr.contains c t = false) (PyStr.split sep s).
Proof.
  induction s as [|d s IH]; intros H; simpl.
  - repeat constructor.
  - destruct (Ascii.eqb_spec d sep) as [->|Hd].
    + constructor; [reflexivity|]. apply IH.
      destruct H as [H|H]; [now left|]. simpl in H.
      apply orb_false_elim in H as [_ H]. now right.
    + assert (Hdc : Ascii.eqb d c = false).
      { destruct H as [->|H]; [now apply Ascii.eqb_neq|].
        simpl in H. now apply orb_false_elim in H as [H _]. }
      assert (Hrest : c = sep \/ PyStr.contains c s = false).
      { destruct H as [H|H]; [now left|]. simpl in H.
        apply orb_false_elim in H as [_ H]. now right. }
      specialize (IH Hrest).
      destruct (PyStr.split sep s) as [|t ts]; [repeat constructor|].
      * simpl. now rewrite Hdc.
      * apply Forall_cons in IH as [Ht Hts]. constructor; [|exact Hts].
        simpl. now rewrite Hdc, Ht.
Qed.
End SplitShape.

(** X6: in a constructed record the bare name has no comma and the declared
    string is the bare name, alone or followed by a comma and the
    qualifiers; the version token has neither a comma nor an ['=']. *)
Theorem Reference_shape
        (env : Env) (index : json) (reference_name : string)
        (nuget_packages : option (list NuGetPackage)) (st st' : state)
        (r : Reference)
        (Hinit : Reference_init env index reference_name nuget_packages st
                 = (Ok r, st')) :
  PyStr.contains "," (Name r) = false /\
  (FullName r = Name r \/
   exists qualifiers, FullName r = Name r +:+ String "," qualifiers) /\
  PyStr.contains "," (Version r) = false /\
  PyStr.contains "=" (Version r) = false.
Proof.
  apply Reference_init_Ok in Hinit
    as (name & version & Hnv & _ & -> & -> & -> & _).
  unfold name_and_version in Hnv.
  pose proof (split_join "," reference_name) as Hjoin.
  pose proof (split_pieces "," "," reference_name (or_introl eq_refl)) as Hpieces.
  destruct (PyStr.split "," reference_name) as [|t0 [|t1 rest]] eqn:E.
  - now apply split_not_nil in E.
  - injection Hnv as <- <-. simpl in *.
    apply Forall_cons in Hpieces as [H0 _].
    repeat split; auto.
  - apply Forall_cons in Hpieces as [H0 Hrest].
    apply Forall_cons in Hrest as [H1 _].
    pose proof (split_pieces "=" "," t1 (or_intror H1)) as Hc.
    pose proof (split_pieces "=" "=" t1 (or_introl eq_refl)) as He.
    destruct (PyStr.split "=" t1) as [|a [|b more]]; try discriminate.
    injection Hnv as <- <-. simpl hd.
    apply Forall_cons in Hc as [_ Hc]. apply Forall_cons in Hc as [Hc _].
    apply Forall_cons in He as [_ He]. apply Forall_cons in He as [He _].
    repeat split; auto.
    right. eexists. symmetry. exact Hjoin.
Qed.

Lemma Reference_shape_witness :
  exists r st',
    Reference_init Demo.world Demo.index_json
      "Foo, Version=1.0.0.0, Culture=neutral" None initial_state = (Ok r, st') /\
    PyStr.contains "," (Name r) = false.
Proof.
  eexists _, _. split; [vm_compute; reflexivity|].
  refine (proj1 (Reference_shape Demo.world Demo.index_json
                   "Foo, Version=1.0.0.0, Culture=neutral" None
                   initial_state _ _ _)).
  vm_compute. reflexivity.
Defined.

(** ** Finding the project files *)

Lemma filter_decide_bool {A} (f : A -> bool) (l : list A) :
  filter (fun x => f x = true) l = List.filter f l.
Proof.
  induction l as [|x l IH]; [reflexivity|].
  rewrite filter_cons. simpl. destruct (f x) eqn:E.
  - rewrite decide_True by reflexivity. now rewrite IH.
  - rewrite decide_False by discriminate. exact IH.
Qed.

Lemma get_files_in_folder_walked (env : Env) (folder extension : string) :
  get_files_in_folder env folder extension
  = List.filter (has_extension env extension) (walked_files env folder).
Proof.
  unfold get_files_in_folder, walked_files.
  rewrite (filter_decide_bool (has_extension env extension)). f_equal.
  induction (os_walk env folder) as [|[dirpath filenames] walk IH];
    [reflexivity|].
  rewrite filter_cons. simpl flat_map. case_decide as Hlen; simpl.
  - now rewrite IH.
  - destruct filenames; [exact IH | simpl in Hlen; lia].
Qed.

(** X7: the files found are the paths [os.path.join(dirpath, name)] of the
    walk whose extension, upper-cased by [str.upper], is the wanted extension
    upper-cased the same way,
    in the order of the walk; the test of line 197 on directories without
    files changes nothing. *)
Theorem get_files_in_folder_spec (env : Env) (folder extension : string) :
  get_files_in_folder env folder extension
  = List.filter (has_extension env extension) (walked_files env folder) /\
  (forall file,
      In file (get_files_in_folder env folder extension) <->
      (exists dirpath filenames name,
          In (dirpath, filenames) (os_walk env folder) /\ In name filenames /\
          file = path_join env dirpath name) /\
      str_upper env (snd (path_splitext env file)) = str_upper env extension).
Proof.
  split; [apply get_files_in_folder_walked|].
  intros file. rewrite get_files_in_folder_walked, filter_In.
  unfold walked_files, has_extension. rewrite in_flat_map, String.eqb_eq.
  split; intros [H Hext]; (split; [|exact Hext]).
  - destruct H as ([dirpath filenames] & Hin & Hfile). simpl in Hfile.
    apply in_map_iff in Hfile as (name & <- & Hname). eauto 6.
  - destruct H as (dirpath & filenames & name & Hin & Hname & ->).
    exists (dirpath, filenames). split; [exact Hin|]. simpl.
    apply in_map_iff. eauto.
Qed.

Lemma upper_lower_ascii (c : ascii) :
  PyStr.upper_ascii (PyStr.lower_ascii c) = PyStr.upper_ascii c.
Proof.
  destruct c as [b0 b1 b2 b3 b4 b5 b6 b7].
  destruct b0, b1, b2, b3, b4, b5, b6, b7; reflexivity.
Qed.

Lemma is_ascii_lower_ascii (c : ascii) :
  PyStr.is_ascii (PyStr.lower_ascii c) = PyStr.is_ascii c.
Proof.
  destruct c as [b0 b1 b2 b3 b4 b5 b6 b7].
  destruct b0, b1, b2, b3, b4, b5, b6, b7; reflexivity.
Qed.

Lemma lower_ascii_non_ascii (c : ascii) :
  PyStr.is_ascii c = false -> PyStr.lower_ascii c = c.
Proof.
  destruct c as [b0 b1 b2 b3 b4 b5 b6 b7].
  destruct b0, b1, b2, b3, b4, b5, b6, b7; (reflexivity || discriminate).
Qed.

Lemma upper_from_lower (f : string -> string) (s : string) :
  forall run,
    PyStr.upper_from f run (PyStr.ascii_lower s) = PyStr.upper_from f run s.
Proof.
  unfold PyStr.ascii_lower.
  induction s as [|c s IH]; intros run; simpl; [reflexivity|].
  rewrite is_ascii_lower_ascii. destruct (PyStr.is_ascii c) eqn:Hc.
  - now rewrite upper_lower_ascii, IH.
  - now rewrite (lower_ascii_non_ascii c Hc), IH.
Qed.

Lemma upper_lower (env : Env) (s : string) :
  str_upper env (PyStr.ascii_lower s) = str_upper env s.
Proof. apply upper_from_lower. Qed.

(** X8: the extension is compared without regard to the case of its ASCII
    letters: a walked file whose extension agrees with the wanted one once
    both are lower-cased is found. *)
Theorem get_files_in_folder_any_case
        (env : Env) (folder extension dirpath name : string)
        (filenames : list string)
        (Hdir : In (dirpath, filenames) (os_walk env folder))
        (Hname : In name filenames)
        (Hext : PyStr.ascii_lower (snd (path_splitext env (path_join env dirpath name)))
                = PyStr.ascii_lower extension) :
  In (path_join env dirpath name) (get_files_in_folder env folder extension).
Proof.
  rewrite get_files_in_folder_walked, filter_In. split.
  - unfold walked_files. apply in_flat_map. exists (dirpath, filenames).
    split; [exact Hdir|]. simpl. now apply in_map.
  - unfold has_extension. apply String.eqb_eq.
    rewrite <- (upper_lower env), Hext. apply upper_lower.
Qed.

Lemma get_files_in_folder_any_case_witness :
  In "C:\src\app\App.csproj" (get_files_in_folder Demo.world "C:\src" ".CsProj").
Proof.
  apply (get_files_in_folder_any_case Demo.world "C:\src" ".CsProj"
           "C:\src\app" "App.csproj" ["App.csproj"; "packages.config"]).
  - right. left. reflexivity.
  - left. reflexivity.
  - reflexivity.
Defined.

(** ** The run as a whole *)

(** X9: when the request for the service index is not answered, the run
    raises [RequestError] before a project file is read: the table is empty,
    no object exists and the index is the only request. *)
Theorem main_index_unanswered
        (env : Env) (folder : string)
        (Hindex : http_get_json env "https://api.nuget.org/v3/index.json" = None) :
  main env folder
  = (Raise RequestError,
     {| all_references := ∅; next_id := 0;
        requests := ["https://api.nuget.org/v3/index.json"] |}).
Proof.
  unfold main, ProjectsAnalyzer_init, NugetServiceIndex_init, http_get,
    set_all_references. unfold_M. simpl. rewrite Hindex. reflexivity.
Qed.

Lemma main_index_unanswered_witness :
  fst (main Demo.offline "C:\src") = Raise RequestError.
Proof.
  now rewrite (main_index_unanswered Demo.offline "C:\src" eq_refl).
Defined.

Lemma references_table_rows (projects_info : list ProjectInfo) :
  get_references_table projects_info (ReferencesMatrix_init projects_info)
  = Ok [Tag "table"
          (references_header projects_info
           :: map (reference_row_of projects_info)
                  (sorted_by_name
                     (Uses.keys (uses (ReferencesMatrix_init projects_info)))))].
Proof.
  unfold get_references_table. unfold_M.
  erewrite rmap_ext_in; [reflexivity|].
  intros k Hk. rewrite sorted_by_name_perm in Hk.
  unfold reference_row, reference_row_of. unfold_M.
  destruct (UsesFacts.lookup_key _ _ Hk) as [v Hv].
  pose proof Hv as Hv'. rewrite matrix_lookup in Hv'.
  destruct (existsb (declares k) projects_info); [|discriminate].
  injection Hv' as <-.
  erewrite (rmap_seq _ (fun p => line "td" (if declares k p then "*" else ""))).
  - reflexivity.
  - intros i p Hp. unfold use_cell. unfold_M. rewrite Hv. simpl.
    rewrite list_lookup_fmap, Hp. reflexivity.
Qed.

Section ReadProject.
Variables (env : Env) (folder : string) (index : json).

(** What reading a project file gives, field by field. *)
Lemma read_project_info_fields file st info st' :
  read_project_info env folder index file st = (Ok info, st') ->
  exists root,
    fs env file = Some (Xml root) /\
    fs env (path_dirname env file +:+ "\packages.config") <> Some Malformed /\
    File info = PyStr.drop (String.length folder) file /\
    pi_Name info = get_project_name env (File info) /\
    TargetFrameworkVersion info = declared_version root /\
    ng_packages info = manifest_packages env file /\
    match collect_references env index (manifest_packages env file)
                             (declared_names root) [] st with
    | (Ok out, st1) => References info = out /\ st' = st1
    | (Raise _, st1) => References info = [] /\ st' = st1
    end.
Proof.
  unfold read_project_info, read_project_nuget_packages, parse_root,
    manifest_packages, declared_names, declared_version.
  unfold_M. unfold try_except.
  destruct (fs env (path_dirname env file +:+ "\packages.config"))
    as [[|mroot]|]; cbv beta iota; [discriminate | |].
  all: destruct (fs env file) as [[|root]|]; cbv beta iota; try discriminate.
  all: intros H; exists root; revert H.
  all: match goal with
       | |- context [collect_references ?e ?i ?pk ?names [] ?s] =>
           destruct (collect_references e i pk names [] s) as [[out|err] st1]
       end.
  all: intros [= <- <-]; cbn [File pi_Name TargetFrameworkVersion References
                               ng_packages ProjectInfo_init];
    repeat split; congruence.
Qed.

Lemma read_project_info_returns file st :
  well_formed_project env file ->
  exists info st', read_project_info env folder index file st = (Ok info, st').
Proof.
  intros [[root Hroot] Hm].
  unfold read_project_info, read_project_nuget_packages, parse_root.
  unfold_M. unfold try_except.
  destruct (fs env (path_dirname env file +:+ "\packages.config"))
    as [[|mroot]|]; simpl; [congruence | |]; rewrite Hroot; simpl.
  all: match goal with
       | |- context [collect_references ?e ?i ?pk ?names [] ?s] =>
           destruct (collect_references e i pk names [] s) as [[out|err] st1]
       end; eauto.
Qed.

Lemma read_project_info_raises file st e st' :
  read_project_info env folder index file st = (Raise e, st') ->
  parser_exn e /\ ~ well_formed_project env file.
Proof.
  unfold read_project_info, read_project_nuget_packages, parse_root,
    well_formed_project, parser_exn.
  unfold_M. unfold try_except.
  destruct (fs env (path_dirname env file +:+ "\packages.config"))
    as [[|mroot]|]; simpl.
  - intros [= <- _]. split; [now left|]. intros [_ H]. congruence.
  - destruct (fs env file) as [[|root]|]; simpl.
    + intros [= <- _]. split; [now left|]. intros [[r H] _]. discriminate.
    + match goal with
      | |- context [collect_references ?e ?i ?pk ?names [] ?s] =>
          destruct (collect_references e i pk names [] s) as [[out|err] st1]
      end; discriminate.
    + intros [= <- _]. split; [now right|]. intros [[r H] _]. discriminate.
  - destruct (fs env file) as [[|root]|]; simpl.
    + intros [= <- _]. split; [now left|]. intros [[r H] _]. discriminate.
    + match goal with
      | |- context [collect_references ?e ?i ?pk ?names [] ?s] =>
          destruct (collect_references e i pk names [] s) as [[out|err] st1]
      end; discriminate.
    + intros [= <- _]. split; [now right|]. intros [[r H] _]. discriminate.
Qed.

Lemma read_projects_returns files :
  Forall (well_formed_project env) files ->
  forall st, exists projects st',
      mapM (read_project_info env folder index) files st = (Ok projects, st').
Proof.
  induction 1 as [|file files Hfile _ IH]; intros st; simpl.
  - unfold_M. eauto.
  - destruct (read_project_info_returns file st Hfile) as (info & st1 & H1).
    destruct (IH st1) as (projects & st2 & H2).
    unfold_M. rewrite H1, H2. eauto.
Qed.

Lemma read_projects_raises files :
  forall st e st',
    mapM (read_project_info env folder index) files st = (Raise e, st') ->
    parser_exn e /\ Exists (fun file => ~ well_formed_project env file) files.
Proof.
  induction files as [|file files IH]; intros st e st'; simpl.
  - unfold_M. discriminate.
  - unfold mbind at 1. unfold M_bind, bind.
    destruct (read_project_info env folder index file st)
      as [[info|e1] st1] eqn:H1.
    + unfold mbind, M_bind, bind.
      destruct (mapM (read_project_info env folder index) files st1)
        as [[projects|e2] st2] eqn:H2.
      * unfold_M. discriminate.
      * intros [= <- _]. destruct (IH _ _ _ H2) as [He Hex].
        split; [exact He | now right].
    + intros [= <- _]. apply read_project_info_raises in H1 as [He Hwf].
      split; [exact He | now left].
Qed.

End ReadProject.

Lemma get_output_built (projects_info : list ProjectInfo) :
  exists report,
    get_output projects_info (ReferencesMatrix_init projects_info) = Ok report.
Proof.
  unfold get_output. unfold_M. rewrite references_table_rows. simpl. eauto.
Qed.

(** X10: a run writes and shows its report whenever the service index is
    answered, every project file found is a well-formed document whose
    manifest, if there is one, is well formed too, the temporary file can be
    written and the browser can be started, whatever the registry answers
    about the packages and whatever the reference strings look like; the
    address handed to the browser is that of the file written. *)
Theorem main_returns
        (env : Env) (folder : string) (index : json)
        (Hindex : http_get_json env "https://api.nuget.org/v3/index.json"
                  = Some index)
        (Hfiles : Forall (well_formed_project env)
                         (get_files_in_folder env folder ".csproj"))
        (Hsave : forall html, exists filename, save_tmp env html = Ok filename)
        (Hopen : forall url, exists opened, webbrowser_open env url = Ok opened) :
  exists report,
    fst (main env folder) = Ok report /\
    save_tmp env (shown_html report) = Ok (shown_file report) /\
    shown_url report = "file://" +:+ shown_file report.
Proof.
  unfold main, ProjectsAnalyzer_init, NugetServiceIndex_init, http_get,
    set_all_references.
  unfold mbind, M_bind, bind. simpl. rewrite Hindex.
  match goal with
  | |- context [mapM ?f ?files ?s] =>
      destruct (read_projects_returns env folder index files Hfiles s)
        as (projects & st' & ->)
  end.
  unfold_M. simpl.
  unfold generate_and_show_report, save_tmp_html, open_html. unfold_M. simpl.
  destruct (get_output_built projects) as [html ->].
  destruct (Hsave html) as [filename Hfile]. rewrite Hfile.
  destruct (Hopen ("file://" +:+ filename)) as [opened ->].
  eexists. split; [reflexivity|]. simpl. split; [exact Hfile | reflexivity].
Qed.

Lemma main_returns_witness :
  exists report,
    fst (main Demo.world "C:\src") = Ok report /\
    save_tmp Demo.world (shown_html report) = Ok (shown_file report) /\
    shown_url report = "file://" +:+ shown_file report.
Proof.
  apply (main_returns Demo.world "C:\src" Demo.index_json eq_refl).
  - repeat constructor; try (eexists; reflexivity); discriminate.
  - intros html. eexists. reflexivity.
  - intros url. eexists. reflexivity.
Defined.

(** X11: a run raises only [RequestError], on the request for the service
    index, an exception of the two parsers, on a project file found that is
    not a well-formed project, the exception of writing the report of the
    projects read to the temporary file, or the exception of starting the
    browser on the file written; no exception of an element lookup, of a
    reference string, of a package lookup or of the rendering leaves it. *)
Theorem main_raises_only
        (env : Env) (folder : string) (e : exn)
        (Hraise : fst (main env folder) = Raise e) :
  (e = RequestError /\
   http_get_json env "https://api.nuget.org/v3/index.json" = None) \/
  (parser_exn e /\
   Exists (fun file => ~ well_formed_project env file)
          (get_files_in_folder env folder ".csproj")) \/
  (exists analyzer html,
      fst (ProjectsAnalyzer_init env folder initial_state) = Ok analyzer /\
      get_output (pa_projects_info analyzer) (reference_matrix analyzer)
      = Ok html /\
      save_tmp env html = Raise e) \/
  (exists analyzer html filename,
      fst (ProjectsAnalyzer_init env folder initial_state) = Ok analyzer /\
      get_output (pa_projects_info analyzer) (reference_matrix analyzer)
      = Ok html /\
      save_tmp env html = Ok filename /\
      webbrowser_open env ("file://" +:+ filename) = Raise e).
Proof.
  revert Hraise. unfold main.
  destruct (ProjectsAnalyzer_init env folder initial_state)
    as [[analyzer|e0] st] eqn:Hinit; simpl.
  - assert (Hm : reference_matrix analyzer
                 = ReferencesMatrix_init (pa_projects_info analyzer)).
    { revert Hinit.
      unfold ProjectsAnalyzer_init, NugetServiceIndex_init, http_get,
        set_all_references.
      unfold mbind, M_bind, bind. simpl.
      destruct (http_get_json env _) as [index|]; simpl; [|discriminate].
      match goal with
      | |- context [mapM ?f ?files ?s] =>
          destruct (mapM f files s) as [[projects|e1] st1]
      end; [|discriminate].
      unfold_M. now intros [= <- <-]. }
    unfold generate_and_show_report, save_tmp_html, open_html. unfold_M.
    destruct (get_output_built (pa_projects_info analyzer)) as [html Hhtml].
    rewrite Hm, Hhtml. simpl.
    destruct (save_tmp env html) as [filename|e1] eqn:Hfile; simpl.
    + destruct (webbrowser_open env ("file://" +:+ filename))
        as [opened|e2] eqn:Hopen; simpl; [discriminate|].
      intros [= <-]. right. right. right.
      exists analyzer, html, filename. now rewrite Hm.
    + intros [= <-]. right. right. left.
      exists analyzer, html. now rewrite Hm.
  - intros [= <-]. revert Hinit.
    unfold ProjectsAnalyzer_init, NugetServiceIndex_init, http_get,
      set_all_references.
    unfold mbind, M_bind, bind. simpl.
    destruct (http_get_json env _) as [index|]; simpl.
    2:{ intros [= <- _]. now left. }
    match goal with
    | |- context [mapM ?f ?files ?s] =>
        destruct (mapM f files s) as [[projects|e1] st1] eqn:Hmap
    end.
    + unfold_M. discriminate.
    + simpl. intros [= <- _]. right. left.
      now apply read_projects_raises in Hmap.
Qed.

Lemma main_raises_only_witness :
  parser_exn ParseError /\
  Exists (fun file => ~ well_formed_project Demo.world file)
         (get_files_in_folder Demo.world "C:\broken" ".csproj").
Proof.
  destruct (main_raises_only Demo.world "C:\broken" ParseError eq_refl)
    as [[H _] | [H | [(analyzer & html & H & _)
                     | (analyzer & html & filename & H & _)]]];
    [discriminate | exact H | discriminate | discriminate].
Defined.

(** ** The projects of a run *)

Lemma ProjectsAnalyzer_init_Ok (env : Env) (folder : string)
      (analyzer : ProjectsAnalyzer) (st0 st : state) :
  ProjectsAnalyzer_init env folder st0 = (Ok analyzer, st) ->
  exists index,
    http_get_json env "https://api.nuget.org/v3/index.json" = Some index /\
    mapM (read_project_info env folder index)
         (get_files_in_folder env folder ".csproj") (started st0)
    = (Ok (pa_projects_info analyzer), st) /\
    reference_matrix analyzer
    = ReferencesMatrix_init (pa_projects_info analyzer).
Proof.
  unfold ProjectsAnalyzer_init, started.
  unfold mbind, M_bind, bind, set_all_references, NugetServiceIndex_init,
    http_get. simpl.
  destruct (http_get_json env _) as [index|]; [|discriminate].
  match goal with
  | |- context [mapM ?f ?files ?s] =>
      destruct (mapM f files s) as [[projects|e] st1] eqn:Hmap
  end; [|discriminate].
  unfold_M. intros [= <- <-]. exists index. simpl. auto.
Qed.

Lemma table_ok_started (st0 : state) : table_ok (started st0).
Proof. split; simpl; intros *; rewrite ?lookup_empty; discriminate. Qed.

Section Collected.
Variables (env : Env) (index : json).

Lemma collect_references_names pk names :
  forall refs st out st',
    table_ok st ->
    collect_references env index pk names refs st = (Ok out, st') ->
    map (fun r => Some (FullName r)) out
    = map (fun r => Some (FullName r)) refs ++ names.
Proof.
  induction names as [|[ref_name|] names IH]; intros refs st out st' Hok.
  - simpl. unfold_M. simpl. intros [= <- <-]. now rewrite app_nil_r.
  - rewrite collect_references_cons.
    destruct (all_references st !! ref_name) as [r|] eqn:Hlook.
    + intros H. apply IH in H; [|exact Hok].
      rewrite H, map_app, <- app_assoc. simpl.
      now rewrite (ok_name st Hok _ _ Hlook).
    + destruct (Reference_init env index ref_name pk st) as [[r|e] st1] eqn:Hinit;
        [|discriminate].
      pose proof (Reference_init_state _ _ _ _ _ _ _ Hinit) as (Ht & Hid & _).
      apply Reference_init_Ok in Hinit as (n & v & _ & Hrid & HF & _).
      intros H. apply IH in H.
      * rewrite H, map_app, <- app_assoc. simpl. now rewrite HF.
      * eapply table_ok_insert; eauto.
  - simpl. unfold_M. unfold new_object. simpl. discriminate.
Qed.

End Collected.

Lemma read_projects_Forall2 (env : Env) (folder : string) (index : json)
      (P : string -> ProjectInfo -> Prop) :
  (forall file st info st',
      table_ok st ->
      read_project_info env folder index file st = (Ok info, st') ->
      P file info) ->
  forall files st projects st',
    table_ok st ->
    mapM (read_project_info env folder index) files st = (Ok projects, st') ->
    Forall2 P files projects.
Proof.
  intros HP. induction files as [|file files IH]; intros st projects st' Hok;
    simpl.
  - unfold_M. intros [= <- _]. constructor.
  - unfold mbind at 1. unfold M_bind, bind.
    destruct (read_project_info env folder index file st)
      as [[info|e] st1] eqn:Hinfo; [|discriminate].
    unfold mbind, M_bind, bind.
    destruct (mapM (read_project_info env folder index) files st1)
      as [[rest|e] st2] eqn:Hrest; [|discriminate].
    unfold_M. intros [= <- _]. constructor.
    + eapply HP; eauto.
    + eapply IH; [|exact Hrest].
      now apply (read_project_info_spec env folder index file st _ _ Hok Hinfo).
Qed.

Lemma read_project_info_describes (env : Env) (folder : string) (index : json)
      file st info st' :
  table_ok st ->
  read_project_info env folder index file st = (Ok info, st') ->
  describes env folder file info.
Proof.
  intros Hok H.
  apply read_project_info_fields in H
    as (root & Hroot & _ & HF & HN & HV & Hpk & Hrefs).
  exists root. repeat split; auto.
  destruct (collect_references env index (manifest_packages env file)
                               (declared_names root) [] st)
    as [[out|e] st1] eqn:Hc.
  - destruct Hrefs as [-> _]. right.
    now apply (collect_references_names env index _ _ [] st out st1 Hok) in Hc.
  - destruct Hrefs as [-> _]. now left.
Qed.

(** X12: a run has one project per project file found, in the order found;
    the project carries the path of its file below the folder, the name of
    the file without directory and extension, the text of the first
    framework-version element of the file (none when there is no such
    element), the packages of the manifest beside it (none when there is no
    manifest), and as references either nothing or one record per reference
    element, in document order and with repetitions, each under the
    [Include] value of its element. *)
Theorem projects_describe_files
        (env : Env) (folder : string) (analyzer : ProjectsAnalyzer)
        (st0 st : state)
        (Hrun : ProjectsAnalyzer_init env folder st0 = (Ok analyzer, st)) :
  Forall2 (describes env folder)
          (get_files_in_folder env folder ".csproj")
          (pa_projects_info analyzer).
Proof.
  apply ProjectsAnalyzer_init_Ok in Hrun as (index & _ & Hmap & _).
  eapply read_projects_Forall2; [|apply table_ok_started|exact Hmap].
  intros file s info s' Hok H.
  eapply read_project_info_describes; eauto.
Qed.

Lemma projects_describe_files_witness :
  exists analyzer st,
    ProjectsAnalyzer_init Demo.world "C:\src" initial_state = (Ok analyzer, st) /\
    Forall2 (describes Demo.world "C:\src")
            ["C:\src\app\App.csproj"; "C:\src\lib\Lib.csproj"]
            (pa_projects_info analyzer).
Proof.
  destruct (ProjectsAnalyzer_init Demo.world "C:\src" initial_state)
    as [res st] eqn:E.
  assert (Hres : exists analyzer, res = Ok analyzer).
  { replace res with (fst (ProjectsAnalyzer_init Demo.world "C:\src" initial_state))
      by now rewrite E.
    vm_compute. eauto. }
  destruct Hres as [analyzer ->].
  exists analyzer, st. split; [reflexivity|].
  exact (projects_describe_files Demo.world "C:\src" analyzer initial_state st E).
Defined.

(** X13: the framework table of a run is its header row followed by one row
    per project file found, in the order found: the name of the file without
    directory and extension, then the text of the first framework-version
    element of the file, blank when the file has none or the element is
    empty. *)
Theorem framework_table_of_run
        (env : Env) (folder : string) (analyzer : ProjectsAnalyzer)
        (st0 st : state)
        (Hrun : ProjectsAnalyzer_init env folder st0 = (Ok analyzer, st)) :
  get_framework_table (pa_projects_info analyzer)
  = [Tag "table"
         (Tag "tr" [line "th" "Project"; line "th" "TargetFrameworkVersion"]
          :: map (framework_row env folder)
                 (get_files_in_folder env folder ".csproj"))].
Proof.
  apply ProjectsAnalyzer_init_Ok in Hrun as (index & _ & Hmap & _).
  assert (H : Forall2 (describes env folder)
                      (get_files_in_folder env folder ".csproj")
                      (pa_projects_info analyzer)).
  { eapply read_projects_Forall2; [|apply table_ok_started|exact Hmap].
    intros file s info s' Hok H. eapply read_project_info_describes; eauto. }
  unfold get_framework_table. do 3 f_equal. clear Hmap.
  induction H as [|file p files projects Hp _ IH]; [reflexivity|].
  simpl. rewrite IH. f_equal.
  destruct Hp as (root & Hroot & HF & HN & HV & _).
  unfold framework_row. rewrite Hroot, HN, HF, HV.
  now destruct (declared_version root).
Qed.

Lemma framework_table_of_run_witness :
  exists analyzer st,
    ProjectsAnalyzer_init Demo.world "C:\src" initial_state = (Ok analyzer, st) /\
    get_framework_table (pa_projects_info analyzer)
    = [Tag "table"
           [Tag "tr" [line "th" "Project"; line "th" "TargetFrameworkVersion"];
            Tag "tr" [line "td" "App"; line "td" "v4.7.2"];
            Tag "tr" [line "td" "Lib"; line "td" "v4.7.2"]]].
Proof.
  destruct (ProjectsAnalyzer_init Demo.world "C:\src" initial_state)
    as [res st] eqn:E.
  assert (Hres : exists analyzer, res = Ok analyzer).
  { replace res with (fst (ProjectsAnalyzer_init Demo.world "C:\src" initial_state))
      by now rewrite E.
    vm_compute. eauto. }
  destruct Hres as [analyzer ->].
  exists analyzer, st. split; [reflexivity|].
  rewrite (framework_table_of_run Demo.world "C:\src" analyzer initial_state st E).
  reflexivity.
Defined.

(** ** Known and unusable references *)

Section Known.
Variables (env : Env) (index : json).

Lemma collect_references_known pk names :
  forall rs refs st,
    Forall2 (known_as st) names rs ->
    collect_references env index pk names refs st = (Ok (refs ++ rs), st).
Proof.
  induction names as [|n names IH]; intros rs refs st H.
  - inversion H. subst. simpl. unfold_M. now rewrite app_nil_r.
  - inversion H as [|? r ? rs' (s & -> & Hs) Hrest]. subst.
    rewrite collect_references_cons, Hs, (IH rs' _ _ Hrest).
    now rewrite <- app_assoc.
Qed.

Lemma collect_references_unusable pk names :
  forall refs st,
    Exists (unusable st) names ->
    exists e st', collect_references env index pk names refs st = (Raise e, st').
Proof.
  induction names as [|[ref_name|] names IH]; intros refs st H.
  - inversion H.
  - rewrite collect_references_cons.
    destruct (all_references st !! ref_name) as [r|] eqn:Hlook.
    + apply IH. apply Exists_cons in H as [[_ Hn]|Hrest]; [congruence | exact Hrest].
    + destruct (Reference_init env index ref_name pk st) as [[r|e] st1] eqn:Hinit;
        [|eauto].
      pose proof (Reference_init_state _ _ _ _ _ _ _ Hinit) as (Ht & _).
      apply Reference_init_Ok in Hinit as (n & v & Hnv & _).
      assert (Hgood : second_token_ok ref_name = true).
      { destruct (second_token_ok ref_name) eqn:E; [reflexivity|].
        apply name_and_version_raise_iff in E as [e He]. congruence. }
      apply IH. apply Exists_cons in H as [[Hbad _]|Hrest]; [congruence|].
      eapply Exists_impl; [exact Hrest|].
      intros [s|] Hs; [|exact I]. destruct Hs as [Hbad Hnone].
      split; [exact Hbad|]. simpl. rewrite Ht.
      rewrite lookup_insert_ne; [exact Hnone | congruence].
  - simpl. unfold_M. unfold new_object. simpl. eauto.
Qed.

End Known.

(** X14: a project whose reference elements all name strings that are in
    the table already gets the records of the table, one per element,
    whatever its own manifest lists; reading it requests nothing, creates no
    object and leaves the table as it is. *)
Theorem read_project_info_known
        (env : Env) (folder : string) (index : json) (file : string)
        (root : Element) (st : state) (rs : list Reference)
        (Hfile : fs env file = Some (Xml root))
        (Hmanifest : fs env (path_dirname env file +:+ "\packages.config")
                     <> Some Malformed)
        (Hknown : Forall2 (known_as st) (declared_names root) rs) :
  read_project_info env folder index file st
  = (Ok (ProjectInfo_init env (PyStr.drop (String.length folder) file)
                          (declared_version root) rs
                          (manifest_packages env file)), st).
Proof.
  destruct (read_project_info_returns env folder index file st)
    as (info & st' & H).
  { split; [eauto | exact Hmanifest]. }
  rewrite H.
  apply read_project_info_fields in H
    as (root' & Hroot' & _ & HF & HN & HV & Hpk & Hrefs).
  assert (root' = root) by congruence. subst root'.
  rewrite (collect_references_known env index _ _ rs [] st Hknown) in Hrefs.
  destruct Hrefs as [Hrefs ->]. simpl in Hrefs.
  destruct info as [n f v refs pk]. simpl in *. subst.
  reflexivity.
Qed.

Lemma read_project_info_known_witness :
  let read := read_project_info Demo.world "C:\src" Demo.index_json
                                "C:\src\app\App.csproj" in
  let st1 := snd (read initial_state) in
  snd (read st1) = st1.
Proof.
  intros read st1. subst read.
  rewrite (read_project_info_known Demo.world "C:\src" Demo.index_json
             "C:\src\app\App.csproj" (Demo.project ["Foo"; "System"]) st1
             [{| ref_id := 0; FullName := "Foo"; Name := "Foo"; Version := "";
                 IsNuGetPackage := true; LatestVersion := Some "2.0.0" |};
              {| ref_id := 1; FullName := "System"; Name := "System";
                 Version := ""; IsNuGetPackage := false;
                 LatestVersion := None |}] eq_refl).
  - reflexivity.
  - discriminate.
  - repeat constructor; eexists; (split; [reflexivity|]); vm_compute; reflexivity.
Defined.

(** X15: one reference element that cannot be turned into a record (no
    [Include] attribute, or a new string whose second token has no ['='])
    leaves the project without any reference, the usable ones included; the
    project itself is still read. *)
Theorem read_project_info_unusable_reference
        (env : Env) (folder : string) (index : json) (file : string)
        (root : Element) (st : state)
        (Hfile : fs env file = Some (Xml root))
        (Hmanifest : fs env (path_dirname env file +:+ "\packages.config")
                     <> Some Malformed)
        (Hbad : Exists (unusable st) (declared_names root)) :
  exists info st',
    read_project_info env folder index file st = (Ok info, st') /\
    References info = [].
Proof.
  destruct (read_project_info_returns env folder index file st)
    as (info & st' & H).
  { split; [eauto | exact Hmanifest]. }
  exists info, st'. split; [exact H|].
  apply read_project_info_fields in H
    as (root' & Hroot' & _ & _ & _ & _ & _ & Hrefs).
  assert (root' = root) by congruence. subst root'.
  destruct (collect_references_unusable env index (manifest_packages env file)
              (declared_names root) [] st Hbad) as (e & st1 & Hc).
  rewrite Hc in Hrefs. now destruct Hrefs.
Qed.

Lemma read_project_info_unusable_reference_witness :
  exists info st',
    read_project_info Odd.world "C:\odd" Demo.index_json "C:\odd\Odd.csproj"
                      initial_state = (Ok info, st') /\
    References info = [].
Proof.
  apply (read_project_info_unusable_reference Odd.world "C:\odd"
           Demo.index_json "C:\odd\Odd.csproj" Odd.project initial_state
           eq_refl).
  - discriminate.
  - right. left. split; reflexivity.
Defined.

(** ** What a run asks the registry *)

Section Requests.
Variables (env : Env) (index : json).

Lemma package_request_cons pk n names u :
  package_request env index pk names u ->
  package_request env index pk (n :: names) u.
Proof.
  intros (packages & uri & s & name & version & H1 & H2 & H3).
  exists packages, uri, s, name, version. split; [exact H1|].
  split; [now right | exact H3].
Qed.

Lemma Reference_init_requests s pk st :
  exists new,
    requests (snd (Reference_init env index s pk st)) = requests st ++ new /\
    Forall (package_request env index pk [Some s]) new.
Proof.
  unfold Reference_init. unfold_M. unfold new_object. simpl.
  destruct (name_and_version s) as [[name version]|e] eqn:Hnv; simpl.
  2:{ exists []. now rewrite app_nil_r. }
  destruct pk as [packages|]; simpl.
  2:{ exists []. now rewrite app_nil_r. }
  rewrite any_object_filter.
  destruct (existsb (has_id name) packages) eqn:Hp; simpl.
  2:{ exists []. now rewrite app_nil_r. }
  unfold NugetPackageMetadata_init, http_get. unfold_M.
  destruct (get_service_id index "RegistrationsBaseUrl") as [uri|e] eqn:Hs;
    simpl.
  2:{ exists []. now rewrite app_nil_r. }
  assert (Hreq : Forall (package_request env index (Some packages) [Some s])
                        [registration_url env uri name]).
  { repeat constructor. exists packages, uri, s, name, version.
    repeat split; auto. now left. }
  destruct (http_get_json env _) as [info|]; simpl; [|eauto].
  destruct (get_latest_version info) as [versions|e]; simpl; [|eauto].
  destruct (Json.join ", " versions) as [latest|e]; simpl; eauto.
Qed.

Lemma collect_references_requests pk names :
  forall refs st,
  exists new,
    requests (snd (collect_references env index pk names refs st))
    = requests st ++ new /\
    Forall (package_request env index pk names) new.
Proof.
  induction names as [|[ref_name|] names IH]; intros refs st.
  - exists []. simpl. now rewrite app_nil_r.
  - rewrite collect_references_cons.
    destruct (all_references st !! ref_name) as [r|].
    + destruct (IH (refs ++ [r]) st) as (new & Hnew & Hall).
      exists new. split; [exact Hnew|].
      eapply Forall_impl; [exact Hall|]. intros u. apply package_request_cons.
    + destruct (Reference_init_requests ref_name pk st) as (new1 & H1 & Hall1).
      assert (Hall1' : Forall (package_request env index pk
                                               (Some ref_name :: names)) new1).
      { eapply Forall_impl; [exact Hall1|].
        intros u (packages & uri & s & name & version & Hpk & Hin & Hrest).
        exists packages, uri, s, name, version. split; [exact Hpk|].
        split; [|exact Hrest]. destruct Hin as [Hin|[]]. now left. }
      destruct (Reference_init env index ref_name pk st) as [[r|e] st1];
        simpl in H1; [|eauto].
      destruct (IH (refs ++ [r]) (with_reference ref_name r st1))
        as (new2 & H2 & Hall2).
      exists (new1 ++ new2). split.
      * rewrite H2. simpl. rewrite H1. now rewrite app_assoc.
      * apply Forall_app. split; [exact Hall1'|].
        eapply Forall_impl; [exact Hall2|].
        intros u. apply package_request_cons.
  - exists []. simpl. now rewrite app_nil_r.
Qed.

Lemma read_project_info_requests folder file st :
  exists new,
    requests (snd (read_project_info env folder index file st))
    = requests st ++ new /\
    Forall (file_request env index file) new.
Proof.
  unfold read_project_info, read_project_nuget_packages, parse_root,
    file_request, manifest_packages, declared_names.
  unfold_M. unfold try_except.
  destruct (fs env (path_dirname env file +:+ "\packages.config"))
    as [[|mroot]|]; cbv beta iota.
  - exists []. simpl. now rewrite app_nil_r.
  - destruct (fs env file) as [[|root]|]; cbv beta iota;
      try (exists []; simpl; now rewrite app_nil_r).
    match goal with
    | |- context [collect_references ?e ?i ?pk ?names [] ?s] =>
        destruct (collect_references_requests pk names [] s)
          as (new & Hnew & Hall);
        destruct (collect_references e i pk names [] s) as [[out|err] st1]
    end; exists new; (split; [exact Hnew|]);
      (eapply Forall_impl; [exact Hall|]); intros u Hu; eauto.
  - destruct (fs env file) as [[|root]|]; cbv beta iota;
      try (exists []; simpl; now rewrite app_nil_r).
    match goal with
    | |- context [collect_references ?e ?i ?pk ?names [] ?s] =>
        destruct (collect_references_requests pk names [] s)
          as (new & Hnew & Hall);
        destruct (collect_references e i pk names [] s) as [[out|err] st1]
    end; exists new; (split; [exact Hnew|]);
      (eapply Forall_impl; [exact Hall|]); intros u Hu; eauto.
Qed.

Lemma read_projects_requests folder files :
  forall st,
  exists new,
    requests (snd (mapM (read_project_info env folder index) files st))
    = requests st ++ new /\
    Forall (fun u => exists file, In file files /\
                                  file_request env index file u) new.
Proof.
  induction files as [|file files IH]; intros st.
  - exists []. simpl. now rewrite app_nil_r.
  - simpl. unfold mbind at 1. unfold M_bind, bind.
    destruct (read_project_info_requests folder file st) as (new1 & H1 & Hall1).
    assert (Hall1' : Forall (fun u => exists f, In f (file :: files) /\
                                                file_request env index f u) new1).
    { eapply Forall_impl; [exact Hall1|]. intros u Hu. exists file.
      split; [now left | exact Hu]. }
    destruct (read_project_info env folder index file st) as [[info|e] st1];
      simpl in H1; [|eauto].
    destruct (IH st1) as (new2 & H2 & Hall2).
    unfold mbind, M_bind, bind.
    destruct (mapM (read_project_info env folder index) files st1)
      as [[rest|e] st2]; simpl in H2; unfold_M; simpl.
    all: exists (new1 ++ new2); split;
      [rewrite H2, H1; now rewrite app_assoc|].
    all: apply Forall_app; split; [exact Hall1'|].
    all: eapply Forall_impl; [exact Hall2|].
    all: intros u (f & Hf & Hu); exists f; split; [now right | exact Hu].
Qed.

End Requests.

(** X16: a run requests the service index first; every further request is
    the registration URL of the lowercased bare name of a reference that
    some project file found declares and the manifest beside that file
    lists; so a folder whose project files have no manifest is asked about
    nothing but the index. *)
Theorem requests_of_run (env : Env) (folder : string) :
  exists new,
    requests (snd (main env folder))
    = "https://api.nuget.org/v3/index.json" :: new /\
    Forall (fun u =>
              exists index file,
                http_get_json env "https://api.nuget.org/v3/index.json"
                = Some index /\
                In file (get_files_in_folder env folder ".csproj") /\
                file_request env index file u) new /\
    (Forall (fun file => manifest_packages env file = None)
            (get_files_in_folder env folder ".csproj") -> new = []).
Proof.
  assert (Hmain : exists new,
             requests (snd (main env folder))
             = "https://api.nuget.org/v3/index.json" :: new /\
             Forall (fun u =>
                       exists index file,
                         http_get_json env "https://api.nuget.org/v3/index.json"
                         = Some index /\
                         In file (get_files_in_folder env folder ".csproj") /\
                         file_request env index file u) new).
  { unfold main, ProjectsAnalyzer_init, NugetServiceIndex_init, http_get,
      set_all_references.
    unfold mbind, M_bind, bind. simpl.
    destruct (http_get_json env _) as [index|] eqn:Hindex; simpl; [|eauto].
    match goal with
    | |- context [mapM ?f ?files ?s] =>
        destruct (read_projects_requests env index folder files s)
          as (new & Hnew & Hall);
        destruct (mapM f files s) as [[projects|e] st1]
    end; simpl in Hnew; unfold_M; simpl; exists new; (split; [exact Hnew|]);
      (eapply Forall_impl; [exact Hall|]);
      intros u (file & Hf & Hu); eauto. }
  destruct Hmain as (new & Hnew & Hall).
  exists new. split; [exact Hnew|]. split; [exact Hall|].
  intros Hnone. destruct new as [|u new]; [reflexivity|].
  apply Forall_cons in Hall as [(index & file & _ & Hfile & root & _ & Hreq) _].
  rewrite Forall_forall in Hnone.
  apply list_elem_of_In in Hfile. specialize (Hnone file Hfile).
  destruct Hreq as (packages & ? & ? & ? & ? & Hpk & _). congruence.
Qed.

(** ** The order of the rows *)

Lemma leb_refl (s : string) : String.leb s s = true.
Proof. now destruct (String.leb_total s s). Qed.

Lemma insert_by_name_named (name : string) (r : Reference) (l : list Reference) :
  List.filter (named name) (insert_by_name r l)
  = List.filter (named name) (r :: l).
Proof.
  induction l as [|x l IH]; [reflexivity|].
  simpl insert_by_name. destruct (String.leb (Name r) (Name x)) eqn:Hle;
    [reflexivity|].
  simpl in *. rewrite IH. unfold named.
  destruct (String.eqb_spec (Name r) name) as [Hr|Hr]; [|reflexivity].
  destruct (String.eqb_spec (Name x) name) as [Hx|Hx]; [|reflexivity].
  rewrite Hr, Hx, leb_refl in Hle. discriminate.
Qed.

(** X17: sorting the references keeps the references of one bare name in
    the order they had: the sort is stable, so rows of equal name follow the
    order in which the matrix met their references. *)
Theorem sorted_by_name_stable (name : string) (l : list Reference) :
  List.filter (named name) (sorted_by_name l) = List.filter (named name) l.
Proof.
  induction l as [|x l IH]; [reflexivity|].
  simpl sorted_by_name. rewrite insert_by_name_named. simpl. now rewrite IH.
Qed.

(** ** The order of the matrix *)

Lemma contains_keys (uses : Uses.t) (r : Reference) :
  Uses.contains uses r = existsb (fun k => same_object k r) (Uses.keys uses).
Proof.
  unfold Uses.contains, Uses.keys.
  induction uses as [|[k v] rest IH]; simpl; [reflexivity|].
  destruct (same_object k r); [reflexivity | exact IH].
Qed.

Lemma mark_refs_keys nr_projects project_id refs :
  forall uses : Uses.t,
    Uses.keys (fold_left (mark_use nr_projects project_id) refs uses)
    = met (Uses.keys uses) refs.
Proof.
  unfold met. induction refs as [|r refs IH]; intros uses; [reflexivity|].
  simpl. rewrite IH, mark_use_keys, contains_keys.
  now destruct (existsb _ (Uses.keys uses)).
Qed.

Lemma mark_projects_keys nr_projects projects :
  forall project_id (uses : Uses.t),
    Uses.keys (mark_projects nr_projects project_id projects uses)
    = met (Uses.keys uses) (concat (map References projects)).
Proof.
  induction projects as [|p projects IH]; intros project_id uses;
    [reflexivity|].
  simpl. rewrite IH, mark_refs_keys. unfold met. now rewrite fold_left_app.
Qed.

Lemma filter_andb {A} (f g : A -> bool) (l : list A) :
  List.filter (fun x => f x && g x) l = List.filter f (List.filter g l).
Proof.
  induction l as [|x l IH]; [reflexivity|]. simpl.
  destruct (g x); simpl; [|now rewrite andb_false_r].
  rewrite andb_true_r. destruct (f x); now rewrite IH.
Qed.

Lemma met_first_occurrences (l : list Reference) :
  forall acc,
    met acc l
    = acc ++ List.filter (fun x => negb (existsb (fun k => same_object k x) acc))
                         (first_occurrences l).
Proof.
  unfold met. induction l as [|r l IH]; intros acc; simpl.
  - now rewrite app_nil_r.
  - destruct (existsb (fun k => same_object k r) acc) eqn:Hr; simpl.
    + rewrite IH. f_equal. rewrite <- filter_andb.
      apply List.filter_ext. intros x.
      destruct (same_object r x) eqn:Hrx; simpl; [|now rewrite andb_true_r].
      rewrite andb_false_r. apply negb_false_iff.
      apply existsb_exists in Hr as (k & Hk & Hkr).
      apply existsb_exists. exists k. split; [exact Hk|]. same_object_cases.
    + rewrite IH, <- app_assoc. simpl. do 2 f_equal.
      rewrite <- filter_andb. apply List.filter_ext. intros x.
      rewrite existsb_app. simpl. rewrite orb_false_r, negb_orb. reflexivity.
Qed.

(** X18: the matrix holds its references in the order in which the projects
    first declare them: its keys are the first occurrences of the objects in
    the reference lists of the projects, read one project after the other. *)
Theorem matrix_keys_first_declared (projects_info : list ProjectInfo) :
  Uses.keys (uses (ReferencesMatrix_init projects_info))
  = first_occurrences (concat (map References projects_info)).
Proof.
  unfold ReferencesMatrix_init. simpl uses.
  rewrite mark_projects_keys, met_first_occurrences. simpl.
  induction (first_occurrences _) as [|x l IH]; simpl; congruence.
Qed.

(** X19: a reference of the matrix is declared by some project: its usage
    list has an entry that is true, at the position of a project that
    declares it, so no row of the table is without a mark. *)
Theorem usage_list_has_mark
        (projects_info : list ProjectInfo) (r : Reference) (v : list bool)
        (Hv : Uses.lookup (uses (ReferencesMatrix_init projects_info)) r = Some v) :
  exists i p,
    projects_info !! i = Some p /\ declares r p = true /\ v !! i = Some true.
Proof.
  rewrite matrix_lookup in Hv.
  destruct (existsb (declares r) projects_info) eqn:Hex; [|discriminate].
  injection Hv as <-.
  apply existsb_exists in Hex as (p & Hp & Hd).
  apply list_elem_of_In, list_elem_of_lookup in Hp as [i Hi].
  exists i, p. split; [exact Hi|]. split; [exact Hd|].
  now rewrite list_lookup_fmap, Hi, <- Hd.
Qed.

Lemma usage_list_has_mark_witness :
  let system := plain_reference 1 "System" "System" "" in
  let app := ProjectInfo_init Demo.world "\app\App.csproj" None [system] None in
  exists i p, [app] !! i = Some p /\ declares system p = true /\
              [true] !! i = Some true.
Proof.
  intros system app.
  exact (usage_list_has_mark [app] system [true] eq_refl).
Defined.

(** ** Rendering a matrix that was not built from the projects *)

Lemma rmap_Raise {A B} (f : A -> result B) (l : list A) (e : exn) :
  rmap f l = Raise e -> exists x, In x l /\ f x = Raise e.
Proof.
  induction l as [|x l IH]; simpl; [discriminate|]. unfold_M.
  destruct (f x) as [y|e'] eqn:Hx; simpl.
  - destruct (rmap f l) as [ys|e'']; simpl; [discriminate|].
    intros [= <-]. destruct (IH eq_refl) as (x' & Hin & Hx').
    exists x'. split; [now right | exact Hx'].
  - intros [= <-]. exists x. split; [now left | exact Hx].
Qed.

Lemma rmap_Ok_all {A B} (f : A -> result B) (l : list A) :
  (forall x, In x l -> exists y, f x = Ok y) -> exists ys, rmap f l = Ok ys.
Proof.
  induction l as [|x l IH]; intros H; simpl; [eauto|]. unfold_M.
  destruct (H x (or_introl eq_refl)) as [y ->].
  destruct IH as [ys ->]; [intros x' Hx'; apply H; now right|].
  simpl. eauto.
Qed.

(** X20: the table of references can be rendered for any projects and any
    matrix whose usage lists have an entry for each project; the only
    exception that rendering raises is [IndexError], for a reference whose
    usage list is shorter than the list of projects. *)
Theorem get_references_table_bounds
        (projects_info : list ProjectInfo) (m : ReferencesMatrix) :
  (Forall (fun k => forall v, Uses.lookup (uses m) k = Some v ->
                              length projects_info <= length v)
          (Uses.keys (uses m)) ->
   exists table, get_references_table projects_info m = Ok table) /\
  (forall e,
      get_references_table projects_info m = Raise e ->
      e = IndexError /\
      exists k v, In k (Uses.keys (uses m)) /\
                  Uses.lookup (uses m) k = Some v /\
                  length v < length projects_info).
Proof.
  assert (Hcell : forall k i,
             In k (Uses.keys (uses m)) ->
             exists v, Uses.lookup (uses m) k = Some v /\
                       use_cell (uses m) k i
                       = match v !! i with
                         | Some b => Ok (line "td" (if (b : bool) then "*" else ""))
                         | None => Raise IndexError
                         end).
  { intros k i Hk. apply list_elem_of_In in Hk.
    destruct (UsesFacts.lookup_key _ _ Hk) as [v Hv]. exists v.
    split; [exact Hv|]. unfold use_cell. unfold_M. rewrite Hv. simpl.
    now destruct (v !! i). }
  split.
  - intros Hall. unfold get_references_table. unfold_M.
    destruct (rmap_Ok_all (reference_row projects_info (uses m))
                          (sorted_by_name (Uses.keys (uses m)))) as [rows ->];
      [|simpl; eauto].
    intros k Hk. apply list_elem_of_In in Hk.
    rewrite sorted_by_name_perm in Hk. apply list_elem_of_In in Hk.
    unfold reference_row. unfold_M.
    destruct (rmap_Ok_all (use_cell (uses m) k)
                          (seq 0 (length projects_info))) as [cells ->];
      [|simpl; eauto].
    intros i Hi. apply in_seq in Hi.
    destruct (Hcell k i Hk) as (v & Hv & ->).
    rewrite Forall_forall in Hall.
    specialize (Hall k (proj2 (list_elem_of_In _ _) Hk) v Hv).
    destruct (v !! i) as [b|] eqn:Hb; [eauto|].
    apply lookup_ge_None in Hb. lia.
  - intros e. unfold get_references_table. unfold_M.
    destruct (rmap (reference_row projects_info (uses m)) _) as [rows|e']
      eqn:Hrows; simpl; [discriminate|].
    intros [= <-]. apply rmap_Raise in Hrows as (k & Hk & Hrow).
    apply list_elem_of_In in Hk. rewrite sorted_by_name_perm in Hk.
    apply list_elem_of_In in Hk.
    unfold reference_row in Hrow. unfold_M.
    destruct (rmap (use_cell (uses m) k) _) as [cells|e''] eqn:Hcells;
      simpl in Hrow; [discriminate|].
    injection Hrow as <-. apply rmap_Raise in Hcells as (i & Hi & Hci).
    apply in_seq in Hi. destruct (Hcell k i Hk) as (v & Hv & Hcv).
    rewrite Hcv in Hci. destruct (v !! i) as [b|] eqn:Hb; [discriminate|].
    injection Hci as <-. split; [reflexivity|].
    exists k, v. split; [exact Hk|]. split; [exact Hv|].
    apply lookup_ge_None in Hb. lia.
Qed.

Lemma get_references_table_bounds_witness :
  let system := plain_reference 1 "System" "System" "" in
  let app := ProjectInfo_init Demo.world "\app\App.csproj" None [system] None in
  let lib := ProjectInfo_init Demo.world "\lib\Lib.csproj" None [] None in
  get_references_table [app; lib] (ReferencesMatrix_init [app]) = Raise IndexError.
Proof.
  intros system app lib.
  destruct (get_references_table [app; lib] (ReferencesMatrix_init [app]))
    as [table|e] eqn:E; [vm_compute in E; discriminate|].
  now destruct (proj2 (get_references_table_bounds [app; lib]
                         (ReferencesMatrix_init [app])) e E) as [-> _].
Defined.

(** * The table of records, filled *)


(** ** How the table of references is filled *)

Section Filling.
Variables (env : Env) (index : json).

Lemma Reference_init_any_state s pk st :
  fst (Reference_init env index s pk st)
  = match fst (Reference_init env index s pk initial_state) with
    | Ok r0 => Ok (with_id (next_id st) r0)
    | Raise e => Raise e
    end.
Proof.
  unfold Reference_init. unfold_M. unfold new_object. simpl.
  destruct (name_and_version s) as [[name version]|e]; simpl; [|reflexivity].
  destruct pk as [packages|]; simpl; [|reflexivity].
  destruct (any_object _); simpl; [|reflexivity].
  unfold NugetPackageMetadata_init, http_get. unfold_M.
  destruct (get_service_id index "RegistrationsBaseUrl") as [uri|e]; simpl;
    [|reflexivity].
  destruct (http_get_json env _) as [info|]; simpl; [|reflexivity].
  destruct (get_latest_version info) as [versions|e]; simpl; [|reflexivity].
  destruct (Json.join ", " versions) as [latest|e]; reflexivity.
Qed.

Lemma Reference_init_constructs s pk st r st1 :
  Reference_init env index s pk st = (Ok r, st1) ->
  exists r0, constructs env index pk s r0 /\ r = with_id (ref_id r) r0.
Proof.
  intros H. pose proof (Reference_init_any_state s pk st) as Hany.
  rewrite H in Hany. simpl in Hany. unfold constructs.
  destruct (fst (Reference_init env index s pk initial_state)) as [r0|e];
    [|discriminate].
  injection Hany as ->. exists r0. split; reflexivity.
Qed.

Lemma constructs_Reference_init s pk st r0 :
  constructs env index pk s r0 ->
  exists r st1, Reference_init env index s pk st = (Ok r, st1).
Proof.
  intros H. pose proof (Reference_init_any_state s pk st) as Hany.
  unfold constructs in H. rewrite H in Hany.
  destruct (Reference_init env index s pk st) as [res st1]. simpl in Hany.
  subst res. eauto.
Qed.

Lemma collect_references_app pk a b :
  forall refs st,
    collect_references env index pk (a ++ b) refs st
    = match collect_references env index pk a refs st with
      | (Ok out, st1) => collect_references env index pk b out st1
      | (Raise e, st1) => (Raise e, st1)
      end.
Proof.
  induction a as [|[ref_name|] a IH]; intros refs st.
  - reflexivity.
  - rewrite <- app_comm_cons, !collect_references_cons.
    destruct (all_references st !! ref_name) as [r|]; [apply IH|].
    destruct (Reference_init env index ref_name pk st) as [[r|e] st1];
      [apply IH | reflexivity].
  - reflexivity.
Qed.

(** A record that a pass leaves in the table was there before, or was built
    in the pass for one of its names. *)
Lemma collect_references_provenance pk names :
  forall refs st res st' s r,
    collect_references env index pk names refs st = (res, st') ->
    all_references st' !! s = Some r ->
    all_references st !! s = Some r \/
    (In (Some s) names /\
     exists r0, constructs env index pk s r0 /\ r = with_id (ref_id r) r0).
Proof.
  induction names as [|[ref_name|] names IH]; intros refs st res st' s r.
  - simpl. unfold_M. simpl. intros [= _ <-]. now left.
  - rewrite collect_references_cons.
    destruct (all_references st !! ref_name) as [r1|] eqn:Hlook.
    + intros H Hs. destruct (IH _ _ _ _ _ _ H Hs) as [Hold|[Hin Hb]];
        [now left | right; split; [now right | exact Hb]].
    + destruct (Reference_init env index ref_name pk st) as [[r1|e] st1] eqn:Hinit.
      * pose proof (Reference_init_state _ _ _ _ _ _ _ Hinit) as (Ht & _).
        apply Reference_init_constructs in Hinit as (r0 & Hc & Hr1).
        intros H Hs. destruct (IH _ _ _ _ _ _ H Hs) as [Hold|[Hin Hb]].
        -- simpl in Hold. rewrite Ht, lookup_insert in Hold.
           case_decide as Heq.
           ++ injection Hold as <-. subst ref_name. right.
              split; [now left | eauto].
           ++ now left.
        -- right. split; [now right | exact Hb].
      * pose proof (Reference_init_state _ _ _ _ _ _ _ Hinit) as (Ht & _).
        intros [= _ <-] Hs. left. now rewrite <- Ht.
  - simpl. unfold_M. unfold new_object. simpl. intros [= _ <-] Hs. now left.
Qed.

(** A pass over names that can all be turned into records returns, with a
    record in the table for each of them. *)
Lemma collect_references_constructible pk names :
  forall refs st,
    table_ok st ->
    (forall r, r ∈ refs -> all_references st !! FullName r = Some r) ->
    Forall (constructible env index pk) names ->
    exists out st',
      collect_references env index pk names refs st = (Ok out, st') /\
      forall s, In (Some s) names -> is_Some (all_references st' !! s).
Proof.
  induction names as [|n names IH]; intros refs st Hok Hrefs Hall.
  - exists refs, st. split; [reflexivity|]. intros s [].
  - apply Forall_cons in Hall as [(ref_name & r0 & -> & Hc) Hall].
    rewrite collect_references_cons.
    destruct (all_references st !! ref_name) as [r1|] eqn:Hlook.
    + assert (Hrefs1 : forall r, r ∈ refs ++ [r1] ->
                                 all_references st !! FullName r = Some r).
      { intros r Hr. apply elem_of_app in Hr as [Hr|Hr]; [now apply Hrefs|].
        apply list_elem_of_singleton in Hr. subst r.
        now rewrite (ok_name st Hok _ _ Hlook). }
      destruct (IH (refs ++ [r1]) st Hok Hrefs1 Hall)
        as (out & st' & Hcol & Hin).
      exists out, st'. split; [exact Hcol|].
      intros s [[= <-]|Hs]; [|now apply Hin].
      apply (collect_references_spec env index) in Hcol as (_ & Hsub & _);
        [|exact Hok|exact Hrefs1].
      exists r1. eapply lookup_weaken; eauto.
    + destruct (constructs_Reference_init ref_name pk st r0 Hc)
        as (r & st1 & Hinit).
      rewrite Hinit.
      pose proof (Reference_init_state _ _ _ _ _ _ _ Hinit) as (Ht & Hid & _).
      pose proof Hinit as Hfields.
      apply Reference_init_Ok in Hfields as (nm & v & _ & Hrid & HF & _).
      assert (Hok2 : table_ok (with_reference ref_name r st1))
        by (eapply table_ok_insert; eauto).
      assert (Hrefs2 : forall r', r' ∈ refs ++ [r] ->
                all_references (with_reference ref_name r st1) !! FullName r'
                = Some r').
      { intros r' Hr'. simpl. rewrite Ht.
        apply elem_of_app in Hr' as [Hr'|Hr'].
        - eapply lookup_weaken; [now apply Hrefs|].
          now apply insert_subseteq.
        - apply list_elem_of_singleton in Hr'. subst r'.
          rewrite HF. apply lookup_insert_eq. }
      destruct (IH (refs ++ [r]) _ Hok2 Hrefs2 Hall)
        as (out & st' & Hcol & Hin).
      exists out, st'. split; [exact Hcol|].
      intros s [[= <-]|Hs]; [|now apply Hin].
      apply (collect_references_spec env index) in Hcol as (_ & Hsub & _);
        [|exact Hok2|exact Hrefs2].
      exists r. eapply lookup_weaken; [|exact Hsub]. simpl.
      apply lookup_insert_eq.
Qed.

End Filling.


Lemma mapM_app_Ok {A B} (f : A -> M B) (a b : list A) :
  forall st ps st',
    mapM f (a ++ b) st = (Ok ps, st') ->
    exists pa pb st1,
      mapM f a st = (Ok pa, st1) /\ mapM f b st1 = (Ok pb, st') /\
      ps = pa ++ pb.
Proof.
  induction a as [|x a IH]; intros st ps st'; simpl.
  - intros H. exists [], ps, st. split; [reflexivity|]. now split.
  - unfold mbind, M_bind, bind, mret, M_ret, ret.
    destruct (f x st) as [[y|e] st1]; [|discriminate].
    destruct (mapM f (a ++ b) st1) as [[ys|e] st2] eqn:Hrest; [|discriminate].
    intros [= <- <-].
    destruct (IH _ _ _ Hrest) as (pa & pb & st3 & Ha & Hb & ->).
    rewrite Ha. exists (y :: pa), pb, st3. split; [reflexivity|]. now split.
Qed.

Section FillingProjects.
Variables (env : Env) (folder : string) (index : json).

Lemma read_project_info_raise_state file st e st' :
  read_project_info env folder index file st = (Raise e, st') -> st' = st.
Proof.
  unfold read_project_info, read_project_nuget_packages, parse_root.
  unfold_M. unfold try_except.
  destruct (fs env (path_dirname env file +:+ "\packages.config"))
    as [[|mroot]|]; cbv beta iota.
  - now intros [= _ <-].
  - destruct (fs env file) as [[|root]|]; cbv beta iota;
      try (now intros [= _ <-]).
    match goal with
    | |- context [collect_references ?e ?i ?pk ?names [] ?s] =>
        destruct (collect_references e i pk names [] s) as [[out|err] st1]
    end; discriminate.
  - destruct (fs env file) as [[|root]|]; cbv beta iota;
      try (now intros [= _ <-]).
    match goal with
    | |- context [collect_references ?e ?i ?pk ?names [] ?s] =>
        destruct (collect_references e i pk names [] s) as [[out|err] st1]
    end; discriminate.
Qed.

Lemma read_project_info_provenance file st res st' s r :
  read_project_info env folder index file st = (res, st') ->
  all_references st' !! s = Some r ->
  all_references st !! s = Some r \/ built_from env index file s r.
Proof.
  destruct res as [info|e]; intros H Hs.
  - apply read_project_info_fields in H as (root & Hroot & _ & _ & _ & _ & _ & Hc).
    destruct (collect_references env index (manifest_packages env file)
                                 (declared_names root) [] st)
      as [res1 st1] eqn:Hcol.
    assert (st' = st1) by (destruct res1; now destruct Hc). subst st1.
    destruct (collect_references_provenance env index _ _ _ _ _ _ s r Hcol Hs)
      as [Hold|(Hin & r0 & Hcons & Hr)]; [now left|].
    right. exists root, r0. auto.
  - apply read_project_info_raise_state in H. subst st'. now left.
Qed.

Lemma read_projects_provenance files :
  forall st res st' s r,
    mapM (read_project_info env folder index) files st = (res, st') ->
    all_references st' !! s = Some r ->
    all_references st !! s = Some r \/
    exists file, In file files /\ built_from env index file s r.
Proof.
  induction files as [|file files IH]; intros st res st' s r; simpl.
  - unfold_M. intros [= _ <-] Hs. now left.
  - unfold mbind at 1. unfold M_bind, bind.
    destruct (read_project_info env folder index file st)
      as [[info|e] st1] eqn:Hinfo.
    + unfold mbind, M_bind, bind.
      destruct (mapM (read_project_info env folder index) files st1)
        as [res2 st2] eqn:Hrest.
      intros H Hs.
      assert (st' = st2) by (destruct res2; unfold_M; now injection H).
      subst st2.
      destruct (IH _ _ _ _ _ Hrest Hs) as [Hold|(f & Hf & Hb)].
      * destruct (read_project_info_provenance _ _ _ _ _ _ Hinfo Hold)
          as [Hold'|Hb]; [now left|].
        right. exists file. split; [now left | exact Hb].
      * right. exists f. split; [now right | exact Hb].
    + intros [= _ <-] Hs.
      apply read_project_info_raise_state in Hinfo. subst st1. now left.
Qed.

(** The project file that first reaches a string builds its record. *)
Lemma read_project_info_creates file root before after s r0 st info st' :
  table_ok st ->
  all_references st !! s = None ->
  fs env file = Some (Xml root) ->
  declared_names root = before ++ Some s :: after ->
  Forall (constructible env index (manifest_packages env file)) before ->
  constructs env index (manifest_packages env file) s r0 ->
  read_project_info env folder index file st = (Ok info, st') ->
  exists r, all_references st' !! s = Some r /\ r = with_id (ref_id r) r0.
Proof.
  intros Hok Hnone Hfile Hnames Hbefore Hcons H.
  apply read_project_info_fields in H as (root' & Hroot & _ & _ & _ & _ & _ & Hc).
  assert (root' = root) by congruence. subst root'.
  set (pk := manifest_packages env file) in *.
  assert (Hprefix : Forall (constructible env index pk) (before ++ [Some s])).
  { apply Forall_app. split; [exact Hbefore|]. constructor; [|constructor].
    exists s, r0. now split. }
  assert (Hnil : forall r : Reference,
             r ∈ [] -> all_references st !! FullName r = Some r)
    by (intros r Hr; now apply elem_of_nil in Hr).
  destruct (collect_references_constructible env index pk _ [] st Hok Hnil Hprefix)
    as (out1 & st1 & Hcol1 & Hin1).
  destruct (Hin1 s) as [r Hr]; [apply in_or_app; right; now left|].
  exists r.
  destruct (collect_references_provenance env index _ _ _ _ _ _ s r Hcol1 Hr)
    as [Hold|(_ & r0' & Hcons' & Hwith)]; [congruence|].
  assert (r0' = r0) by (unfold constructs in *; congruence). subst r0'.
  split; [|exact Hwith].
  rewrite Hnames in Hc.
  replace (before ++ Some s :: after) with ((before ++ [Some s]) ++ after) in Hc
    by now rewrite <- app_assoc.
  rewrite collect_references_app, Hcol1 in Hc.
  destruct (collect_references env index pk after out1 st1)
    as [res2 st2] eqn:Hcol2.
  assert (st' = st2) by (destruct res2; now destruct Hc). subst st2.
  apply (collect_references_spec env index) in Hcol1 as (Hok1 & _ & _ & Hout1);
    [|exact Hok|exact Hnil].
  apply (collect_references_spec env index) in Hcol2 as (_ & Hsub & _);
    [|exact Hok1|now apply Hout1].
  eapply lookup_weaken; eauto.
Qed.

Lemma read_project_info_records file root before after s st info st' :
  table_ok st ->
  fs env file = Some (Xml root) ->
  declared_names root = before ++ Some s :: after ->
  Forall (constructible env index (manifest_packages env file)) before ->
  constructible env index (manifest_packages env file) (Some s) ->
  read_project_info env folder index file st = (Ok info, st') ->
  is_Some (all_references st' !! s).
Proof.
  intros Hok Hfile Hnames Hbefore Hcons H.
  apply read_project_info_fields in H as (root' & Hroot & _ & _ & _ & _ & _ & Hc).
  assert (root' = root) by congruence. subst root'.
  set (pk := manifest_packages env file) in *.
  assert (Hprefix : Forall (constructible env index pk) (before ++ [Some s])).
  { apply Forall_app. split; [exact Hbefore|]. now constructor. }
  assert (Hnil : forall r : Reference,
             r ∈ [] -> all_references st !! FullName r = Some r)
    by (intros r Hr; now apply elem_of_nil in Hr).
  destruct (collect_references_constructible env index pk _ [] st Hok Hnil Hprefix)
    as (out1 & st1 & Hcol1 & Hin1).
  destruct (Hin1 s) as [r Hr]; [apply in_or_app; right; now left|].
  exists r.
  rewrite Hnames in Hc.
  replace (before ++ Some s :: after) with ((before ++ [Some s]) ++ after) in Hc
    by now rewrite <- app_assoc.
  rewrite collect_references_app, Hcol1 in Hc.
  destruct (collect_references env index pk after out1 st1)
    as [res2 st2] eqn:Hcol2.
  assert (st' = st2) by (destruct res2; now destruct Hc). subst st2.
  apply (collect_references_spec env index) in Hcol1 as (Hok1 & _ & _ & Hout1);
    [|exact Hok|exact Hnil].
  apply (collect_references_spec env index) in Hcol2 as (_ & Hsub & _);
    [|exact Hok1|now apply Hout1].
  eapply lookup_weaken; eauto.
Qed.

End FillingProjects.


Lemma ProjectsAnalyzer_init_index (env : Env) (folder : string)
      (analyzer : ProjectsAnalyzer) (st0 st : state) :
  ProjectsAnalyzer_init env folder st0 = (Ok analyzer, st) ->
  http_get_json env "https://api.nuget.org/v3/index.json"
  = Some (nuget_service_index analyzer) /\
  mapM (read_project_info env folder (nuget_service_index analyzer))
       (get_files_in_folder env folder ".csproj") (started st0)
  = (Ok (pa_projects_info analyzer), st).
Proof.
  unfold ProjectsAnalyzer_init, started.
  unfold mbind, M_bind, bind, set_all_references, NugetServiceIndex_init,
    http_get. simpl.
  destruct (http_get_json env _) as [index|]; [|discriminate].
  match goal with
  | |- context [mapM ?f ?files ?s] =>
      destruct (mapM f files s) as [[projects|e] st1] eqn:Hmap
  end; [|discriminate].
  unfold_M. intros [= <- <-]. simpl. auto.
Qed.

Lemma read_project_info_complete (env : Env) (folder : string) (index : json)
      file st info st' root :
  table_ok st ->
  read_project_info env folder index file st = (Ok info, st') ->
  fs env file = Some (Xml root) ->
  Forall (constructible env index (manifest_packages env file))
         (declared_names root) ->
  map (fun r => Some (FullName r)) (References info) = declared_names root.
Proof.
  intros Hok H Hfile Hall.
  apply read_project_info_fields in H as (root' & Hroot & _ & _ & _ & _ & _ & Hc).
  assert (root' = root) by congruence. subst root'.
  assert (Hnil : forall r : Reference,
             r ∈ [] -> all_references st !! FullName r = Some r)
    by (intros r Hr; now apply elem_of_nil in Hr).
  destruct (collect_references_constructible env index _ _ [] st Hok Hnil Hall)
    as (out & st1 & Hcol & _).
  rewrite Hcol in Hc. destruct Hc as [-> _].
  now apply (collect_references_names env index _ _ [] st out st1 Hok) in Hcol.
Qed.

(** C1, amended: records are kept per declared reference string (the whole
    [Include] value), not per bare name: the record stored under a string
    carries that string, and different strings have different objects.
    Every record was built from the manifest of a project file found that
    declares its string.  A string that a project file declares has a
    record when the reference elements of that file up to it can all be
    turned into records; the record is the one built with the manifest of
    that file when no earlier file declares the string.  A project whose reference
    elements can all be turned into records holds one record per element.
    Every reference of every project is the object that the table holds
    under its string, so all the mentions of a string that projects hold are
    one object.  The registry is queried only to create a record: the
    requests of a run are the service index, at most one per record flagged
    as a package, and at most one more per project whose reference list
    ended empty. *)
Theorem one_record_per_declared_string
        (env : Env) (folder : string) (analyzer : ProjectsAnalyzer) (st : state)
        (Hrun : ProjectsAnalyzer_init env folder initial_state = (Ok analyzer, st)) :
  let projects := pa_projects_info analyzer in
  let files := get_files_in_folder env folder ".csproj" in
  let index := nuget_service_index analyzer in
  (forall s r, all_references st !! s = Some r -> FullName r = s) /\
  (forall s1 s2 r1 r2,
      all_references st !! s1 = Some r1 -> all_references st !! s2 = Some r2 ->
      ref_id r1 = ref_id r2 -> s1 = s2) /\
  (forall s r, all_references st !! s = Some r ->
               exists file, In file files /\ built_from env index file s r) /\
  (forall file root before after s,
      In file files ->
      fs env file = Some (Xml root) ->
      declared_names root = before ++ Some s :: after ->
      Forall (constructible env index (manifest_packages env file)) before ->
      constructible env index (manifest_packages env file) (Some s) ->
      exists r, all_references st !! s = Some r) /\
  (forall earlier file later root before after s r0,
      files = earlier ++ file :: later ->
      Forall (fun f => forall root', fs env f = Some (Xml root') ->
                                     ~ In (Some s) (declared_names root'))
             earlier ->
      fs env file = Some (Xml root) ->
      declared_names root = before ++ Some s :: after ->
      Forall (constructible env index (manifest_packages env file)) before ->
      constructs env index (manifest_packages env file) s r0 ->
      exists r, all_references st !! s = Some r /\ r = with_id (ref_id r) r0) /\
  Forall2 (fun file p =>
             forall root,
               fs env file = Some (Xml root) ->
               Forall (constructible env index (manifest_packages env file))
                      (declared_names root) ->
               map (fun r => Some (FullName r)) (References p)
               = declared_names root)
          files projects /\
  (forall p r, p ∈ projects -> r ∈ References p ->
               all_references st !! FullName r = Some r) /\
  (forall p1 p2 r1 r2,
      p1 ∈ projects -> p2 ∈ projects ->
      r1 ∈ References p1 -> r2 ∈ References p2 ->
      FullName r1 = FullName r2 -> r1 = r2) /\
  (length (requests st)
   <= 1 + size (packages_of (all_references st))
      + length (List.filter no_references projects))%nat.
Proof.
  intros projects files index. subst projects files index.
  apply ProjectsAnalyzer_init_index in Hrun as [Hindex Hmap].
  set (index := nuget_service_index analyzer) in *.
  set (files := get_files_in_folder env folder ".csproj") in *.
  set (projects := pa_projects_info analyzer) in *.
  pose proof (table_ok_started initial_state) as Hok0.
  pose proof (read_projects_spec env folder index files _ _ _ Hok0 Hmap)
    as (Hok & _ & Hspec).
  destruct (Hspec projects eq_refl) as (_ & Hall & Hcount).
  split; [exact (ok_name st Hok)|]. split; [exact (ok_id st Hok)|].
  split; [|split; [|split; [|split; [|split; [exact Hall|split]]]]].
  - intros s r Hs.
    destruct (read_projects_provenance env folder index files _ _ _ s r Hmap Hs)
      as [Hold|H]; [|exact H].
    simpl in Hold. rewrite lookup_empty in Hold. discriminate.
  - intros file root before after s Hin Hfile Hnames Hbefore Hcons.
    apply in_split in Hin as (earlier & later & Hfiles).
    rewrite Hfiles in Hmap.
    apply mapM_app_Ok in Hmap as (pa & pb & st1 & Ha & Hb & _).
    pose proof (read_projects_spec env folder index earlier _ _ _ Hok0 Ha)
      as (Hok1 & _ & _).
    simpl in Hb. unfold mbind, M_bind, bind, mret, M_ret, ret in Hb.
    destruct (read_project_info env folder index file st1)
      as [[info|e] st2] eqn:Hinfo; [|discriminate].
    destruct (mapM (read_project_info env folder index) later st2)
      as [[rest|e] st3] eqn:Hlater; [|discriminate].
    injection Hb as _ <-.
    destruct (read_project_info_records env folder index file root before after
                s st1 info st2 Hok1 Hfile Hnames Hbefore Hcons Hinfo)
      as (r & Hr).
    exists r.
    pose proof (read_project_info_spec env folder index file st1 _ _ Hok1 Hinfo)
      as (Hok2 & _).
    pose proof (read_projects_spec env folder index later _ _ _ Hok2 Hlater)
      as (_ & Hsub & _).
    eapply lookup_weaken; eauto.
  - intros earlier file later root before after s r0
           Hfiles Hearlier Hfile Hnames Hbefore Hcons.
    rewrite Hfiles in Hmap.
    apply mapM_app_Ok in Hmap as (pa & pb & st1 & Ha & Hb & _).
    pose proof (read_projects_spec env folder index earlier _ _ _ Hok0 Ha)
      as (Hok1 & _ & _).
    assert (Hnone : all_references st1 !! s = None).
    { destruct (all_references st1 !! s) as [r|] eqn:Hs; [|reflexivity].
      destruct (read_projects_provenance env folder index earlier _ _ _ s r Ha Hs)
        as [Hold|(f & Hf & root' & r0' & Hroot' & Hin & _)].
      - simpl in Hold. rewrite lookup_empty in Hold. discriminate.
      - rewrite Forall_forall in Hearlier.
        apply list_elem_of_In in Hf.
        now destruct (Hearlier f Hf root' Hroot'). }
    simpl in Hb. unfold mbind, M_bind, bind, mret, M_ret, ret in Hb.
    destruct (read_project_info env folder index file st1)
      as [[info|e] st2] eqn:Hinfo; [|discriminate].
    destruct (mapM (read_project_info env folder index) later st2)
      as [[rest|e] st3] eqn:Hlater; [|discriminate].
    injection Hb as _ <-.
    destruct (read_project_info_creates env folder index file root before after
                s r0 st1 info st2 Hok1 Hnone Hfile Hnames Hbefore Hcons Hinfo)
      as (r & Hr & Hwith).
    exists r. split; [|exact Hwith].
    pose proof (read_project_info_spec env folder index file st1 _ _ Hok1 Hinfo)
      as (Hok2 & _).
    pose proof (read_projects_spec env folder index later _ _ _ Hok2 Hlater)
      as (_ & Hsub & _).
    eapply lookup_weaken; eauto.
  - eapply read_projects_Forall2; [|exact Hok0|exact Hmap].
    intros file s info s' Hoks H root Hfile Hcons.
    eapply read_project_info_complete; eauto.
  - intros p1 p2 r1 r2 Hp1 Hp2 Hr1 Hr2 HF.
    pose proof (Hall p1 r1 Hp1 Hr1) as H1.
    pose proof (Hall p2 r2 Hp2 Hr2) as H2. congruence.
  - simpl in Hcount. unfold nr_packages in Hcount. simpl in Hcount.
    unfold packages_of in Hcount at 1.
    rewrite map_filter_empty, map_size_empty in Hcount.
    lia.
Qed.

Lemma one_record_per_declared_string_witness :
  exists analyzer st r,
    ProjectsAnalyzer_init Demo.world "C:\src" initial_state = (Ok analyzer, st) /\
    all_references st !! "Foo, Version=1.0.0.0, Culture=neutral" = Some r /\
    r = with_id (ref_id r)
          {| ref_id := 0;
             FullName := "Foo, Version=1.0.0.0, Culture=neutral";
             Name := "Foo"; Version := "1.0.0.0"; IsNuGetPackage := true;
             LatestVersion := Some "2.0.0" |}.
Proof.
  destruct (ProjectsAnalyzer_init Demo.world "C:\src" initial_state)
    as [res st] eqn:E.
  assert (Hres : exists analyzer,
             res = Ok analyzer /\ nuget_service_index analyzer = Demo.index_json).
  { replace res with (fst (ProjectsAnalyzer_init Demo.world "C:\src" initial_state))
      by now rewrite E.
    vm_compute. eauto. }
  destruct Hres as (analyzer & -> & Hindex).
  destruct (one_record_per_declared_string Demo.world "C:\src" analyzer st E)
    as (_ & _ & _ & _ & Hfirst & _).
  rewrite Hindex in Hfirst.
  destruct (Hfirst ["C:\src\app\App.csproj"] "C:\src\lib\Lib.csproj" []
              (Demo.project ["Foo, Version=1.0.0.0, Culture=neutral"; "System"])
              [] [Some "System"] "Foo, Version=1.0.0.0, Culture=neutral"
              {| ref_id := 0;
                 FullName := "Foo, Version=1.0.0.0, Culture=neutral";
                 Name := "Foo"; Version := "1.0.0.0"; IsNuGetPackage := true;
                 LatestVersion := Some "2.0.0" |})
    as (r & Hr & Hwith).
  - reflexivity.
  - constructor; [|constructor]. intros root' [= <-].
    intros [H|[H|[]]]; discriminate.
  - reflexivity.
  - reflexivity.
  - constructor.
  - reflexivity.
  - exists analyzer, st, r. split; [reflexivity|]. now split.
Defined.
